(** * The hub shuttle: message store, dispatcher and reconciler

    A shallow embedding of [packages/hub-shuttle] (the bundled
    [dist/index.mjs]): the protobuf-to-JSON body conversion, the
    [messages] upsert of [MessageProcessor.storeMessage], the
    transactional dispatcher [HubEventProcessor], the Redis checkpoint
    of [RedisClient] and [MessageReconciliation].

    JavaScript numbers that hold integers are [Z]; [Uint8Array]s are
    lists of [byte]; a [Date] is the millisecond count it was built
    from; a JavaScript object used as a dictionary is a [gmap].  Logging
    is left out. *)

From Stdlib Require Import ZArith NArith.
From Stdlib.Strings Require Import Ascii String Byte.
From Stdlib Require Import DecimalString DecimalN.
From stdpp Require Import base option list gmap strings.

Open Scope Z_scope.
Open Scope string_scope.

(** ** Bytes and their hexadecimal text *)

Definition bytes := list byte.

#[global] Instance byte_eq_decision : EqDecision byte := Byte.byte_eq_dec.

Definition hexDigit (n : N) : ascii :=
  match n with
  | 0%N => "0" | 1%N => "1" | 2%N => "2" | 3%N => "3"
  | 4%N => "4" | 5%N => "5" | 6%N => "6" | 7%N => "7"
  | 8%N => "8" | 9%N => "9" | 10%N => "a" | 11%N => "b"
  | 12%N => "c" | 13%N => "d" | 14%N => "e" | _ => "f"
  end%char.

(** [Buffer.from(value).toString("hex")]: two lower-case digits per byte. *)
Fixpoint toHex (value : bytes) : string :=
  match value with
  | [] => EmptyString
  | b :: rest =>
      String (hexDigit (Byte.to_N b / 16))
        (String (hexDigit (Byte.to_N b mod 16)) (toHex rest))
  end.

Definition bytesToHex (value : bytes) : string := "0x" ++ toHex value.

(** ** Results and exceptions *)

Record HubError := { errCode : string; errMessage : string }.

(** The [Result] of neverthrow, as the hub SDK returns it. *)
Inductive HubResult (A : Type) : Type :=
| ok (value : A)
| err (error : HubError).
Arguments ok {A} value.
Arguments err {A} error.

(** One constructor per [throw] of the shuttle; [HandlerRaised] is whatever
    the caller's hook throws. *)
Inductive Exn : Type :=
| InvalidMessage (e : HubError)
| MessageDataMissing
| MissingBody (field : string)
| MissingReactionTarget
| MissingLinkTarget
| UnknownMessageType
| UnexpectedProtocol
| Base58Unwrap (e : HubError)
| HubErrorThrown (e : HubError)
| TypeError
| HandlerRaised (what : string).

Inductive Outcome (A : Type) : Type :=
| Returned (a : A)
| Thrown (e : Exn).
Arguments Returned {A} a.
Arguments Thrown {A} e.

(** A value that may be [undefined] or [null]. *)
Inductive Nullish (A : Type) : Type :=
| undefined
| null
| present (a : A).
Arguments undefined {A}.
Arguments null {A}.
Arguments present {A} a.

Definition Date := Z.

(** ** Hub messages (the protobuf shape the shuttle reads) *)

Inductive MessageType : Type :=
| CAST_ADD | CAST_REMOVE
| REACTION_ADD | REACTION_REMOVE
| LINK_ADD | LINK_REMOVE
| VERIFICATION_ADD_ETH_ADDRESS | VERIFICATION_REMOVE
| USER_DATA_ADD | USERNAME_PROOF
| OTHER_MESSAGE_TYPE (wire : Z).

Inductive Protocol : Type :=
| ETHEREUM
| SOLANA
| OTHER_PROTOCOL (wire : Z).

#[global] Instance MessageType_eq_decision : EqDecision MessageType.
Proof. solve_decision. Defined.

#[global] Instance Protocol_eq_decision : EqDecision Protocol.
Proof. solve_decision. Defined.

Record CastId := { castId_fid : Z; castId_hash : bytes }.

Record Embed := { embed_castId : option CastId; embed_url : option string }.

Record CastAddBody := {
  cab_embeds : list Embed;
  cab_mentions : list Z;
  cab_mentionsPositions : list Z;
  cab_text : string;
  cab_parentCastId : option CastId;
  cab_parentUrl : option string }.

Record CastRemoveBody := { crb_targetHash : bytes }.

Record ReactionBody := {
  rb_type : Z;
  rb_targetCastId : option CastId;
  rb_targetUrl : option string }.

Record LinkBody := {
  lb_type : string;
  lb_targetFid : option Z;
  lb_displayTimestamp : option Z }.

Record VerificationAddAddressBody := {
  vab_address : bytes;
  vab_claimSignature : bytes;
  vab_blockHash : bytes;
  vab_protocol : Protocol }.

Record VerificationRemoveBody := {
  vrb_address : bytes;
  vrb_protocol : Protocol }.

Record UserDataBody := { udb_type : Z; udb_value : string }.

Record UserNameProof := {
  unp_timestamp : Z;
  unp_name : bytes;
  unp_owner : bytes;
  unp_signature : bytes;
  unp_fid : Z;
  unp_type : Z }.

Record MessageData := {
  md_type : MessageType;
  md_fid : Z;
  md_timestamp : Z;
  castAddBody : option CastAddBody;
  castRemoveBody : option CastRemoveBody;
  reactionBody : option ReactionBody;
  linkBody : option LinkBody;
  verificationAddAddressBody : option VerificationAddAddressBody;
  verificationRemoveBody : option VerificationRemoveBody;
  userDataBody : option UserDataBody;
  usernameProofBody : option UserNameProof }.

Record Message := {
  data : option MessageData;
  hash : bytes;
  hashScheme : Z;
  signature : bytes;
  signatureScheme : Z;
  signer : bytes }.

(** ** The JSON bodies stored in the [body] column *)

Inductive TargetJson : Type :=
| TargetCast (fid : Z) (hashHex : string)
| TargetUrl (url : string).

Inductive MessageBodyJson : Type :=
| CastAddBodyJson (embeds : list string) (mentions mentionsPositions : list Z)
    (text : string) (parent : option TargetJson)
| CastRemoveBodyJson (targetHash : string)
| ReactionBodyJson (type : Z) (target : TargetJson)
| LinkBodyJson (type : string) (targetFid : Z) (displayTimestamp : option Z)
| VerificationAddEthAddressBodyJson (address claimSignature blockHash : string)
    (protocol : option string)
| VerificationRemoveBodyJson (address : string) (protocol : option string)
| UserDataBodyJson (type : Z) (value : string)
| UsernameProofBodyJson (timestamp : Z) (name owner signature : string)
    (fid : Z) (type : Z).

(** ** The hub SDK the shuttle imports

    [@farcaster/hub-nodejs] is a dependency of the shuttle; its functions
    are taken as an interface, so every statement below holds for any
    implementation of them. *)

Class HubSdk := {
  validateMessage : Message -> HubResult Message;
  fromFarcasterTime : Z -> HubResult Z;
  bytesToBase58 : bytes -> HubResult string;
  encodeMessage : Message -> bytes }.

(** ** Exceptions as values *)

Definition obind {A B : Type} (x : Outcome A) (k : A -> Outcome B) : Outcome B :=
  match x with
  | Returned a => k a
  | Thrown e => Thrown e
  end.

Declare Scope outcome_scope.
Delimit Scope outcome_scope with outcome.
Notation "'let!' x ':=' c1 'in' c2" := (obind c1 (fun x => c2))
  (at level 10, x name, c1 at level 100, c2 at level 200) : outcome_scope.

(** JavaScript truthiness of the optional fields the codec tests. *)
Definition truthyString (s : option string) : option string :=
  match s with
  | Some EmptyString => None
  | other => other
  end.

Definition truthyNumber (n : option Z) : option Z :=
  match n with
  | Some 0 => None
  | other => other
  end.

Section Codec.
Context {sdk : HubSdk}.

Definition farcasterTimeToDate (time : Nullish Z) : Outcome (Nullish Date) :=
  match time with
  | undefined => Returned undefined
  | null => Returned null
  | present t =>
      match fromFarcasterTime t with
      | err e => Thrown (HubErrorThrown e)
      | ok value => Returned (present value)
      end
  end.

(** The second argument of [protocolBytesToString] is either the protobuf
    enum or the lower-case tag of a stored body. *)
Inductive ProtocolArg : Type :=
| ProtocolEnum (p : Protocol)
| ProtocolTag (tag : string).

Definition unsafeUnwrap {A : Type} (r : HubResult A) : Outcome A :=
  match r with
  | ok value => Returned value
  | err e => Thrown (Base58Unwrap e)
  end.

Definition protocolBytesToString (value : bytes) (protocol : ProtocolArg) : Outcome string :=
  match protocol with
  | ProtocolEnum ETHEREUM => Returned (bytesToHex value)
  | ProtocolEnum SOLANA => unsafeUnwrap (bytesToBase58 value)
  | ProtocolEnum (OTHER_PROTOCOL _) => Thrown UnexpectedProtocol
  | ProtocolTag tag =>
      if String.eqb tag "ethereum" then Returned (bytesToHex value)
      else if String.eqb tag "solana" then unsafeUnwrap (bytesToBase58 value)
      else Thrown UnexpectedProtocol
  end.

Definition hubProtocolToVerificationProtocol (protocol : Protocol) : option string :=
  match protocol with
  | ETHEREUM => Some "ethereum"
  | SOLANA => Some "solana"
  | OTHER_PROTOCOL _ => None
  end.

Definition embedToJson (embed : Embed) : list string :=
  match embed_castId embed, embed_url embed with
  | Some castId, _ => [bytesToHex (castId_hash castId)]
  | None, Some url => [url]
  | None, None => []
  end.

Definition castIdToJson (c : CastId) : TargetJson :=
  TargetCast (castId_fid c) (bytesToHex (castId_hash c)).

Definition required {A : Type} (field : string) (o : option A) : Outcome A :=
  match o with
  | Some a => Returned a
  | None => Thrown (MissingBody field)
  end.

Definition convertDataBodyToJson (d : MessageData) : Outcome MessageBodyJson :=
  match md_type d with
  | CAST_ADD =>
      let! b := required "castAddBody" (castAddBody d) in
      Returned (CastAddBodyJson
        (flat_map embedToJson (cab_embeds b))
        (cab_mentions b) (cab_mentionsPositions b) (cab_text b)
        (match cab_parentCastId b with
         | Some parentCastId => Some (castIdToJson parentCastId)
         | None => TargetUrl <$> cab_parentUrl b
         end))
  | CAST_REMOVE =>
      let! b := required "castRemoveBody" (castRemoveBody d) in
      Returned (CastRemoveBodyJson (bytesToHex (crb_targetHash b)))
  | REACTION_ADD | REACTION_REMOVE =>
      let! b := required "reactionBody" (reactionBody d) in
      match rb_targetCastId b, truthyString (rb_targetUrl b) with
      | Some c, _ => Returned (ReactionBodyJson (rb_type b) (castIdToJson c))
      | None, Some targetUrl => Returned (ReactionBodyJson (rb_type b) (TargetUrl targetUrl))
      | None, None => Thrown MissingReactionTarget
      end
  | LINK_ADD | LINK_REMOVE =>
      let! b := required "linkBody" (linkBody d) in
      match truthyNumber (lb_targetFid b) with
      | None => Thrown MissingLinkTarget
      | Some targetFid =>
          match truthyNumber (lb_displayTimestamp b) with
          | None => Returned (LinkBodyJson (lb_type b) targetFid None)
          | Some displayTimestamp =>
              match fromFarcasterTime displayTimestamp with
              | err e => Thrown (HubErrorThrown e)
              | ok value => Returned (LinkBodyJson (lb_type b) targetFid (Some value))
              end
          end
      end
  | VERIFICATION_ADD_ETH_ADDRESS =>
      let! b := required "verificationAddAddressBody" (verificationAddAddressBody d) in
      let protocol := vab_protocol b in
      let! address := protocolBytesToString (vab_address b) (ProtocolEnum protocol) in
      let! claimSignature := protocolBytesToString (vab_claimSignature b) (ProtocolEnum protocol) in
      let! blockHash := protocolBytesToString (vab_blockHash b) (ProtocolEnum protocol) in
      Returned (VerificationAddEthAddressBodyJson address claimSignature blockHash
                  (hubProtocolToVerificationProtocol protocol))
  | VERIFICATION_REMOVE =>
      let! b := required "verificationRemoveBody" (verificationRemoveBody d) in
      let protocol := vrb_protocol b in
      let! address := protocolBytesToString (vrb_address b) (ProtocolEnum protocol) in
      Returned (VerificationRemoveBodyJson address
                  (hubProtocolToVerificationProtocol protocol))
  | USER_DATA_ADD =>
      let! b := required "userDataBody" (userDataBody d) in
      Returned (UserDataBodyJson (udb_type b) (udb_value b))
  | USERNAME_PROOF =>
      let! b := required "usernameProofBody" (usernameProofBody d) in
      Returned (UsernameProofBodyJson (unp_timestamp b)
                  (bytesToHex (unp_name b)) (bytesToHex (unp_owner b))
                  (bytesToHex (unp_signature b)) (unp_fid b) (unp_type b))
  | OTHER_MESSAGE_TYPE _ => Thrown UnknownMessageType
  end%outcome.

(** [message.data?.type] is [undefined] without a data section, which
    falls to the [default] arm. *)
Definition convertProtobufMessageBodyToJson (message : Message) : Outcome MessageBodyJson :=
  match data message with
  | None => Thrown UnknownMessageType
  | Some d => convertDataBodyToJson d
  end.

End Codec.

(** ** State and exceptions: the effects of the shuttle's async functions

    A computation reads and writes a state [S] and either returns or
    throws; what it wrote before throwing stays written unless a
    transaction rolls it back. *)

Definition Eff (S A : Type) : Type := S -> S * Outcome A.

Definition ret {S A : Type} (a : A) : Eff S A := fun s => (s, Returned a).

Definition throw {S A : Type} (e : Exn) : Eff S A := fun s => (s, Thrown e).

Definition bind {S A B : Type} (c : Eff S A) (k : A -> Eff S B) : Eff S B :=
  fun s =>
    match c s with
    | (s', Returned a) => k a s'
    | (s', Thrown e) => (s', Thrown e)
    end.

Definition lift {S A : Type} (x : Outcome A) : Eff S A := fun s => (s, x).

Declare Scope eff_scope.
Delimit Scope eff_scope with eff.
Notation "'do!' x ':=' c1 'in' c2" := (bind c1 (fun x => c2))
  (at level 10, x name, c1 at level 100, c2 at level 200) : eff_scope.
Notation "c1 ';;' c2" := (bind c1 (fun _ => c2))
  (at level 100, c2 at level 200, right associativity) : eff_scope.

(** ** The [messages] table *)

Definition RowId := string.

Record MessageRow := {
  row_id : RowId;
  row_fid : Z;
  row_type : MessageType;
  row_timestamp : Nullish Date;
  row_hashScheme : Z;
  row_signatureScheme : Z;
  row_hash : bytes;
  row_signer : bytes;
  row_raw : bytes;
  row_body : MessageBodyJson;
  deletedAt : option Date;
  prunedAt : option Date;
  revokedAt : option Date }.

Abbreviation Table := (list MessageRow).

(** The database fills the generated [id] column of a new row. *)
Class Postgres := { generatedId : Table -> RowId }.

Inductive StoreMessageOperation : Type := merge | delete | prune | revoke.

Record OpData := {
  op_deletedAt : option Date;
  op_prunedAt : option Date;
  op_revokedAt : option Date }.

Definition opDataFor (operation : StoreMessageOperation) (now : Date) : OpData :=
  let opData := {| op_deletedAt := None; op_prunedAt := None; op_revokedAt := None |} in
  match operation with
  | merge => opData
  | delete => {| op_deletedAt := Some now;
                 op_prunedAt := op_prunedAt opData; op_revokedAt := op_revokedAt opData |}
  | prune => {| op_deletedAt := op_deletedAt opData;
                op_prunedAt := Some now; op_revokedAt := op_revokedAt opData |}
  | revoke => {| op_deletedAt := op_deletedAt opData;
                 op_prunedAt := op_prunedAt opData; op_revokedAt := Some now |}
  end.

Definition isNotNull {A : Type} (x : option A) : bool :=
  match x with Some _ => true | None => false end.

Definition isNull {A : Type} (x : option A) : bool := negb (isNotNull x).

(** The conflict target [(hash, fid, type)]. *)
Definition sameKey (a b : MessageRow) : bool :=
  bool_decide (row_hash a = row_hash b) &&
  bool_decide (row_fid a = row_fid b) &&
  bool_decide (row_type a = row_type b).

(** The [where] of the conflict update: [excluded] is the proposed row,
    [messages] the stored one. *)
Definition lifecycleChanges (excluded messages : MessageRow) : bool :=
  (isNotNull (deletedAt excluded) && isNull (deletedAt messages)) ||
  (isNull (deletedAt excluded) && isNotNull (deletedAt messages)) ||
  (isNotNull (prunedAt excluded) && isNull (prunedAt messages)) ||
  (isNull (prunedAt excluded) && isNotNull (prunedAt messages)) ||
  (isNotNull (revokedAt excluded) && isNull (revokedAt messages)) ||
  (isNull (revokedAt excluded) && isNotNull (revokedAt messages)).

Definition doUpdateSet (excluded messages : MessageRow) : MessageRow :=
  {| row_id := row_id messages;
     row_fid := row_fid messages;
     row_type := row_type messages;
     row_timestamp := row_timestamp messages;
     row_hashScheme := row_hashScheme messages;
     row_signatureScheme := row_signatureScheme excluded;
     row_hash := row_hash messages;
     row_signer := row_signer excluded;
     row_raw := row_raw excluded;
     row_body := row_body messages;
     deletedAt := deletedAt excluded;
     prunedAt := prunedAt excluded;
     revokedAt := revokedAt excluded |}.

(** [insert into messages ... on conflict (hash, fid, type) do update set
    ... where ... returning id]: the new table and the returned row, if
    any. *)
Fixpoint insertOnConflict (excluded : MessageRow) (table : Table) : Table * option RowId :=
  match table with
  | [] => ([excluded], Some (row_id excluded))
  | messages :: rest =>
      if sameKey excluded messages then
        if lifecycleChanges excluded messages
        then (doUpdateSet excluded messages :: rest, Some (row_id messages))
        else (table, None)
      else
        let '(rest', returning) := insertOnConflict excluded rest in
        (messages :: rest', returning)
  end.

Section Store.
Context {sdk : HubSdk} {pg : Postgres}.

Definition insertValues (message : Message) (d : MessageData) (timestamp : Nullish Date)
    (body : MessageBodyJson) (opData : OpData) (table : Table) : MessageRow :=
  {| row_id := generatedId table;
     row_fid := md_fid d;
     row_type := md_type d;
     row_timestamp := timestamp;
     row_hashScheme := hashScheme message;
     row_signatureScheme := signatureScheme message;
     row_hash := hash message;
     row_signer := signer message;
     row_raw := encodeMessage message;
     row_body := body;
     deletedAt := op_deletedAt opData;
     prunedAt := op_prunedAt opData;
     revokedAt := op_revokedAt opData |}.

(** [MessageProcessor.storeMessage(message, trx, operation)]; [now] is what
    [new Date()] reads during the call. *)
Definition storeMessage (message : Message) (operation : StoreMessageOperation)
    (now : Date) : Eff Table bool :=
  match validateMessage message with
  | err e => throw (InvalidMessage e)
  | ok _ =>
      match data message with
      | None => throw MessageDataMissing
      | Some d =>
          (do! body := lift (convertProtobufMessageBodyToJson message) in
           let opData := opDataFor operation now in
           do! timestamp := lift (farcasterTimeToDate (present (md_timestamp d))) in
           fun trx =>
             let '(trx', result) :=
               insertOnConflict (insertValues message d timestamp body opData trx) trx in
             (trx', Returned (isNotNull result)))%eff
      end
  end.

End Store.

(** ** Transactions

    [db.transaction().execute(callback)]: begin, run the callback on the
    transaction, commit when it returns, roll back and rethrow when it
    throws. *)

Definition transaction {A : Type} (callback : Eff Table A) : Eff Table A :=
  fun db =>
    match callback db with
    | (trx, Returned result) => (trx, Returned result)
    | (_, Thrown error) => (db, Thrown error)
    end.

(** ** Hub events and the dispatcher *)

Inductive HubEventType : Type :=
| MERGE_MESSAGE
| PRUNE_MESSAGE
| REVOKE_MESSAGE
| MERGE_USERNAME_PROOF
| MERGE_ON_CHAIN_EVENT
| HUB_EVENT_TYPE_NONE.

Record MergeMessageBody := {
  mmb_message : option Message;
  mmb_deletedMessages : list Message }.

Record HubEvent := {
  he_type : HubEventType;
  he_id : N;
  mergeMessageBody : option MergeMessageBody;
  pruneMessageBody : option Message;
  revokeMessageBody : option Message }.

(** Modelled from the spec: the hub SDK's type guard [isMergeMessageHubEvent]
    is imported, not defined, by the shuttle.  The dispatcher acts `if the
    event is merge-message' and then extracts `the inner signed message', so
    the guard holds when the event type is merge-message and that message
    is there. *)
Definition isMergeMessageHubEvent (event : HubEvent) : bool :=
  match he_type event, mergeMessageBody event with
  | MERGE_MESSAGE, Some body => isNotNull (mmb_message body)
  | _, _ => false
  end.

(** The caller's hook: it sees the message, the operation and [wasMissed],
    and works on the open transaction. *)
Definition MessageHandler : Type :=
  Message -> StoreMessageOperation -> bool -> Eff Table unit.

Section Dispatcher.
Context {sdk : HubSdk} {pg : Postgres}.

Definition processMergeMessage (message : Message) (handler : MessageHandler)
    (wasMissed : bool) (now : Date) : Eff Table unit :=
  transaction
    (storeMessage message merge now ;;
     handler message merge wasMissed)%eff.

Definition processHubEvent (event : HubEvent) (handler : MessageHandler)
    (now : Date) : Eff Table unit :=
  if isMergeMessageHubEvent event then
    match mergeMessageBody event ≫= mmb_message with
    | Some mergedMessage => processMergeMessage mergedMessage handler false now
    | None => throw TypeError
    end
  else ret tt.

Definition handleMissingMessage (message : Message) (handler : MessageHandler)
    (now : Date) : Eff Table unit :=
  processMergeMessage message handler true now.

End Dispatcher.

(** ** The Redis checkpoint *)

Abbreviation Redis := (gmap string string).

Definition isDigit (c : ascii) : bool :=
  match c with
  | "0" | "1" | "2" | "3" | "4" | "5" | "6" | "7" | "8" | "9" => true
  | _ => false
  end%char.

Fixpoint digitPrefix (s : string) : string :=
  match s with
  | String c rest => if isDigit c then String c (digitPrefix rest) else EmptyString
  | EmptyString => EmptyString
  end.

(** [eventId.toString()] of a non-negative integer. *)
Definition toString (n : N) : string := NilZero.string_of_uint (N.to_uint n).

(** [parseInt] on the decimal texts the checkpoint holds: the leading run
    of digits, [None] standing for [NaN] (blanks, signs and radix prefixes
    are never written by the shuttle and are not read here). *)
Definition parseInt (s : string) : option N :=
  N.of_uint <$> NilZero.uint_of_string (digitPrefix s).

Definition lastHubEventKey (hubId : string) : string :=
  "hub:" ++ hubId ++ ":last-hub-event-id".

Definition setLastProcessedEvent (hubId : string) (eventId : N) : Eff Redis unit :=
  fun client => (<[lastHubEventKey hubId := toString eventId]> client, Returned tt).

Definition getLastProcessedEvent (hubId : string) : Eff Redis (option N) :=
  fun client =>
    match truthyString (client !! lastHubEventKey hubId) with
    | Some eventId => (client, Returned (parseInt eventId))
    | None => (client, Returned (Some 0%N))
    end.

(** The two stores a running shuttle holds. *)
Record Shuttle := { db : Table; redis : Redis }.

Definition onDb {A : Type} (c : Eff Table A) : Eff Shuttle A :=
  fun w => let '(db', r) := c (db w) in ({| db := db'; redis := redis w |}, r).

Definition onRedis {A : Type} (c : Eff Redis A) : Eff Shuttle A :=
  fun w => let '(redis', r) := c (redis w) in ({| db := db w; redis := redis' |}, r).

(** ** The reconciler *)

(** One invocation of the caller's hook
    [onHubMessage(message, missingInDb, prunedInDb, revokedInDb)]. *)
Record HookCall := {
  hc_message : Message;
  missingInDb : bool;
  prunedInDb : bool;
  revokedInDb : bool }.

Definition OnHubMessage : Type := Message -> bool -> bool -> bool -> Eff Table unit.

(** [selectFrom("messages") ... where("hash", "in", messageHashes)]. *)
Definition selectByHash (messageHashes : list bytes) (table : Table) : list MessageRow :=
  filter (fun row => row_hash row ∈ messageHashes) table.

(** The [reduce] that keys the selected rows by the hex text of their hash. *)
Definition byHexHash (dbMessages : list MessageRow) : gmap string MessageRow :=
  fold_left (fun acc msg => <[toHex (row_hash msg) := msg]> acc) dbMessages ∅.

Definition hookCallFor (dbMessageHashes : gmap string MessageRow) (message : Message)
    : HookCall :=
  match dbMessageHashes !! toHex (hash message) with
  | None =>
      {| hc_message := message; missingInDb := true;
         prunedInDb := false; revokedInDb := false |}
  | Some dbMessage =>
      let wasPruned := isNotNull (prunedAt dbMessage) in
      let wasRevoked := isNotNull (revokedAt dbMessage) in
      {| hc_message := message; missingInDb := false;
         prunedInDb := wasPruned; revokedInDb := wasRevoked |}
  end.

(** The inner [for (const message of messages)]; the value returned is the
    list of hook invocations made, in order.  ([hubMessagesByHash] is
    filled by the loop and never read; it is left out.) *)
Fixpoint forEachMessage (onHubMessage : OnHubMessage)
    (dbMessageHashes : gmap string MessageRow) (messages : list Message)
    : Eff Table (list HookCall) :=
  match messages with
  | [] => ret []
  | message :: rest =>
      let call := hookCallFor dbMessageHashes message in
      (onHubMessage message (missingInDb call) (prunedInDb call) (revokedInDb call) ;;
       do! calls := forEachMessage onHubMessage dbMessageHashes rest in
       ret (call :: calls))%eff
  end.

(** The body of the [for await] for one batch of hub messages. *)
Definition reconcileBatch (onHubMessage : OnHubMessage) (messages : list Message)
    : Eff Table (list HookCall) :=
  let messageHashes := map hash messages in
  if (length messageHashes =? 0)%nat then ret []
  else
    fun db =>
      let dbMessages := selectByHash messageHashes db in
      forEachMessage onHubMessage (byHexHash dbMessages) messages db.

(** [reconcileMessagesOfTypeForFid], over the batches that
    [allHubMessagesOfTypeForFid(fid, type)] yields. *)
Fixpoint reconcileMessagesOfTypeForFid (onHubMessage : OnHubMessage)
    (batches : list (list Message)) : Eff Table (list HookCall) :=
  match batches with
  | [] => ret []
  | messages :: later =>
      (do! calls := reconcileBatch onHubMessage messages in
       do! more := reconcileMessagesOfTypeForFid onHubMessage later in
       ret (calls ++ more)%list)%eff
  end.

(** ** Derived notions used by the statements *)

(** The uniqueness key of a row. *)
Definition keyOf (row : MessageRow) : bytes * Z * MessageType :=
  (row_hash row, row_fid row, row_type row).

Definition messageKey (message : Message) (d : MessageData) : bytes * Z * MessageType :=
  (hash message, md_fid d, md_type d).

Definition lookupRow (key : bytes * Z * MessageType) (table : Table) : option MessageRow :=
  List.find (fun row => bool_decide (keyOf row = key)) table.

(** The lifecycle state of a row, by which of its three timestamps are set. *)
Definition lifecycleFlags (row : MessageRow) : bool * bool * bool :=
  (isNotNull (deletedAt row), isNotNull (prunedAt row), isNotNull (revokedAt row)).

Definition opFlags (operation : StoreMessageOperation) : bool * bool * bool :=
  match operation with
  | merge => (false, false, false)
  | delete => (true, false, false)
  | prune => (false, true, false)
  | revoke => (false, false, true)
  end.

Definition live (row : MessageRow) : Prop :=
  deletedAt row = None ∧ prunedAt row = None ∧ revokedAt row = None.

Definition atMostOneLifecycle (row : MessageRow) : Prop :=
  match lifecycleFlags row with
  | (true, true, _) | (true, _, true) | (_, true, true) => False
  | _ => True
  end.

Definition hasTimestamp (row : MessageRow) : Prop :=
  ∃ date, row_timestamp row = present date.

(** The row the statement leaves under the conflict key. *)
Definition upserted (excluded : MessageRow) (existing : option MessageRow) : MessageRow :=
  match existing with
  | None => excluded
  | Some row => if lifecycleChanges excluded row then doUpdateSet excluded row else row
  end.

(** Whether the statement returns a row. *)
Definition touched (excluded : MessageRow) (existing : option MessageRow) : bool :=
  match existing with
  | None => true
  | Some row => lifecycleChanges excluded row
  end.

(** The stored row the reconciler reads for a hash: of the rows with that
    hash, the one the [reduce] keeps (the last selected). *)
Definition storedRowFor (h : bytes) (table : Table) : option MessageRow :=
  last (filter (fun row => row_hash row = h) table).

(** The hook invocation due for a hub message against a table. *)
Definition expectedCall (table : Table) (message : Message) : HookCall :=
  match storedRowFor (hash message) table with
  | None =>
      {| hc_message := message; missingInDb := true;
         prunedInDb := false; revokedInDb := false |}
  | Some row =>
      {| hc_message := message; missingInDb := false;
         prunedInDb := isNotNull (prunedAt row);
         revokedInDb := isNotNull (revokedAt row) |}
  end.

(** The inverse of [hexDigit] on the sixteen digits. *)
Definition hexValue (c : ascii) : N :=
  match c with
  | "0" => 0 | "1" => 1 | "2" => 2 | "3" => 3 | "4" => 4 | "5" => 5
  | "6" => 6 | "7" => 7 | "8" => 8 | "9" => 9 | "a" => 10 | "b" => 11
  | "c" => 12 | "d" => 13 | "e" => 14 | _ => 15
  end%char%N.

(** The hook returns: it does not throw. *)
Definition hookReturns (onHubMessage : OnHubMessage) : Prop :=
  ∀ m missing pruned revoked t,
    ∃ t', onHubMessage m missing pruned revoked t = (t', Returned tt).

(** The hook returns and does not write to the [messages] table. *)
Definition hookObserves (onHubMessage : OnHubMessage) : Prop :=
  ∀ m missing pruned revoked t,
    onHubMessage m missing pruned revoked t = (t, Returned tt).

Section Derived.
Context {sdk : HubSdk} {pg : Postgres}.

(** What [storeMessage] computes before it touches the table: the data
    section, the JSON body and the timestamp of the row to insert. *)
Definition decodeRow (message : Message)
    : Outcome (MessageData * MessageBodyJson * Nullish Date) :=
  match validateMessage message with
  | err e => Thrown (InvalidMessage e)
  | ok _ =>
      match data message with
      | None => Thrown MessageDataMissing
      | Some d =>
          (let! body := convertProtobufMessageBodyToJson message in
           let! timestamp := farcasterTimeToDate (present (md_timestamp d)) in
           Returned (d, body, timestamp))%outcome
      end
  end.

(** [n] successive [storeMessage(message, trx, "merge")] calls; a call that
    throws leaves the table as it was. *)
Fixpoint mergeTimes (message : Message) (clock : nat -> Date) (n : nat)
    (table : Table) : Table :=
  match n with
  | O => table
  | S k => mergeTimes message (fun i => clock (S i)) k
             (fst (storeMessage message merge (clock O) table))
  end.

(** Tables that only [storeMessage] has written, starting from an empty one. *)
Inductive WrittenByStoreMessage : Table -> Prop :=
| written_empty : WrittenByStoreMessage []
| written_store (table : Table) (message : Message)
    (operation : StoreMessageOperation) (now : Date) :
    WrittenByStoreMessage table ->
    WrittenByStoreMessage (fst (storeMessage message operation now table)).

End Derived.

(** The three outcomes the specification names for [Store.apply]: a second
    definition, written from its words, to compare with what
    [storeMessage] returns. *)
Inductive ApplyResult : Type := inserted | updated | noop.

Definition applyResultSpec (existing : option MessageRow)
    (operation : StoreMessageOperation) : ApplyResult :=
  match existing with
  | None => inserted
  | Some row =>
      if bool_decide (lifecycleFlags row = opFlags operation) then noop else updated
  end.

(** ** Concrete data for the closed examples *)

Definition FARCASTER_EPOCH : Z := 1609459200000.

(** A stand-in SDK: every message with a non-empty hash validates, times
    are offsets in seconds from the Farcaster epoch, and the base58 text is
    a tagged hex text. *)
Definition sampleSdk : HubSdk := {|
  validateMessage m :=
    match hash m with
    | [] => err {| errCode := "bad_request.validation_failure"; errMessage := "hash is missing" |}
    | _ => ok m
    end;
  fromFarcasterTime t := ok (t * 1000 + FARCASTER_EPOCH);
  bytesToBase58 b := ok ("base58:" ++ toHex b);
  encodeMessage m := (hash m ++ signer m)%list |}.

Definition samplePg : Postgres := {|
  generatedId table := toString (N.of_nat (length table)) |}.

Definition helloBody : CastAddBody := {|
  cab_embeds := [{| embed_castId := None; embed_url := Some "https://x" |}];
  cab_mentions := [1; 2]; cab_mentionsPositions := [0; 6];
  cab_text := "hello"; cab_parentCastId := None; cab_parentUrl := None |}.

Definition helloData : MessageData := {|
  md_type := CAST_ADD; md_fid := 42; md_timestamp := 100;
  castAddBody := Some helloBody; castRemoveBody := None; reactionBody := None;
  linkBody := None; verificationAddAddressBody := None;
  verificationRemoveBody := None; userDataBody := None;
  usernameProofBody := None |}.

Definition helloMessage : Message := {|
  data := Some helloData; hash := [x0a; xff]; hashScheme := 1;
  signature := [x01]; signatureScheme := 1; signer := [x02] |}.

Definition verificationData (protocol : Protocol) : MessageData := {|
  md_type := VERIFICATION_ADD_ETH_ADDRESS; md_fid := 42; md_timestamp := 100;
  castAddBody := None; castRemoveBody := None; reactionBody := None;
  linkBody := None;
  verificationAddAddressBody :=
    Some {| vab_address := [x01; x02; x14]; vab_claimSignature := [xab];
            vab_blockHash := [xcd]; vab_protocol := protocol |};
  verificationRemoveBody := None; userDataBody := None;
  usernameProofBody := None |}.

Definition verificationMessage (protocol : Protocol) : Message := {|
  data := Some (verificationData protocol); hash := [x0b]; hashScheme := 1;
  signature := [x01]; signatureScheme := 1; signer := [x02] |}.

Definition mergeEvent (id : N) (message : Message) : HubEvent := {|
  he_type := MERGE_MESSAGE; he_id := id;
  mergeMessageBody := Some {| mmb_message := Some message; mmb_deletedMessages := [] |};
  pruneMessageBody := None; revokeMessageBody := None |}.

Definition pruneEvent (id : N) (message : Message) : HubEvent := {|
  he_type := PRUNE_MESSAGE; he_id := id;
  mergeMessageBody := None;
  pruneMessageBody := Some message; revokeMessageBody := None |}.

Definition quietHandler : MessageHandler := fun _ _ _ => ret tt.

Definition raisingHandler : MessageHandler := fun _ _ _ => throw (HandlerRaised "boom").

Definition emptyShuttle : Shuttle := {| db := []; redis := ∅ |}.

(** The table after [helloMessage] has been stored with [delete] at time 7. *)
Definition deletedHello : Table :=
  fst (storeMessage (sdk := sampleSdk) (pg := samplePg) helloMessage delete 7 []).

Definition observingHook : OnHubMessage := fun _ _ _ _ => ret tt.

(** The body variant each message type decodes to. *)
Definition bodyMatchesType (type : MessageType) (body : MessageBodyJson) : Prop :=
  match type, body with
  | CAST_ADD, CastAddBodyJson _ _ _ _ _ => True
  | CAST_REMOVE, CastRemoveBodyJson _ => True
  | (REACTION_ADD | REACTION_REMOVE), ReactionBodyJson _ _ => True
  | (LINK_ADD | LINK_REMOVE), LinkBodyJson _ _ _ => True
  | VERIFICATION_ADD_ETH_ADDRESS, VerificationAddEthAddressBodyJson _ _ _ _ => True
  | VERIFICATION_REMOVE, VerificationRemoveBodyJson _ _ => True
  | USER_DATA_ADD, UserDataBodyJson _ _ => True
  | USERNAME_PROOF, UsernameProofBodyJson _ _ _ _ _ _ => True
  | _, _ => False
  end.

(** [clearForTest]: [flushdb] empties the key space. *)
Definition clearForTest : Eff Redis unit := fun _ => (∅, Returned tt).

(** The handler returns and does not write to the [messages] table. *)
Definition handlerObserves (handler : MessageHandler) : Prop :=
  ∀ m operation wasMissed t, handler m operation wasMissed t = (t, Returned tt).

(** ** Paging through the hub's inventory *)

Record MessagesResponse := {
  mr_messages : list Message;
  mr_nextPageToken : option bytes }.

Record FidRequest := {
  fr_fid : Z;
  fr_pageSize : Z;
  fr_pageToken : option bytes }.

(** The five inventory calls of the hub client; the hub's answer to a
    request is taken as a function of the request. *)
Class HubRpcClient := {
  getAllCastMessagesByFid : FidRequest -> HubResult MessagesResponse;
  getAllReactionMessagesByFid : FidRequest -> HubResult MessagesResponse;
  getAllLinkMessagesByFid : FidRequest -> HubResult MessagesResponse;
  getAllVerificationMessagesByFid : FidRequest -> HubResult MessagesResponse;
  getAllUserDataMessagesByFid : FidRequest -> HubResult MessagesResponse }.

Definition MAX_PAGE_SIZE : Z := 3000.

(** How an async generator of batches ends: it returns, it throws, or (in
    this model only) the step budget of its [for (;;)] is used up. *)
Inductive PagerEnd : Type :=
| PagerDone
| UnableToGetAll (what : string) (e : HubError)
| UnknownTypeThrown (type : MessageType)
| PagerOutOfFuel.

(** [pageToken?.length] is truthy for a token of at least one byte. *)
Definition truthyToken (pageToken : option bytes) : option bytes :=
  match pageToken with
  | Some [] => None
  | other => other
  end.

(** The loop shared by the five [getAll...MessagesByFidInBatchesOf]
    generators: the batches yielded, in order, and how the generator
    ends.  [result] is the answer to the request already made. *)
Fixpoint inBatchesFrom (rpc : FidRequest -> HubResult MessagesResponse) (what : string)
    (fid pageSize : Z) (fuel : nat) (result : HubResult MessagesResponse)
    : list (list Message) * PagerEnd :=
  match fuel with
  | O => ([], PagerOutOfFuel)
  | S fuel' =>
      match result with
      | err e => ([], UnableToGetAll what e)
      | ok value =>
          match truthyToken (mr_nextPageToken value) with
          | None => ([mr_messages value], PagerDone)
          | Some pageToken =>
              let next := rpc {| fr_fid := fid; fr_pageSize := pageSize;
                                 fr_pageToken := Some pageToken |} in
              let '(later, ending) := inBatchesFrom rpc what fid pageSize fuel' next in
              (mr_messages value :: later, ending)
          end
      end
  end.

Definition inBatchesOf (rpc : FidRequest -> HubResult MessagesResponse) (what : string)
    (fid pageSize : Z) (fuel : nat) : list (list Message) * PagerEnd :=
  inBatchesFrom rpc what fid pageSize fuel
    (rpc {| fr_fid := fid; fr_pageSize := pageSize; fr_pageToken := None |}).

Section Pagers.
Context {client : HubRpcClient}.

Definition getAllCastMessagesByFidInBatchesOf :=
  inBatchesOf getAllCastMessagesByFid "casts".

Definition getAllReactionMessagesByFidInBatchesOf :=
  inBatchesOf getAllReactionMessagesByFid "reactions".

Definition getAllLinkMessagesByFidInBatchesOf :=
  inBatchesOf getAllLinkMessagesByFid "links".

Definition getAllVerificationMessagesByFidInBatchesOf :=
  inBatchesOf getAllVerificationMessagesByFid "verifications".

Definition getAllUserDataMessagesByFidInBatchesOf :=
  inBatchesOf getAllUserDataMessagesByFid "user data messages".

Definition allHubMessagesOfTypeForFid (fid : Z) (type : MessageType) (fuel : nat)
    : list (list Message) * PagerEnd :=
  match type with
  | CAST_ADD => getAllCastMessagesByFidInBatchesOf fid MAX_PAGE_SIZE fuel
  | REACTION_ADD => getAllReactionMessagesByFidInBatchesOf fid MAX_PAGE_SIZE fuel
  | LINK_ADD => getAllLinkMessagesByFidInBatchesOf fid MAX_PAGE_SIZE fuel
  | VERIFICATION_ADD_ETH_ADDRESS =>
      getAllVerificationMessagesByFidInBatchesOf fid MAX_PAGE_SIZE fuel
  | USER_DATA_ADD => getAllUserDataMessagesByFidInBatchesOf fid MAX_PAGE_SIZE fuel
  | _ => ([], UnknownTypeThrown type)
  end.

(** How a reconciliation over the hub ends: with the hook invocations it
    made, or with what was thrown (by the hook or by the pager) after the
    invocations made so far. *)
Inductive Reconciled : Type :=
| ReconciledAll (calls : list HookCall)
| HookThrew (e : Exn)
| PagerThrew (ending : PagerEnd).

(** [reconcileMessagesOfTypeForFid(fid, type, onHubMessage)] against the
    hub: the [for await] takes the batches in order; an exception of the
    hook ends it at once, an exception of the generator after the batches
    yielded before it have been handled. *)
Definition reconcileTypeFromHub (fid : Z) (type : MessageType)
    (onHubMessage : OnHubMessage) (fuel : nat) (db : Table) : Table * Reconciled :=
  let '(batches, ending) := allHubMessagesOfTypeForFid fid type fuel in
  match reconcileMessagesOfTypeForFid onHubMessage batches db with
  | (db', Thrown e) => (db', HookThrew e)
  | (db', Returned calls) =>
      match ending with
      | PagerDone => (db', ReconciledAll calls)
      | other => (db', PagerThrew other)
      end
  end.

Definition reconciledTypes : list MessageType :=
  [CAST_ADD; REACTION_ADD; LINK_ADD; VERIFICATION_ADD_ETH_ADDRESS; USER_DATA_ADD].

(** [reconcileMessagesForFid(fid, onHubMessage)], over the given types. *)
Fixpoint reconcileTypesFromHub (fid : Z) (types : list MessageType)
    (onHubMessage : OnHubMessage) (fuel : nat) (db : Table) : Table * Reconciled :=
  match types with
  | [] => (db, ReconciledAll [])
  | type :: later =>
      match reconcileTypeFromHub fid type onHubMessage fuel db with
      | (db', ReconciledAll calls) =>
          match reconcileTypesFromHub fid later onHubMessage fuel db' with
          | (db'', ReconciledAll more) => (db'', ReconciledAll (calls ++ more)%list)
          | failed => failed
          end
      | failed => failed
      end
  end.

Definition reconcileMessagesForFid (fid : Z) (onHubMessage : OnHubMessage)
    (fuel : nat) (db : Table) : Table * Reconciled :=
  reconcileTypesFromHub fid reconciledTypes onHubMessage fuel db.

End Pagers.

(** The hub serves [pages] from [pageToken] on: each request answers with
    the next page and a non-empty token for the one after it, the last
    page with no token or an empty one. *)
Inductive ServesPages (rpc : FidRequest -> HubResult MessagesResponse)
    (fid pageSize : Z) : option bytes -> list (list Message) -> Prop :=
| serves_last (pageToken : option bytes) (value : MessagesResponse) :
    rpc {| fr_fid := fid; fr_pageSize := pageSize; fr_pageToken := pageToken |} = ok value ->
    truthyToken (mr_nextPageToken value) = None ->
    ServesPages rpc fid pageSize pageToken [mr_messages value]
| serves_more (pageToken : option bytes) (value : MessagesResponse)
    (next : bytes) (later : list (list Message)) :
    rpc {| fr_fid := fid; fr_pageSize := pageSize; fr_pageToken := pageToken |} = ok value ->
    truthyToken (mr_nextPageToken value) = Some next ->
    ServesPages rpc fid pageSize (Some next) later ->
    ServesPages rpc fid pageSize pageToken (mr_messages value :: later).

(** The hub serves [pages] and then fails the request for the next page. *)
Inductive ServesThenFails (rpc : FidRequest -> HubResult MessagesResponse)
    (fid pageSize : Z) (e : HubError) : option bytes -> list (list Message) -> Prop :=
| fails_now (pageToken : option bytes) :
    rpc {| fr_fid := fid; fr_pageSize := pageSize; fr_pageToken := pageToken |} = err e ->
    ServesThenFails rpc fid pageSize e pageToken []
| fails_later (pageToken : option bytes) (value : MessagesResponse)
    (next : bytes) (later : list (list Message)) :
    rpc {| fr_fid := fid; fr_pageSize := pageSize; fr_pageToken := pageToken |} = ok value ->
    truthyToken (mr_nextPageToken value) = Some next ->
    ServesThenFails rpc fid pageSize e (Some next) later ->
    ServesThenFails rpc fid pageSize e pageToken (mr_messages value :: later).

(** The inventory call behind each reconcilable type, with the word its
    error message uses. *)
Definition inventoryCall {client : HubRpcClient} (type : MessageType)
    : option ((FidRequest -> HubResult MessagesResponse) * string) :=
  match type with
  | CAST_ADD => Some (getAllCastMessagesByFid, "casts")
  | REACTION_ADD => Some (getAllReactionMessagesByFid, "reactions")
  | LINK_ADD => Some (getAllLinkMessagesByFid, "links")
  | VERIFICATION_ADD_ETH_ADDRESS => Some (getAllVerificationMessagesByFid, "verifications")
  | USER_DATA_ADD => Some (getAllUserDataMessagesByFid, "user data messages")
  | _ => None
  end.

(** ** The hub subscriber *)

Definition DEFAULT_EVENT_TYPES : list HubEventType :=
  [MERGE_ON_CHAIN_EVENT; MERGE_MESSAGE; MERGE_USERNAME_PROOF; PRUNE_MESSAGE; REVOKE_MESSAGE].

(** The server stream a subscription returns, by its identity. *)
Definition StreamHandle := nat.

(** The fields of [HubSubscriberImpl] that its methods read and write. *)
Record HubSubscriberImpl := {
  sub_stopped : bool;
  sub_stream : option StreamHandle;
  sub_eventTypes : list HubEventType }.

(** What a method does to the hub client and the stream. *)
Inductive SubscriberEffect : Type :=
| SubscribeRequested (eventTypes : list HubEventType) (fromId : option N)
| ProcessStreamStarted (stream : StreamHandle)
| StreamCancelled (stream : StreamHandle)
| ClientClosed.

(** The constructor; [eventTypes || DEFAULT_EVENT_TYPES] keeps any array
    that is passed, an empty one too. *)
Definition newHubSubscriber (eventTypes : option (list HubEventType)) : HubSubscriberImpl :=
  {| sub_stopped := true; sub_stream := None;
     sub_eventTypes := match eventTypes with
                       | Some given => given
                       | None => DEFAULT_EVENT_TYPES
                       end |}.

Definition subscriberStop (this : HubSubscriberImpl)
    : HubSubscriberImpl * list SubscriberEffect :=
  ({| sub_stopped := true; sub_stream := sub_stream this;
      sub_eventTypes := sub_eventTypes this |},
   match sub_stream this with
   | Some stream => [StreamCancelled stream]
   | None => []
   end).

Definition subscriberDestroy (this : HubSubscriberImpl)
    : HubSubscriberImpl * list SubscriberEffect :=
  let '(this', effects) :=
    if negb (sub_stopped this) then subscriberStop this else (this, []) in
  (this', (effects ++ [ClientClosed])%list).

(** [start(fromId)], given what the hub client answers: whether it became
    ready within the 500 ms, and the result of the subscribe request. *)
Definition subscriberStart (this : HubSubscriberImpl) (fromId : option N)
    (hubClientReady : HubResult unit) (subscribeRequest : HubResult StreamHandle)
    : HubSubscriberImpl * list SubscriberEffect * Outcome unit :=
  match hubClientReady with
  | err e => (this, [], Thrown (HubErrorThrown e))
  | ok _ =>
      let request := SubscribeRequested (sub_eventTypes this) fromId in
      match subscribeRequest with
      | ok stream2 =>
          ({| sub_stopped := false; sub_stream := Some stream2;
              sub_eventTypes := sub_eventTypes this |},
           [request; ProcessStreamStarted stream2], Returned tt)
      | err _ => (this, [request], Returned tt)
      end
  end.

(** The listener that [start] registers for the stream's [close] event. *)
Definition subscriberOnClose (this : HubSubscriberImpl) : HubSubscriberImpl :=
  {| sub_stopped := true; sub_stream := None; sub_eventTypes := sub_eventTypes this |}.

(** The states a subscriber passes through, from its construction, by
    calls of its methods and by close events. *)
Inductive SubscriberReaches (initial : HubSubscriberImpl) : HubSubscriberImpl -> Prop :=
| reaches_initial : SubscriberReaches initial initial
| reaches_start this fromId hubClientReady subscribeRequest :
    SubscriberReaches initial this ->
    SubscriberReaches initial
      (fst (fst (subscriberStart this fromId hubClientReady subscribeRequest)))
| reaches_stop this :
    SubscriberReaches initial this ->
    SubscriberReaches initial (fst (subscriberStop this))
| reaches_destroy this :
    SubscriberReaches initial this ->
    SubscriberReaches initial (fst (subscriberDestroy this))
| reaches_close this :
    SubscriberReaches initial this ->
    SubscriberReaches initial (subscriberOnClose this).

(** ** Hubble: historical id-registry events ([EthEventsProvider]) *)

Inductive IdRegistryEventType : Type :=
| REGISTER
| TRANSFER
| ID_REGISTRY_EVENT_TYPE_NONE.

(** A contract event filter as [createContractEventFilter] is asked for it:
    the event name and the inclusive block range. *)
Record EventFilter := {
  ef_eventName : string;
  ef_fromBlock : Z;
  ef_toBlock : Z }.

(** [Math.ceil((toBlock - fromBlock) / batchSize)], for a batch size other
    than zero. *)
Definition numOfRuns (fromBlock toBlock batchSize : Z) : Z :=
  - ((fromBlock - toBlock) / batchSize).

(** The block range of run [i] of the loop. *)
Definition runRange (fromBlock batchSize i : Z) : Z * Z :=
  let nextFromBlock := fromBlock + i * batchSize in
  let nextToBlock := nextFromBlock + batchSize in
  (if (0 <? i)%Z then nextFromBlock + 1 else nextFromBlock, nextToBlock).

(** [syncHistoricalIdEvents(type, fromBlock, toBlock, batchSize)]: the
    filters it creates, in order (the logs of each are handed to
    [processIdRegisterEvents] or [processIdTransferEvents]). *)
Definition syncHistoricalIdEvents (type : IdRegistryEventType)
    (fromBlock toBlock batchSize : Z) : list EventFilter :=
  flat_map
    (fun i =>
       let '(nextFromBlock, nextToBlock) := runRange fromBlock batchSize i in
       match type with
       | REGISTER =>
           [{| ef_eventName := "Register";
               ef_fromBlock := nextFromBlock; ef_toBlock := nextToBlock |}]
       | TRANSFER =>
           [{| ef_eventName := "Transfer";
               ef_fromBlock := nextFromBlock; ef_toBlock := nextToBlock |}]
       | ID_REGISTRY_EVENT_TYPE_NONE => []
       end)
    (seqZ 0 (numOfRuns fromBlock toBlock batchSize)).

(** ** Hubble: the sync engine ([SyncEngine]) *)

Definition SYNC_THRESHOLD_IN_SECONDS : Z := 10.

(** The [snapshotTimestamp] getter, [now] being what [Date.now()] reads. *)
Definition snapshotTimestamp (now : Z) : Z :=
  let currentTimeInSeconds := now / 1000 in
  (currentTimeInSeconds / SYNC_THRESHOLD_IN_SECONDS) * SYNC_THRESHOLD_IN_SECONDS.

Record TrieSnapshot := {
  ts_prefix : string;
  ts_excludedHashes : list string;
  ts_numMessages : Z }.

(** [array.every((value, index) => p(value, index))], from [index] on. *)
Fixpoint everyFrom {A : Type} (p : A -> nat -> bool) (index : nat) (l : list A) : bool :=
  match l with
  | [] => true
  | value :: rest => if p value index then everyFrom p (S index) rest else false
  end.

Definition excludedHashesMatch (ours theirs : list string) : bool :=
  (length ours =? length theirs)%nat &&
  everyFrom (fun value index => bool_decide (theirs !! index = Some value)) 0 ours.

(** [shouldSync(excludedHashes, numMessages)]; [isSyncing] and
    [ourSnapshot] are the engine's state, [randomBelowHalf] is what
    [Math.random() < 0.5] evaluates to. *)
Definition shouldSync (isSyncing : bool) (ourSnapshot : TrieSnapshot)
    (excludedHashes : list string) (numMessages : Z) (randomBelowHalf : bool) : bool :=
  if isSyncing then false
  else if excludedHashesMatch (ts_excludedHashes ourSnapshot) excludedHashes then false
  else if (numMessages <? ts_numMessages ourSnapshot)%Z then false
  else if (ts_numMessages ourSnapshot =? numMessages)%Z then randomBelowHalf
  else if (ts_numMessages ourSnapshot <? numMessages)%Z then true
  else false.

(** ** Concrete hubs for the closed examples *)

Definition castsPage1 : MessagesResponse :=
  {| mr_messages := [helloMessage]; mr_nextPageToken := Some [x01] |}.

Definition castsPage2 : MessagesResponse :=
  {| mr_messages := [verificationMessage SOLANA]; mr_nextPageToken := Some [] |}.

Definition emptyPage : MessagesResponse :=
  {| mr_messages := []; mr_nextPageToken := None |}.

Definition hubDown : HubError :=
  {| errCode := "unavailable"; errMessage := "hub is down" |}.

(** A hub with two pages of casts and nothing else. *)
Definition sampleClient : HubRpcClient := {|
  getAllCastMessagesByFid request :=
    match fr_pageToken request with
    | None => ok castsPage1
    | Some _ => ok castsPage2
    end;
  getAllReactionMessagesByFid _ := ok emptyPage;
  getAllLinkMessagesByFid _ := ok emptyPage;
  getAllVerificationMessagesByFid _ := ok emptyPage;
  getAllUserDataMessagesByFid _ := ok emptyPage |}.

(** A hub that serves one page of casts and fails the request for the
    second. *)
Definition failingClient : HubRpcClient := {|
  getAllCastMessagesByFid request :=
    match fr_pageToken request with
    | None => ok castsPage1
    | Some _ => err hubDown
    end;
  getAllReactionMessagesByFid _ := ok emptyPage;
  getAllLinkMessagesByFid _ := ok emptyPage;
  getAllVerificationMessagesByFid _ := ok emptyPage;
  getAllUserDataMessagesByFid _ := ok emptyPage |}.

(** A message that fails validation under [sampleSdk]: it has no hash. *)
Definition invalidMessage : Message := {|
  data := None; hash := []; hashScheme := 1;
  signature := []; signatureScheme := 1; signer := [] |}.

(** A hook that throws on every message. *)
Definition throwingHook : OnHubMessage :=
  fun _ _ _ _ => throw (HandlerRaised "hook").

Definition linkData (targetFid displayTimestamp : option Z) : MessageData := {|
  md_type := LINK_ADD; md_fid := 42; md_timestamp := 100;
  castAddBody := None; castRemoveBody := None; reactionBody := None;
  linkBody := Some {| lb_type := "follow"; lb_targetFid := targetFid;
                      lb_displayTimestamp := displayTimestamp |};
  verificationAddAddressBody := None; verificationRemoveBody := None;
  userDataBody := None; usernameProofBody := None |}.

Definition linkMessage (targetFid displayTimestamp : option Z) : Message := {|
  data := Some (linkData targetFid displayTimestamp); hash := [x0c]; hashScheme := 1;
  signature := [x01]; signatureScheme := 1; signer := [x02] |}.

Definition reactionData (target : option CastId) (url : option string) : MessageData := {|
  md_type := REACTION_ADD; md_fid := 42; md_timestamp := 100;
  castAddBody := None; castRemoveBody := None;
  reactionBody := Some {| rb_type := 1; rb_targetCastId := target; rb_targetUrl := url |};
  linkBody := None; verificationAddAddressBody := None;
  verificationRemoveBody := None; userDataBody := None; usernameProofBody := None |}.

Definition reactionMessage (target : option CastId) (url : option string) : Message := {|
  data := Some (reactionData target url); hash := [x0d]; hashScheme := 1;
  signature := [x01]; signatureScheme := 1; signer := [x02] |}.

Definition removalData (protocol : Protocol) : MessageData := {|
  md_type := VERIFICATION_REMOVE; md_fid := 42; md_timestamp := 100;
  castAddBody := None; castRemoveBody := None; reactionBody := None;
  linkBody := None; verificationAddAddressBody := None;
  verificationRemoveBody :=
    Some {| vrb_address := [x01; x02; x14]; vrb_protocol := protocol |};
  userDataBody := None; usernameProofBody := None |}.

Definition removalMessage (protocol : Protocol) : Message := {|
  data := Some (removalData protocol); hash := [x0e]; hashScheme := 1;
  signature := [x01]; signatureScheme := 1; signer := [x02] |}.

(** A subscriber built with the default filter and started on stream 1. *)
Definition runningSubscriber : HubSubscriberImpl :=
  fst (fst (subscriberStart (newHubSubscriber None) (Some 100%N) (ok tt) (ok 1%nat))).

(** ** What the invocations of the hook leave in the table *)

(** The table after one invocation of the hook. *)
Definition afterHook (onHubMessage : OnHubMessage) (table : Table) (call : HookCall)
    : Table :=
  fst (onHubMessage (hc_message call) (missingInDb call) (prunedInDb call)
         (revokedInDb call) table).

(** The table after the hook has been invoked for each of [calls] in turn,
    every invocation on the table that the one before it left. *)
Definition afterHooks (onHubMessage : OnHubMessage) (calls : list HookCall)
    (table : Table) : Table :=
  fold_left (afterHook onHubMessage) calls table.

(** The invocations due for a sequence of batches and the table they
    leave: the flags of a batch are read from the table as the invocations
    for the batches before it left it. *)
Fixpoint reconciledBatches (onHubMessage : OnHubMessage) (batches : list (list Message))
    (table : Table) : Table * list HookCall :=
  match batches with
  | [] => (table, [])
  | messages :: later =>
      let calls := map (expectedCall table) messages in
      let '(table', more) :=
        reconciledBatches onHubMessage later (afterHooks onHubMessage calls table) in
      (table', (calls ++ more)%list)
  end.

(** What the reconciler reads of the row stored for a hash: whether its
    [prunedAt] and its [revokedAt] are set. *)
Definition storedFlags (h : bytes) (table : Table) : option (bool * bool) :=
  (fun row => (isNotNull (prunedAt row), isNotNull (revokedAt row)))
    <$> storedRowFor h table.

(** The hook may write to the table, but not what the reconciler reads of
    it: which hashes are stored and whether their rows are pruned or
    revoked. *)
Definition hookKeepsFlags (onHubMessage : OnHubMessage) : Prop :=
  ∀ m missing pruned revoked t h,
    storedFlags h (fst (onHubMessage m missing pruned revoked t)) = storedFlags h t.

(** The text one embed of a cast contributes, if any. *)
Definition embedText (embed : Embed) : option string :=
  match embed_castId embed with
  | Some castId => Some (bytesToHex (castId_hash castId))
  | None => embed_url embed
  end.

(** ** Hooks that write, and the data of their examples *)

(** The row a journal keeps of one invocation: the hash of the message and,
    in the three lifecycle columns, the three flags. *)
Definition journalRow (message : Message) (missing pruned revoked : bool) : MessageRow := {|
  row_id := "journal"; row_fid := 0; row_type := CAST_ADD; row_timestamp := null;
  row_hashScheme := 0; row_signatureScheme := 0;
  row_hash := hash message; row_signer := []; row_raw := [];
  row_body := CastRemoveBodyJson "";
  deletedAt := if missing then Some 1 else None;
  prunedAt := if pruned then Some 1 else None;
  revokedAt := if revoked then Some 1 else None |}.

(** A hook that keeps a journal of its invocations at the end of the
    table. *)
Definition journalHook : OnHubMessage :=
  fun message missing pruned revoked db =>
    ((db ++ [journalRow message missing pruned revoked])%list, Returned tt).

(** A hook that stores what the table misses, as
    [handleMissingMessage] does, and gives up silently when that fails. *)
Definition catchUpHook {sdk : HubSdk} {pg : Postgres} : OnHubMessage :=
  fun message missing _ _ db =>
    if missing then (fst (handleMissingMessage message quietHandler 0 db), Returned tt)
    else (db, Returned tt).

(** A hook that marks every stored row as deleted at time 9. *)
Definition deletingHook : OnHubMessage :=
  fun _ _ _ _ db =>
    (map (fun row =>
            {| row_id := row_id row; row_fid := row_fid row; row_type := row_type row;
               row_timestamp := row_timestamp row; row_hashScheme := row_hashScheme row;
               row_signatureScheme := row_signatureScheme row; row_hash := row_hash row;
               row_signer := row_signer row; row_raw := row_raw row;
               row_body := row_body row; deletedAt := Some 9;
               prunedAt := prunedAt row; revokedAt := revokedAt row |}) db,
     Returned tt).

(** The table after [helloMessage] has been pruned at time 7 and a link
    message revoked at time 8. *)
Definition prunedAndRevoked : Table :=
  fst (storeMessage (sdk := sampleSdk) (pg := samplePg) (linkMessage (Some 7) None) revoke 8
         (fst (storeMessage (sdk := sampleSdk) (pg := samplePg) helloMessage prune 7 []))).

(** The table after [helloMessage] has been merged at time 5 and a
    verification at time 6. *)
Definition mergedBoth : Table :=
  fst (storeMessage (sdk := sampleSdk) (pg := samplePg) (verificationMessage SOLANA) merge 6
         (fst (storeMessage (sdk := sampleSdk) (pg := samplePg) helloMessage merge 5 []))).

Definition userDataData : MessageData := {|
  md_type := USER_DATA_ADD; md_fid := 42; md_timestamp := 100;
  castAddBody := None; castRemoveBody := None; reactionBody := None;
  linkBody := None; verificationAddAddressBody := None;
  verificationRemoveBody := None;
  userDataBody := Some {| udb_type := 2; udb_value := "alice" |};
  usernameProofBody := None |}.

Definition userDataMessage : Message := {|
  data := Some userDataData; hash := [x0f]; hashScheme := 1;
  signature := [x01]; signatureScheme := 1; signer := [x02] |}.

Definition onePage (messages : list Message) : MessagesResponse :=
  {| mr_messages := messages; mr_nextPageToken := None |}.

(** A cast with three embeds: one with neither a cast id nor a url, one
    with both, one with a url only; it answers a parent cast. *)
Definition embedsBody : CastAddBody := {|
  cab_embeds :=
    [{| embed_castId := None; embed_url := None |};
     {| embed_castId := Some {| castId_fid := 7; castId_hash := [xbe; xef] |};
        embed_url := Some "https://both" |};
     {| embed_castId := None; embed_url := Some "https://x" |}];
  cab_mentions := [1]; cab_mentionsPositions := [0];
  cab_text := "embeds";
  cab_parentCastId := Some {| castId_fid := 9; castId_hash := [x0c; xab] |};
  cab_parentUrl := Some "https://parent" |}.

Definition embedsMessage : Message := {|
  data := Some {|
    md_type := CAST_ADD; md_fid := 42; md_timestamp := 100;
    castAddBody := Some embedsBody; castRemoveBody := None; reactionBody := None;
    linkBody := None; verificationAddAddressBody := None;
    verificationRemoveBody := None; userDataBody := None;
    usernameProofBody := None |};
  hash := [x1a]; hashScheme := 1;
  signature := [x01]; signatureScheme := 1; signer := [x02] |}.

(** A hub with two pages of casts and one page in each other inventory. *)
Definition fullClient : HubRpcClient := {|
  getAllCastMessagesByFid request :=
    match fr_pageToken request with
    | None => ok castsPage1
    | Some _ => ok (onePage [embedsMessage])
    end;
  getAllReactionMessagesByFid _ := ok (onePage [reactionMessage None (Some "https://y")]);
  getAllLinkMessagesByFid _ := ok (onePage [linkMessage (Some 7) None]);
  getAllVerificationMessagesByFid _ := ok (onePage [verificationMessage ETHEREUM]);
  getAllUserDataMessagesByFid _ := ok (onePage [userDataMessage]) |}.

(** * Properties *)

(** ** The upsert statement *)

Lemma sameKey_spec (a b : MessageRow) : sameKey a b = true ↔ keyOf a = keyOf b.
Proof.
  unfold sameKey, keyOf.
  rewrite !andb_true_iff, !bool_decide_eq_true.
  split.
  - intros [[Hh Hf] Ht]. congruence.
  - intros [= Hh Hf Ht]. auto.
Qed.

Lemma sameKey_decide (a b : MessageRow) :
  sameKey a b = bool_decide (keyOf b = keyOf a).
Proof.
  destruct (sameKey a b) eqn:E.
  - apply sameKey_spec in E. symmetry. by apply bool_decide_eq_true.
  - symmetry. apply bool_decide_eq_false. intros H.
    symmetry in H. apply sameKey_spec in H. congruence.
Qed.

Lemma lifecycleChanges_flags (excluded messages : MessageRow) :
  lifecycleChanges excluded messages =
  negb (bool_decide (lifecycleFlags excluded = lifecycleFlags messages)).
Proof.
  unfold lifecycleChanges, lifecycleFlags, isNull.
  destruct (deletedAt excluded), (deletedAt messages),
    (prunedAt excluded), (prunedAt messages),
    (revokedAt excluded), (revokedAt messages); reflexivity.
Qed.

Lemma doUpdateSet_key (excluded messages : MessageRow) :
  keyOf (doUpdateSet excluded messages) = keyOf messages.
Proof. reflexivity. Qed.

Lemma doUpdateSet_flags (excluded messages : MessageRow) :
  lifecycleFlags (doUpdateSet excluded messages) = lifecycleFlags excluded.
Proof. reflexivity. Qed.

Lemma insertOnConflict_returning (excluded : MessageRow) (table : Table) :
  isNotNull (snd (insertOnConflict excluded table)) =
  touched excluded (lookupRow (keyOf excluded) table).
Proof.
  induction table as [|row rest IH]; [reflexivity|].
  unfold lookupRow in *. cbn [insertOnConflict List.find].
  rewrite sameKey_decide.
  destruct (bool_decide (keyOf row = keyOf excluded)).
  - cbn [touched]. by destruct (lifecycleChanges excluded row).
  - destruct (insertOnConflict excluded rest) as [rest' returning]. exact IH.
Qed.

Lemma insertOnConflict_lookup (excluded : MessageRow) (table : Table)
    (key : bytes * Z * MessageType) :
  lookupRow key (fst (insertOnConflict excluded table)) =
  if bool_decide (keyOf excluded = key)
  then Some (upserted excluded (lookupRow key table))
  else lookupRow key table.
Proof.
  induction table as [|row rest IH].
  - unfold lookupRow. cbn. by destruct (bool_decide (keyOf excluded = key)).
  - unfold lookupRow in *. cbn [insertOnConflict].
    rewrite sameKey_decide.
    destruct (bool_decide (keyOf row = keyOf excluded)) eqn:Erow.
    + apply bool_decide_eq_true in Erow.
      destruct (lifecycleChanges excluded row) eqn:Ech; cbn [fst List.find];
        rewrite ?doUpdateSet_key, Erow;
        destruct (bool_decide (keyOf excluded = key)); cbn [upserted];
        rewrite ?Ech; reflexivity.
    + apply bool_decide_eq_false in Erow.
      destruct (insertOnConflict excluded rest) as [rest' returning].
      cbn [fst List.find] in *.
      destruct (bool_decide (keyOf row = key)) eqn:Ekey.
      * apply bool_decide_eq_true in Ekey.
        rewrite bool_decide_eq_false_2 by congruence. reflexivity.
      * exact IH.
Qed.

Lemma insertOnConflict_suppressed (excluded row : MessageRow) (table : Table) :
  lookupRow (keyOf excluded) table = Some row ->
  lifecycleChanges excluded row = false ->
  insertOnConflict excluded table = (table, None).
Proof.
  induction table as [|first rest IH]; [discriminate|].
  unfold lookupRow in *. cbn [insertOnConflict List.find].
  rewrite sameKey_decide.
  destruct (bool_decide (keyOf first = keyOf excluded)).
  - intros [= ->] ->. reflexivity.
  - intros Hfind Hch. by rewrite (IH Hfind Hch).
Qed.

(** Every row of the new table is an old row, the proposed row or an
    updated row. *)
Lemma insertOnConflict_rows (excluded : MessageRow) (table : Table) (row : MessageRow) :
  row ∈ fst (insertOnConflict excluded table) ->
  row ∈ table ∨ row = excluded ∨ ∃ old, old ∈ table ∧ row = doUpdateSet excluded old.
Proof.
  induction table as [|first rest IH]; cbn [insertOnConflict].
  - cbn. intros ->%list_elem_of_singleton. auto.
  - destruct (sameKey excluded first).
    + destruct (lifecycleChanges excluded first); cbn [fst].
      * intros [->|Hin]%elem_of_cons.
        -- right. right. exists first. split; [left|reflexivity].
        -- left. by right.
      * auto.
    + destruct (insertOnConflict excluded rest) as [rest' returning]. cbn [fst] in *.
      intros [->|Hin]%elem_of_cons.
      * left. left.
      * destruct (IH Hin) as [H|[H|(old & H1 & H2)]].
        -- left. by right.
        -- auto.
        -- right. right. exists old. split; [by right|done].
Qed.

(** ** [storeMessage] *)

Section StoreProperties.
Context {sdk : HubSdk} {pg : Postgres}.

Lemma storeMessage_unfold (m : Message) (op : StoreMessageOperation) (now : Date)
    (t : Table) :
  storeMessage m op now t =
  match decodeRow m with
  | Thrown e => (t, Thrown e)
  | Returned (d, body, ts) =>
      let r := insertOnConflict (insertValues m d ts body (opDataFor op now) t) t in
      (fst r, Returned (isNotNull (snd r)))
  end.
Proof.
  unfold storeMessage, decodeRow, bind, lift, throw.
  destruct (validateMessage m); [|reflexivity].
  destruct (data m) as [d|]; [|reflexivity].
  destruct (convertProtobufMessageBodyToJson m) as [body|e]; [|reflexivity].
  cbn [obind].
  destruct (farcasterTimeToDate (present (md_timestamp d))) as [ts|e]; [|reflexivity].
  cbn [obind].
  by destruct (insertOnConflict _ t).
Qed.

Lemma storeMessage_thrown (m : Message) (op : StoreMessageOperation) (now : Date)
    (t : Table) (e : Exn) :
  decodeRow m = Thrown e -> storeMessage m op now t = (t, Thrown e).
Proof. intros H. by rewrite storeMessage_unfold, H. Qed.

Lemma insertValues_flags m d ts body op now t :
  lifecycleFlags (insertValues m d ts body (opDataFor op now) t) = opFlags op.
Proof. by destruct op. Qed.

Lemma upserted_flags (excluded : MessageRow) (existing : option MessageRow) :
  lifecycleFlags (upserted excluded existing) = lifecycleFlags excluded.
Proof.
  destruct existing as [row|]; [|reflexivity]. cbn [upserted].
  rewrite lifecycleChanges_flags.
  destruct (bool_decide (lifecycleFlags excluded = lifecycleFlags row)) eqn:E; cbn [negb].
  - by apply bool_decide_eq_true in E.
  - reflexivity.
Qed.

Lemma storeMessage_lookup m op now t d body ts :
  decodeRow m = Returned (d, body, ts) ->
  lookupRow (messageKey m d) (fst (storeMessage m op now t)) =
  Some (upserted (insertValues m d ts body (opDataFor op now) t)
          (lookupRow (messageKey m d) t)).
Proof.
  intros H. rewrite storeMessage_unfold, H. cbn [fst].
  rewrite insertOnConflict_lookup.
  by rewrite bool_decide_eq_true_2.
Qed.

Lemma storeMessage_returned m op now t d body ts :
  decodeRow m = Returned (d, body, ts) ->
  snd (storeMessage m op now t) =
  Returned (touched (insertValues m d ts body (opDataFor op now) t)
              (lookupRow (messageKey m d) t)).
Proof.
  intros H. rewrite storeMessage_unfold, H. cbn [snd].
  by rewrite insertOnConflict_returning.
Qed.

Lemma storeMessage_flags m op now t d body ts :
  decodeRow m = Returned (d, body, ts) ->
  ∃ row, lookupRow (messageKey m d) (fst (storeMessage m op now t)) = Some row
         ∧ lifecycleFlags row = opFlags op.
Proof.
  intros H. eexists. split; [by apply storeMessage_lookup|].
  by rewrite upserted_flags, insertValues_flags.
Qed.

Lemma live_flags (row : MessageRow) :
  live row ↔ lifecycleFlags row = opFlags merge.
Proof.
  unfold live, lifecycleFlags. cbn [opFlags].
  destruct (deletedAt row), (prunedAt row), (revokedAt row); cbn; split;
    try done; intros (? & ? & ?); done.
Qed.

(** A merge of a message whose row is stored and live is suppressed. *)
Lemma storeMessage_merge_live m now t d body ts row :
  decodeRow m = Returned (d, body, ts) ->
  lookupRow (messageKey m d) t = Some row ->
  live row ->
  storeMessage m merge now t = (t, Returned false).
Proof.
  intros Hdec Hrow Hlive%live_flags.
  rewrite storeMessage_unfold, Hdec. cbn zeta.
  rewrite (insertOnConflict_suppressed _ row); [reflexivity|exact Hrow|].
  rewrite lifecycleChanges_flags, insertValues_flags, Hlive.
  reflexivity.
Qed.

Lemma storeMessage_merge_again m now now' t :
  let t1 := fst (storeMessage m merge now t) in
  fst (storeMessage m merge now' t1) = t1.
Proof.
  intros t1. destruct (decodeRow m) as [[[d body] ts]|e] eqn:Hdec.
  - destruct (storeMessage_flags m merge now t d body ts Hdec) as (row & Hrow & Hfl).
    apply live_flags in Hfl.
    by rewrite (storeMessage_merge_live m now' t1 d body ts row).
  - by rewrite (storeMessage_thrown m merge now' t1 e).
Qed.

Lemma mergeTimes_settled m now t (k : nat) :
  ∀ clock, mergeTimes m clock k (fst (storeMessage m merge now t))
           = fst (storeMessage m merge now t).
Proof.
  induction k as [|k IH]; intros clock; [reflexivity|].
  cbn [mergeTimes]. rewrite storeMessage_merge_again. apply IH.
Qed.

(** C1. Idempotence of merge: once a message has been merged, every further
    merge of it leaves the table as the first merge left it, and a merge
    of a message whose stored row is live (all three lifecycle timestamps
    null) is suppressed: the table is unchanged and no row is returned. *)
Theorem storeMessage_merge_idempotent (m : Message) (clock : nat -> Date)
    (t : Table) (N : nat) :
  (1 ≤ N)%nat ->
  mergeTimes m clock N t = mergeTimes m clock 1 t
  ∧ (∀ d body ts row now,
       decodeRow m = Returned (d, body, ts) ->
       lookupRow (messageKey m d) t = Some row ->
       live row ->
       storeMessage m merge now t = (t, Returned false)).
Proof.
  intros HN. split.
  - destruct N as [|k]; [lia|].
    cbn [mergeTimes]. apply mergeTimes_settled.
  - intros d body ts row now. apply storeMessage_merge_live.
Qed.

End StoreProperties.

Section Lifecycle.
Context {sdk : HubSdk} {pg : Postgres}.

Lemma touched_applyResultSpec (excluded : MessageRow) (existing : option MessageRow)
    (op : StoreMessageOperation) :
  lifecycleFlags excluded = opFlags op ->
  touched excluded existing =
  match applyResultSpec existing op with
  | inserted | updated => true
  | noop => false
  end.
Proof.
  intros Hfl. destruct existing as [row|]; [|reflexivity].
  cbn [touched applyResultSpec].
  rewrite lifecycleChanges_flags, Hfl.
  destruct (bool_decide (lifecycleFlags row = opFlags op)) eqn:E.
  - apply bool_decide_eq_true in E. rewrite E.
    by rewrite bool_decide_eq_true_2.
  - apply bool_decide_eq_false in E.
    by rewrite bool_decide_eq_false_2.
Qed.

(** C2, as the code has it. [storeMessage] returns a boolean: [true] when
    the row is new or an existing row's lifecycle changed, [false]
    otherwise; merging a message that has no row twice returns [true] and
    then [false]. *)
Theorem storeMessage_reports_change (m : Message) (op : StoreMessageOperation)
    (now : Date) (t : Table) d body ts :
  decodeRow m = Returned (d, body, ts) ->
  snd (storeMessage m op now t) =
    Returned (match applyResultSpec (lookupRow (messageKey m d) t) op with
              | inserted | updated => true
              | noop => false
              end)
  ∧ (lookupRow (messageKey m d) t = None ->
     ∀ now1 now2,
       snd (storeMessage m merge now1 t) = Returned true
       ∧ snd (storeMessage m merge now2 (fst (storeMessage m merge now1 t)))
         = Returned false).
Proof.
  intros Hdec. split.
  - rewrite (storeMessage_returned m op now t d body ts Hdec).
    f_equal. apply touched_applyResultSpec, insertValues_flags.
  - intros Hnew now1 now2. split.
    + by rewrite (storeMessage_returned m merge now1 t d body ts Hdec), Hnew.
    + destruct (storeMessage_flags m merge now1 t d body ts Hdec) as (row & Hrow & Hfl).
      apply live_flags in Hfl.
      by rewrite (storeMessage_merge_live m now2 _ d body ts row).
Qed.

(** The lifecycle columns of a row, as [opData] lists them. *)
Lemma storeMessage_writes_opData m op now t d body ts :
  decodeRow m = Returned (d, body, ts) ->
  snd (storeMessage m op now t) = Returned true ->
  ∃ row, lookupRow (messageKey m d) (fst (storeMessage m op now t)) = Some row
         ∧ deletedAt row = op_deletedAt (opDataFor op now)
         ∧ prunedAt row = op_prunedAt (opDataFor op now)
         ∧ revokedAt row = op_revokedAt (opDataFor op now).
Proof.
  intros Hdec Hret. eexists. split; [by apply storeMessage_lookup|].
  rewrite (storeMessage_returned m op now t d body ts Hdec) in Hret.
  destruct (lookupRow (messageKey m d) t) as [row|]; cbn [upserted touched] in *.
  - injection Hret as ->. done.
  - done.
Qed.

(** C3. Lifecycle reversibility: for a terminal operation [X] (delete,
    prune or revoke), after merge the row is live; after [X] exactly the
    timestamp of [X] is set and the other two are null; after the second
    merge the row is live again. *)
Theorem storeMessage_merge_terminal_merge (m : Message) (X : StoreMessageOperation)
    (now1 now2 now3 : Date) (t : Table) d body ts :
  decodeRow m = Returned (d, body, ts) ->
  X ≠ merge ->
  let t1 := fst (storeMessage m merge now1 t) in
  let t2 := fst (storeMessage m X now2 t1) in
  let t3 := fst (storeMessage m merge now3 t2) in
  ∃ r1 r2 r3,
    lookupRow (messageKey m d) t1 = Some r1 ∧ live r1
    ∧ lookupRow (messageKey m d) t2 = Some r2
    ∧ match X with
      | delete => deletedAt r2 = Some now2 ∧ prunedAt r2 = None ∧ revokedAt r2 = None
      | prune => deletedAt r2 = None ∧ prunedAt r2 = Some now2 ∧ revokedAt r2 = None
      | revoke => deletedAt r2 = None ∧ prunedAt r2 = None ∧ revokedAt r2 = Some now2
      | merge => False
      end
    ∧ lookupRow (messageKey m d) t3 = Some r3 ∧ live r3.
Proof.
  intros Hdec HX t1 t2 t3.
  destruct (storeMessage_flags m merge now1 t d body ts Hdec) as (r1 & Hr1 & Hf1).
  fold t1 in Hr1.
  assert (Hret : snd (storeMessage m X now2 t1) = Returned true).
  { rewrite (storeMessage_returned m X now2 t1 d body ts Hdec), Hr1.
    cbn [touched]. rewrite lifecycleChanges_flags, insertValues_flags, Hf1.
    by destruct X. }
  destruct (storeMessage_writes_opData m X now2 t1 d body ts Hdec Hret)
    as (r2 & Hr2 & Hd & Hp & Hr).
  fold t2 in Hr2.
  destruct (storeMessage_flags m merge now3 t2 d body ts Hdec) as (r3 & Hr3 & Hf3).
  fold t3 in Hr3.
  exists r1, r2, r3.
  split; [exact Hr1|]. split; [by apply live_flags|].
  split; [exact Hr2|]. split; [by destruct X|].
  split; [exact Hr3|by apply live_flags].
Qed.

Lemma atMostOneLifecycle_flags (row : MessageRow) (op : StoreMessageOperation) :
  lifecycleFlags row = opFlags op -> atMostOneLifecycle row.
Proof. unfold atMostOneLifecycle. intros ->. by destruct op. Qed.

Lemma storeMessage_preserves_atMostOne m op now t :
  Forall atMostOneLifecycle t ->
  Forall atMostOneLifecycle (fst (storeMessage m op now t)).
Proof.
  intros Hall. rewrite storeMessage_unfold.
  destruct (decodeRow m) as [[[d body] ts]|e]; [|exact Hall].
  cbn [fst]. apply Forall_forall. intros row Hin.
  apply insertOnConflict_rows in Hin as [Hin|[->|(old & _ & ->)]].
  - by apply (proj1 (Forall_forall _ _) Hall).
  - apply (atMostOneLifecycle_flags _ op), insertValues_flags.
  - apply (atMostOneLifecycle_flags _ op).
    by rewrite doUpdateSet_flags, insertValues_flags.
Qed.

(** C10. Every write of [storeMessage] assigns the three lifecycle columns
    together from [opData], which sets at most the one timestamp the
    operation selects; so after any operation on a message its row has
    exactly the flags of that operation (whatever they were before), and a
    table written only by [storeMessage] never has a row with two
    lifecycle timestamps set. *)
Theorem storeMessage_lifecycle_columns (m : Message) (op : StoreMessageOperation)
    (now : Date) (t : Table) d body ts :
  decodeRow m = Returned (d, body, ts) ->
  (opDataFor op now =
     match op with
     | merge => {| op_deletedAt := None; op_prunedAt := None; op_revokedAt := None |}
     | delete => {| op_deletedAt := Some now; op_prunedAt := None; op_revokedAt := None |}
     | prune => {| op_deletedAt := None; op_prunedAt := Some now; op_revokedAt := None |}
     | revoke => {| op_deletedAt := None; op_prunedAt := None; op_revokedAt := Some now |}
     end)
  ∧ (snd (storeMessage m op now t) = Returned true ->
     ∃ row, lookupRow (messageKey m d) (fst (storeMessage m op now t)) = Some row
            ∧ deletedAt row = op_deletedAt (opDataFor op now)
            ∧ prunedAt row = op_prunedAt (opDataFor op now)
            ∧ revokedAt row = op_revokedAt (opDataFor op now))
  ∧ (∃ row, lookupRow (messageKey m d) (fst (storeMessage m op now t)) = Some row
            ∧ lifecycleFlags row = opFlags op)
  ∧ (∀ table, WrittenByStoreMessage table -> Forall atMostOneLifecycle table).
Proof.
  intros Hdec. split; [by destruct op|].
  split; [by apply (storeMessage_writes_opData m op now t d body ts)|].
  split; [by apply (storeMessage_flags m op now t d body ts)|].
  intros table Hw.
  induction Hw as [|t' m' op' now' _ IH]; [constructor|].
  by apply storeMessage_preserves_atMostOne.
Qed.

End Lifecycle.

(** ** The codec *)

Section CodecProperties.
Context {sdk : HubSdk} {pg : Postgres}.

Lemma decodeRow_timestamp (m : Message) d body ts :
  decodeRow m = Returned (d, body, ts) ->
  data m = Some d
  ∧ ∃ date, fromFarcasterTime (md_timestamp d) = ok date ∧ ts = present date.
Proof.
  unfold decodeRow, farcasterTimeToDate.
  destruct (validateMessage m); [|discriminate].
  destruct (data m) as [d'|]; [|discriminate].
  destruct (convertProtobufMessageBodyToJson m); [|discriminate]. cbn [obind].
  destruct (fromFarcasterTime (md_timestamp d')) as [date|e] eqn:Et; [|discriminate].
  cbn [obind]. intros [= -> _ <-]. eauto.
Qed.

Lemma decodeRow_bad_timestamp (m : Message) v d e :
  validateMessage m = ok v ->
  data m = Some d ->
  fromFarcasterTime (md_timestamp d) = err e ->
  ∃ e', decodeRow m = Thrown e'.
Proof.
  intros Hv Hd Ht. unfold decodeRow, farcasterTimeToDate. rewrite Hv, Hd, Ht.
  destruct (convertProtobufMessageBodyToJson m); cbn [obind]; eauto.
Qed.

Lemma storeMessage_preserves_timestamps m op now t :
  Forall hasTimestamp t -> Forall hasTimestamp (fst (storeMessage m op now t)).
Proof.
  intros Hall. rewrite storeMessage_unfold.
  destruct (decodeRow m) as [[[d body] ts]|e] eqn:Hdec; [|exact Hall].
  destruct (decodeRow_timestamp m d body ts Hdec) as (_ & date & _ & ->).
  cbn [fst]. apply Forall_forall. intros row Hin.
  apply insertOnConflict_rows in Hin as [Hin|[->|(old & Hold & ->)]].
  - by apply (proj1 (Forall_forall _ _) Hall).
  - by exists date.
  - apply (proj1 (Forall_forall _ _) Hall) in Hold. exact Hold.
Qed.

(** C8. For a message that passes validation and has a data section: when
    the conversion of its hub timestamp fails, [storeMessage] throws and
    writes nothing; when [storeMessage] returns, the conversion succeeded
    and the row it proposed, which is the row stored when the message had
    none, carries that instant as its timestamp.  No row of a table written
    only by [storeMessage] has a null timestamp. *)
Theorem storeMessage_timestamp (m : Message) (op : StoreMessageOperation)
    (now : Date) (t : Table) v d :
  validateMessage m = ok v ->
  data m = Some d ->
  (∀ e, fromFarcasterTime (md_timestamp d) = err e ->
        ∃ e', storeMessage m op now t = (t, Thrown e'))
  ∧ (∀ t' r, storeMessage m op now t = (t', Returned r) ->
       ∃ date body,
         fromFarcasterTime (md_timestamp d) = ok date
         ∧ decodeRow m = Returned (d, body, present date)
         ∧ row_timestamp (insertValues m d (present date) body (opDataFor op now) t)
           = present date
         ∧ (lookupRow (messageKey m d) t = None ->
            ∃ row, lookupRow (messageKey m d) t' = Some row
                   ∧ row_timestamp row = present date))
  ∧ (∀ table, WrittenByStoreMessage table -> Forall hasTimestamp table).
Proof.
  intros Hv Hd. split; [|split].
  - intros e He.
    destruct (decodeRow_bad_timestamp m v d e Hv Hd He) as [e' He'].
    exists e'. by apply storeMessage_thrown.
  - intros t' r Hs.
    destruct (decodeRow m) as [[[d' body] ts]|e] eqn:Hdec.
    + destruct (decodeRow_timestamp m d' body ts Hdec) as (Hd' & date & Ht & ->).
      assert (d' = d) as -> by congruence.
      exists date, body. split; [exact Ht|]. split; [reflexivity|].
      split; [reflexivity|]. intros Hnew.
      pose proof (storeMessage_lookup m op now t d body (present date) Hdec) as Hl.
      rewrite Hs, Hnew in Hl. cbn [fst upserted] in Hl.
      eexists. split; [exact Hl|reflexivity].
    + rewrite (storeMessage_thrown m op now t e Hdec) in Hs. discriminate.
  - intros table Hw.
    induction Hw as [|t0 m' op' now' _ IH]; [constructor|].
    by apply storeMessage_preserves_timestamps.
Qed.

(** C9. A verification-add-address message decodes to a body whose address
    (and claim signature and block hash) is the 0x-prefixed hexadecimal
    text of the bytes when the protocol is Ethereum, and the base58 text
    when it is Solana, with the protocol field the matching tag; no other
    protocol yields a body. *)
Theorem verification_address_encoding (m : Message) d b :
  data m = Some d ->
  md_type d = VERIFICATION_ADD_ETH_ADDRESS ->
  verificationAddAddressBody d = Some b ->
  (vab_protocol b = ETHEREUM ->
   convertProtobufMessageBodyToJson m =
     Returned (VerificationAddEthAddressBodyJson
                 ("0x" ++ toHex (vab_address b))
                 ("0x" ++ toHex (vab_claimSignature b))
                 ("0x" ++ toHex (vab_blockHash b))
                 (Some "ethereum")))
  ∧ (vab_protocol b = SOLANA ->
     ∀ body, convertProtobufMessageBodyToJson m = Returned body ↔
       ∃ address claimSignature blockHash,
         bytesToBase58 (vab_address b) = ok address
         ∧ bytesToBase58 (vab_claimSignature b) = ok claimSignature
         ∧ bytesToBase58 (vab_blockHash b) = ok blockHash
         ∧ body = VerificationAddEthAddressBodyJson address claimSignature blockHash
                    (Some "solana"))
  ∧ (∀ body, convertProtobufMessageBodyToJson m = Returned body ->
       vab_protocol b = ETHEREUM ∨ vab_protocol b = SOLANA).
Proof.
  intros Hd Ht Hb.
  unfold convertProtobufMessageBodyToJson, convertDataBodyToJson.
  rewrite Hd, Ht, Hb. cbn [required obind].
  split; [|split].
  - intros ->. reflexivity.
  - intros -> body. cbn [protocolBytesToString hubProtocolToVerificationProtocol].
    destruct (bytesToBase58 (vab_address b)) as [a|e1]; cbn [unsafeUnwrap obind].
    2:{ split; [discriminate|]. intros (? & ? & ? & [=] & _). }
    destruct (bytesToBase58 (vab_claimSignature b)) as [c|e2]; cbn [unsafeUnwrap obind].
    2:{ split; [discriminate|]. intros (? & ? & ? & _ & [=] & _). }
    destruct (bytesToBase58 (vab_blockHash b)) as [h|e3]; cbn [unsafeUnwrap obind].
    2:{ split; [discriminate|]. intros (? & ? & ? & _ & _ & [=] & _). }
    split.
    + intros [= <-]. by exists a, c, h.
    + intros (? & ? & ? & [= <-] & [= <-] & [= <-] & ->). reflexivity.
  - intros body. destruct (vab_protocol b); [auto|auto|discriminate].
Qed.

End CodecProperties.

(** ** The checkpoint *)

Lemma digitPrefix_string_of_uint (d : Decimal.uint) :
  digitPrefix (NilEmpty.string_of_uint d) = NilEmpty.string_of_uint d.
Proof. induction d; cbn; by rewrite ?IHd. Qed.

Lemma parseInt_toString (n : N) : parseInt (toString n) = Some n.
Proof.
  unfold parseInt, toString.
  assert (Hnn : N.to_uint n ≠ Decimal.Nil).
  { destruct n; [discriminate|]. apply DecimalPos.Unsigned.to_uint_nonnil. }
  assert (Hpre : digitPrefix (NilZero.string_of_uint (N.to_uint n))
                 = NilZero.string_of_uint (N.to_uint n)).
  { unfold NilZero.string_of_uint.
    destruct (N.to_uint n); [done|..]; apply digitPrefix_string_of_uint. }
  rewrite Hpre, (NilZero.usu _ Hnn). cbn.
  by rewrite DecimalN.Unsigned.of_to.
Qed.

Lemma toString_nonempty (n : N) : truthyString (Some (toString n)) = Some (toString n).
Proof.
  unfold toString, NilZero.string_of_uint.
  destruct (N.to_uint n) eqn:E; try reflexivity.
Qed.

(** Saving an event id and loading it back gives that id. *)
Lemma checkpoint_roundtrip (hubId : string) (eventId : N) (client : Redis) :
  snd (getLastProcessedEvent hubId (fst (setLastProcessedEvent hubId eventId client)))
  = Returned (Some eventId).
Proof.
  unfold getLastProcessedEvent, setLastProcessedEvent. cbn [fst].
  rewrite lookup_insert_eq, toString_nonempty. cbn [snd].
  by rewrite parseInt_toString.
Qed.

(** ** The dispatcher *)

Section DispatcherProperties.
Context {sdk : HubSdk} {pg : Postgres}.

Lemma onDb_redis {A : Type} (c : Eff Table A) (w : Shuttle) :
  redis (fst (onDb c w)) = redis w.
Proof. unfold onDb. by destruct (c (db w)). Qed.

Lemma processMergeMessage_handler_raises (m : Message) (handler : MessageHandler)
    (wasMissed : bool) (now : Date) (t trx trx' : Table) (stored : bool) (e : Exn) :
  storeMessage m merge now t = (trx, Returned stored) ->
  handler m merge wasMissed trx = (trx', Thrown e) ->
  processMergeMessage m handler wasMissed now t = (t, Thrown e).
Proof.
  intros Hs Hh. unfold processMergeMessage, transaction, bind.
  by rewrite Hs, Hh.
Qed.

(** C4. Transactionality: when the handler hook raises inside the
    transaction of a merge-message event, the dispatch rethrows and the
    table and the checkpoint are exactly as before the dispatch; a message
    that had no row before has none afterwards. *)
Theorem processHubEvent_handler_raises (event : HubEvent) (m : Message)
    (handler : MessageHandler) (now : Date) (w : Shuttle)
    (trx trx' : Table) (stored : bool) (e : Exn) :
  isMergeMessageHubEvent event = true ->
  mergeMessageBody event ≫= mmb_message = Some m ->
  storeMessage m merge now (db w) = (trx, Returned stored) ->
  handler m merge false trx = (trx', Thrown e) ->
  onDb (processHubEvent event handler now) w = (w, Thrown e)
  ∧ (∀ d, data m = Some d ->
          lookupRow (messageKey m d) (db w) = None ->
          lookupRow (messageKey m d)
            (db (fst (onDb (processHubEvent event handler now) w))) = None)
  ∧ (∀ hubId,
       snd (getLastProcessedEvent hubId
              (redis (fst (onDb (processHubEvent event handler now) w))))
       = snd (getLastProcessedEvent hubId (redis w))).
Proof.
  intros Hguard Hm Hs Hh.
  assert (Hrun : onDb (processHubEvent event handler now) w = (w, Thrown e)).
  { unfold onDb, processHubEvent. rewrite Hguard, Hm.
    rewrite (processMergeMessage_handler_raises m handler false now (db w) trx trx' stored e Hs Hh).
    by destruct w. }
  rewrite Hrun. cbn [fst]. auto.
Qed.

(** C5, as the code has it. [processHubEvent] never saves the checkpoint:
    the checkpoint store is the same after a dispatch as before it.  When
    the caller saves the event id after a dispatch that returned, loading
    the checkpoint gives that id. *)
Theorem processHubEvent_leaves_checkpoint (event : HubEvent)
    (handler : MessageHandler) (now : Date) (w : Shuttle) (hubId : string) :
  redis (fst (onDb (processHubEvent event handler now) w)) = redis w
  ∧ (∀ w', onDb (processHubEvent event handler now) w = (w', Returned tt) ->
       let saved := fst (onRedis (setLastProcessedEvent hubId (he_id event)) w') in
       db saved = db w'
       ∧ snd (onRedis (getLastProcessedEvent hubId) saved)
         = Returned (Some (he_id event))).
Proof.
  split; [apply onDb_redis|].
  intros w' _. cbn. split; [reflexivity|].
  pose proof (checkpoint_roundtrip hubId (he_id event) (redis w')) as Hrt.
  unfold onRedis. cbn [fst redis] in *.
  destruct (getLastProcessedEvent hubId _) as [client r]. exact Hrt.
Qed.

(** C7. An event whose type is not merge-message is dropped: whatever the
    handler would do, [processHubEvent] returns with the table unchanged. *)
Theorem processHubEvent_ignores_other_events (event : HubEvent)
    (handler : MessageHandler) (now : Date) (t : Table) :
  he_type event ≠ MERGE_MESSAGE ->
  processHubEvent event handler now t = (t, Returned tt).
Proof.
  intros Hty. unfold processHubEvent, isMergeMessageHubEvent.
  destruct (he_type event); [congruence|reflexivity..].
Qed.

End DispatcherProperties.

(** ** Hexadecimal keys *)

Lemma hexValue_hexDigit (n : N) : (n < 16)%N -> hexValue (hexDigit n) = n.
Proof.
  intros Hn. destruct n as [|p]; [reflexivity|].
  destruct p as [p|p|]; try reflexivity;
    (destruct p as [p|p|]; try reflexivity);
    (destruct p as [p|p|]; try reflexivity);
    (destruct p as [p|p|]; try reflexivity); lia.
Qed.

Lemma byte_of_digits (a b : byte) :
  hexDigit (Byte.to_N a / 16) = hexDigit (Byte.to_N b / 16) ->
  hexDigit (Byte.to_N a mod 16) = hexDigit (Byte.to_N b mod 16) ->
  a = b.
Proof.
  intros Hhi Hlo.
  pose proof (Byte.to_N_bounded a) as Ha.
  pose proof (Byte.to_N_bounded b) as Hb.
  apply (f_equal hexValue) in Hhi, Hlo.
  rewrite !hexValue_hexDigit in Hhi, Hlo
    by (try (apply N.mod_upper_bound; lia);
        apply N.Div0.div_lt_upper_bound; lia).
  assert (Heq : Byte.to_N a = Byte.to_N b).
  { rewrite (N.div_mod (Byte.to_N a) 16), (N.div_mod (Byte.to_N b) 16) by lia.
    by rewrite Hhi, Hlo. }
  pose proof (Byte.of_to_N a) as Hoa. rewrite Heq, Byte.of_to_N in Hoa.
  congruence.
Qed.

Lemma toHex_inj (x y : bytes) : toHex x = toHex y -> x = y.
Proof.
  revert y. induction x as [|a x IH]; intros [|b y]; cbn [toHex]; try done.
  intros H. injection H as Hhi Hlo Hrest.
  rewrite (byte_of_digits a b Hhi Hlo). f_equal. by apply IH.
Qed.

(** ** The reconciler *)

Lemma byHexHash_fold (rows : list MessageRow) (acc : gmap string MessageRow) (h : bytes) :
  fold_left (fun acc msg => <[toHex (row_hash msg) := msg]> acc) rows acc !! toHex h =
  match storedRowFor h rows with
  | Some row => Some row
  | None => acc !! toHex h
  end.
Proof.
  unfold storedRowFor. revert acc.
  induction rows as [|row rest IH]; intros acc; [reflexivity|].
  cbn [fold_left]. rewrite IH. rewrite filter_cons.
  destruct (decide (row_hash row = h)) as [Heq|Hne].
  - rewrite last_cons.
    destruct (last (filter (fun r => row_hash r = h) rest)); [reflexivity|].
    by rewrite Heq, lookup_insert_eq.
  - destruct (last (filter (fun r => row_hash r = h) rest)); [reflexivity|].
    apply lookup_insert_ne. intros Hhex. by apply toHex_inj in Hhex.
Qed.

Lemma byHexHash_lookup (rows : list MessageRow) (h : bytes) :
  byHexHash rows !! toHex h = storedRowFor h rows.
Proof.
  unfold byHexHash. rewrite byHexHash_fold.
  by destruct (storedRowFor h rows).
Qed.

Lemma storedRowFor_select (hashes : list bytes) (h : bytes) (t : Table) :
  h ∈ hashes -> storedRowFor h (selectByHash hashes t) = storedRowFor h t.
Proof.
  intros Hin. unfold storedRowFor, selectByHash. f_equal.
  rewrite list_filter_filter. apply list_filter_iff.
  intros row. split; [tauto|]. intros <-. by split.
Qed.

Lemma hookCallFor_select (messages : list Message) (t : Table) (m : Message) :
  m ∈ messages ->
  hookCallFor (byHexHash (selectByHash (map hash messages) t)) m = expectedCall t m.
Proof.
  intros Hin. unfold hookCallFor, expectedCall.
  rewrite byHexHash_lookup, storedRowFor_select; [reflexivity|].
  apply list_elem_of_In, in_map, list_elem_of_In, Hin.
Qed.

Lemma storedRowFor_None (h : bytes) (t : Table) :
  storedRowFor h t = None ↔ ∀ row, row ∈ t -> row_hash row ≠ h.
Proof.
  unfold storedRowFor. rewrite last_None. split.
  - intros Hnil row Hin Hh.
    by apply (filter_nil_not_elem_of _ _ row Hnil Hh).
  - intros Hall. induction t as [|row rest IH]; [reflexivity|].
    rewrite filter_cons_False.
    + apply IH. intros r Hr. apply Hall. by right.
    + apply Hall. left.
Qed.

Lemma storedRowFor_Some (h : bytes) (t : Table) (row : MessageRow) :
  storedRowFor h t = Some row -> row ∈ t ∧ row_hash row = h.
Proof.
  unfold storedRowFor. intros Hl%last_Some_elem_of.
  apply list_elem_of_filter in Hl. tauto.
Qed.

Section ReconcilerProperties.
Variable onHubMessage : OnHubMessage.

Lemma forEachMessage_calls (index : gmap string MessageRow) (messages : list Message) :
  hookReturns onHubMessage ->
  ∀ t, ∃ t', forEachMessage onHubMessage index messages t
             = (t', Returned (map (hookCallFor index) messages)).
Proof.
  intros Hret. induction messages as [|m rest IH]; intros t.
  - exists t. reflexivity.
  - cbn [forEachMessage map]. unfold bind at 1.
    destruct (Hret m (missingInDb (hookCallFor index m))
                (prunedInDb (hookCallFor index m))
                (revokedInDb (hookCallFor index m)) t) as [t1 ->].
    unfold bind. destruct (IH t1) as [t2 ->]. exists t2. reflexivity.
Qed.

Lemma map_hookCallFor_select (messages : list Message) (t : Table) :
  map (hookCallFor (byHexHash (selectByHash (map hash messages) t))) messages
  = map (expectedCall t) messages.
Proof.
  apply map_ext_in. intros m Hin. apply hookCallFor_select.
  by apply list_elem_of_In.
Qed.

Lemma reconcileBatch_calls (messages : list Message) (t : Table) :
  hookReturns onHubMessage ->
  ∃ t', reconcileBatch onHubMessage messages t
        = (t', Returned (map (expectedCall t) messages)).
Proof.
  intros Hret. unfold reconcileBatch. rewrite length_map.
  destruct messages as [|m rest]; [by exists t|].
  cbn [length Nat.eqb]. rewrite <- map_hookCallFor_select.
  apply forEachMessage_calls, Hret.
Qed.

End ReconcilerProperties.

Lemma expectedCall_flags (t : Table) (m : Message) :
  let call := expectedCall t m in
  hc_message call = m
  ∧ ((∀ row, row ∈ t -> row_hash row ≠ hash m) ->
     missingInDb call = true ∧ prunedInDb call = false ∧ revokedInDb call = false)
  ∧ ((∃ row, row ∈ t ∧ row_hash row = hash m) ->
     ∃ row, storedRowFor (hash m) t = Some row
            ∧ row ∈ t ∧ row_hash row = hash m
            ∧ missingInDb call = false
            ∧ prunedInDb call = isNotNull (prunedAt row)
            ∧ revokedInDb call = isNotNull (revokedAt row)).
Proof.
  unfold expectedCall.
  destruct (storedRowFor (hash m) t) as [row|] eqn:E; cbn.
  - split; [reflexivity|]. split.
    + intros Hnone. apply storedRowFor_Some in E as [Hin Hh]. by destruct (Hnone row Hin).
    + intros _. exists row. by destruct (storedRowFor_Some _ _ _ E).
  - split; [reflexivity|]. split; [done|].
    intros (row & Hin & Hh). by destruct (proj1 (storedRowFor_None _ _) E row Hin).
Qed.

Lemma hookCallFor_message (index : gmap string MessageRow) (m : Message) :
  hc_message (hookCallFor index m) = m.
Proof. unfold hookCallFor. by destruct (index !! toHex (hash m)). Qed.

Lemma afterHooks_app (onHubMessage : OnHubMessage) (calls more : list HookCall) (t : Table) :
  afterHooks onHubMessage (calls ++ more) t
  = afterHooks onHubMessage more (afterHooks onHubMessage calls t).
Proof. apply fold_left_app. Qed.

Lemma forEachMessage_run (onHubMessage : OnHubMessage)
    (index : gmap string MessageRow) (messages : list Message) :
  hookReturns onHubMessage ->
  ∀ t, forEachMessage onHubMessage index messages t
       = (afterHooks onHubMessage (map (hookCallFor index) messages) t,
          Returned (map (hookCallFor index) messages)).
Proof.
  intros Hret. induction messages as [|m rest IH]; intros t; [reflexivity|].
  cbn [forEachMessage map]. unfold afterHooks. cbn [fold_left].
  unfold afterHook at 2. rewrite hookCallFor_message.
  unfold bind at 1.
  destruct (Hret m (missingInDb (hookCallFor index m))
              (prunedInDb (hookCallFor index m))
              (revokedInDb (hookCallFor index m)) t) as [t1 ->].
  unfold bind. rewrite IH. reflexivity.
Qed.

Lemma reconcileBatch_run (onHubMessage : OnHubMessage) (messages : list Message)
    (t : Table) :
  hookReturns onHubMessage ->
  reconcileBatch onHubMessage messages t
  = (afterHooks onHubMessage (map (expectedCall t) messages) t,
     Returned (map (expectedCall t) messages)).
Proof.
  intros Hret. unfold reconcileBatch. rewrite length_map.
  destruct messages as [|m rest]; [reflexivity|].
  cbn [length Nat.eqb]. rewrite <- map_hookCallFor_select.
  by apply forEachMessage_run.
Qed.

Lemma reconcile_run (onHubMessage : OnHubMessage) (batches : list (list Message)) :
  hookReturns onHubMessage ->
  ∀ t, reconcileMessagesOfTypeForFid onHubMessage batches t
       = (fst (reconciledBatches onHubMessage batches t),
          Returned (snd (reconciledBatches onHubMessage batches t))).
Proof.
  intros Hret. induction batches as [|messages later IH]; intros t; [reflexivity|].
  cbn [reconcileMessagesOfTypeForFid reconciledBatches]. unfold bind.
  rewrite (reconcileBatch_run onHubMessage messages t Hret), IH.
  by destruct (reconciledBatches onHubMessage later _).
Qed.

Lemma reconciledBatches_messages (onHubMessage : OnHubMessage)
    (batches : list (list Message)) :
  ∀ t, map hc_message (snd (reconciledBatches onHubMessage batches t)) = concat batches.
Proof.
  induction batches as [|messages later IH]; intros t; [reflexivity|].
  cbn [reconciledBatches concat].
  specialize (IH (afterHooks onHubMessage (map (expectedCall t) messages) t)).
  destruct (reconciledBatches onHubMessage later _) as [t' more]. cbn [snd] in *.
  rewrite map_app, IH, map_map. f_equal.
  rewrite <- (map_id messages) at 2. apply map_ext. intros m.
  apply expectedCall_flags.
Qed.

Lemma reconciledBatches_app (onHubMessage : OnHubMessage)
    (batches later : list (list Message)) :
  ∀ t, reconciledBatches onHubMessage (batches ++ later) t
       = (fst (reconciledBatches onHubMessage later
                 (fst (reconciledBatches onHubMessage batches t))),
          (snd (reconciledBatches onHubMessage batches t)
           ++ snd (reconciledBatches onHubMessage later
                     (fst (reconciledBatches onHubMessage batches t))))%list).
Proof.
  induction batches as [|messages batches IH]; intros t.
  - cbn. by destruct (reconciledBatches onHubMessage later t).
  - cbn [app reconciledBatches]. rewrite IH.
    destruct (reconciledBatches onHubMessage batches _) as [t1 calls1]. cbn [fst snd].
    by rewrite app_assoc.
Qed.

Lemma expectedCall_storedFlags (t : Table) (m : Message) :
  expectedCall t m =
  match storedFlags (hash m) t with
  | None => {| hc_message := m; missingInDb := true;
               prunedInDb := false; revokedInDb := false |}
  | Some (pruned, revoked) =>
      {| hc_message := m; missingInDb := false;
         prunedInDb := pruned; revokedInDb := revoked |}
  end.
Proof.
  unfold expectedCall, storedFlags. by destruct (storedRowFor (hash m) t).
Qed.

Lemma afterHooks_keeps (onHubMessage : OnHubMessage) (calls : list HookCall) :
  hookKeepsFlags onHubMessage ->
  ∀ t h, storedFlags h (afterHooks onHubMessage calls t) = storedFlags h t.
Proof.
  intros Hkeeps. induction calls as [|call calls IH]; intros t h; [reflexivity|].
  change (afterHooks onHubMessage (call :: calls) t)
    with (afterHooks onHubMessage calls (afterHook onHubMessage t call)).
  rewrite IH. apply Hkeeps.
Qed.

Lemma reconciledBatches_kept (onHubMessage : OnHubMessage)
    (batches : list (list Message)) (t : Table) :
  hookKeepsFlags onHubMessage ->
  ∀ t', (∀ h, storedFlags h t' = storedFlags h t) ->
    reconciledBatches onHubMessage batches t'
    = (afterHooks onHubMessage (map (expectedCall t) (concat batches)) t',
       map (expectedCall t) (concat batches)).
Proof.
  intros Hkeeps. induction batches as [|messages later IH]; intros t' Hsame;
    [reflexivity|].
  cbn [reconciledBatches concat].
  assert (Hcalls : map (expectedCall t') messages = map (expectedCall t) messages).
  { apply map_ext. intros m. by rewrite !expectedCall_storedFlags, Hsame. }
  rewrite Hcalls, IH.
  - by rewrite map_app, afterHooks_app.
  - intros h. by rewrite afterHooks_keeps.
Qed.

Lemma hookObserves_keeps (onHubMessage : OnHubMessage) :
  hookObserves onHubMessage -> hookReturns onHubMessage ∧ hookKeepsFlags onHubMessage.
Proof.
  intros Hobs. split.
  - intros m missing pruned revoked t. exists t. apply Hobs.
  - intros m missing pruned revoked t h. by rewrite Hobs.
Qed.

Lemma storedFlags_map (f : MessageRow -> MessageRow) (h : bytes) (t : Table) :
  (∀ row, row_hash (f row) = row_hash row
          ∧ prunedAt (f row) = prunedAt row ∧ revokedAt (f row) = revokedAt row) ->
  storedFlags h (map f t) = storedFlags h t.
Proof.
  intros Hf. unfold storedFlags, storedRowFor.
  induction t as [|row rest IH]; [reflexivity|].
  cbn [map]. rewrite !filter_cons.
  destruct (Hf row) as (Hh & Hp & Hr). rewrite Hh.
  destruct (decide (row_hash row = h)) as [Heq|Hne]; [|exact IH].
  rewrite !last_cons.
  destruct (last (filter (fun r => row_hash r = h) (map f rest))),
           (last (filter (fun r => row_hash r = h) rest));
    cbn in IH |- *; try congruence.
Qed.

(** C6. Reconciler flags: for a batch, the hook is invoked once per hub
    message, in batch order, with [missing = true, pruned = false,
    revoked = false] when no stored row has the message's hash and
    otherwise with [missing = false] and [pruned], [revoked] telling
    whether the stored row's [prunedAt], [revokedAt] are set: for every
    hook that returns, the table the batch leaves is the one those
    invocations leave, made in that order on the table each one found, and
    the reconciler writes nothing else; the flags of a batch are read from
    the table as the batches before it left it.  With an empty table the
    hook is invoked once per message of the inventory with
    [missingInDb = true]; with a table that holds every message of the
    inventory, neither pruned nor revoked, once per message with all flags
    false (for a hook that may write, but not the hashes stored nor whether
    their rows are pruned or revoked). *)
Theorem reconcile_hook_flags (onHubMessage : OnHubMessage)
    (batches : list (list Message)) (messages : list Message) (t : Table) :
  hookReturns onHubMessage ->
  reconcileBatch onHubMessage messages t
    = (afterHooks onHubMessage (map (expectedCall t) messages) t,
       Returned (map (expectedCall t) messages))
  ∧ (∀ m, let call := expectedCall t m in
       hc_message call = m
       ∧ ((∀ row, row ∈ t -> row_hash row ≠ hash m) ->
          missingInDb call = true ∧ prunedInDb call = false ∧ revokedInDb call = false)
       ∧ ((∃ row, row ∈ t ∧ row_hash row = hash m) ->
          ∃ row, storedRowFor (hash m) t = Some row
                 ∧ row ∈ t ∧ row_hash row = hash m
                 ∧ missingInDb call = false
                 ∧ prunedInDb call = isNotNull (prunedAt row)
                 ∧ revokedInDb call = isNotNull (revokedAt row)))
  ∧ (reconcileMessagesOfTypeForFid onHubMessage batches t
       = (fst (reconciledBatches onHubMessage batches t),
          Returned (snd (reconciledBatches onHubMessage batches t)))
     ∧ map hc_message (snd (reconciledBatches onHubMessage batches t)) = concat batches)
  ∧ (hookKeepsFlags onHubMessage ->
     (let calls := map (fun m => {| hc_message := m; missingInDb := true;
                                    prunedInDb := false; revokedInDb := false |})
                     (concat batches) in
      reconcileMessagesOfTypeForFid onHubMessage batches []
        = (afterHooks onHubMessage calls [], Returned calls))
     ∧ ((∀ m, m ∈ concat batches ->
           (∃ row, row ∈ t ∧ row_hash row = hash m)
           ∧ ∀ row, row ∈ t -> row_hash row = hash m ->
                    prunedAt row = None ∧ revokedAt row = None) ->
        let calls := map (fun m => {| hc_message := m; missingInDb := false;
                                      prunedInDb := false; revokedInDb := false |})
                       (concat batches) in
        reconcileMessagesOfTypeForFid onHubMessage batches t
          = (afterHooks onHubMessage calls t, Returned calls))).
Proof.
  intros Hret. split; [by apply reconcileBatch_run|].
  split; [intros m; apply expectedCall_flags|].
  split; [split; [by apply reconcile_run|apply reconciledBatches_messages]|].
  intros Hkeeps.
  assert (Hrun : ∀ t0, reconcileMessagesOfTypeForFid onHubMessage batches t0
                       = (afterHooks onHubMessage (map (expectedCall t0) (concat batches)) t0,
                          Returned (map (expectedCall t0) (concat batches)))).
  { intros t0. rewrite (reconcile_run onHubMessage batches Hret t0).
    by rewrite (reconciledBatches_kept onHubMessage batches t0 Hkeeps t0). }
  split.
  - cbv zeta. rewrite Hrun. reflexivity.
  - intros Hstore. cbv zeta. rewrite Hrun.
    assert (Hcalls : map (expectedCall t) (concat batches)
                     = map (fun m => {| hc_message := m; missingInDb := false;
                                        prunedInDb := false; revokedInDb := false |})
                         (concat batches)).
    { apply map_ext_in. intros m Hin%list_elem_of_In.
      destruct (Hstore m Hin) as [Hex Hlive].
      destruct (expectedCall_flags t m) as (Hm & _ & Hsome).
      destruct (Hsome Hex) as (row & _ & Hrow & Hh & Hmiss & Hp & Hr).
      destruct (Hlive row Hrow Hh) as [Hpn Hrn].
      rewrite Hpn in Hp. rewrite Hrn in Hr. cbn in Hp, Hr.
      destruct (expectedCall t m) as [cm cmiss cp cr]. cbn in *. congruence. }
    by rewrite Hcalls.
Qed.

(** * Further properties of the shuttle *)

(** ** The upsert keeps one row per key *)

Lemma lookupRow_None_keys (key : bytes * Z * MessageType) (t : Table) :
  lookupRow key t = None ↔ key ∉ map keyOf t.
Proof.
  unfold lookupRow. induction t as [|row rest IH]; cbn [List.find map].
  - split; [intros _; apply not_elem_of_nil|done].
  - rewrite not_elem_of_cons.
    destruct (bool_decide (keyOf row = key)) eqn:E.
    + apply bool_decide_eq_true in E. split; [discriminate|]. intros [Hne _]. congruence.
    + apply bool_decide_eq_false in E. rewrite IH. split; [|tauto].
      intros H. split; [congruence|exact H].
Qed.

Lemma insertOnConflict_keys (excluded : MessageRow) (t : Table) :
  map keyOf (fst (insertOnConflict excluded t)) =
  match lookupRow (keyOf excluded) t with
  | Some _ => map keyOf t
  | None => (map keyOf t ++ [keyOf excluded])%list
  end.
Proof.
  unfold lookupRow. induction t as [|row rest IH]; [reflexivity|].
  cbn [insertOnConflict List.find]. rewrite sameKey_decide.
  destruct (bool_decide (keyOf row = keyOf excluded)).
  - by destruct (lifecycleChanges excluded row).
  - destruct (insertOnConflict excluded rest) as [rest' returning].
    cbn [fst map] in *. rewrite IH.
    by destruct (List.find _ rest).
Qed.

Section StoreFurther.
Context {sdk : HubSdk} {pg : Postgres}.

Lemma storeMessage_keys m op now t d body ts :
  decodeRow m = Returned (d, body, ts) ->
  map keyOf (fst (storeMessage m op now t)) =
  match lookupRow (messageKey m d) t with
  | Some _ => map keyOf t
  | None => (map keyOf t ++ [messageKey m d])%list
  end.
Proof.
  intros Hdec. rewrite storeMessage_unfold, Hdec. cbn [fst].
  apply insertOnConflict_keys.
Qed.

Lemma storeMessage_preserves_NoDup m op now t :
  NoDup (map keyOf t) -> NoDup (map keyOf (fst (storeMessage m op now t))).
Proof.
  intros Hnd. destruct (decodeRow m) as [[[d body] ts]|e] eqn:Hdec.
  - rewrite (storeMessage_keys m op now t d body ts Hdec).
    destruct (lookupRow (messageKey m d) t) eqn:Hl; [exact Hnd|].
    apply NoDup_app. split; [exact Hnd|]. split.
    + intros key Hin ->%list_elem_of_singleton.
      by apply lookupRow_None_keys in Hl.
    + apply NoDup_singleton.
  - by rewrite (storeMessage_thrown m op now t e Hdec).
Qed.

(** X1. Uniqueness: a table written only by [storeMessage] holds at most
    one row per [(hash, fid, type)], however often a message was stored. *)
Theorem storeMessage_unique_keys (t : Table) :
  WrittenByStoreMessage t -> NoDup (map keyOf t).
Proof.
  intros Hw. induction Hw as [|t m op now _ IH]; [constructor|].
  by apply storeMessage_preserves_NoDup.
Qed.

Lemma storeMessage_length m op now t d body ts :
  decodeRow m = Returned (d, body, ts) ->
  length (fst (storeMessage m op now t)) =
  match lookupRow (messageKey m d) t with
  | Some _ => length t
  | None => S (length t)
  end.
Proof.
  intros Hdec.
  rewrite <- (length_map keyOf), (storeMessage_keys m op now t d body ts Hdec).
  destruct (lookupRow (messageKey m d) t).
  - by rewrite length_map.
  - rewrite length_app, length_map. cbn. lia.
Qed.

(** X2. Frame: storing a message leaves the row of every other key as it
    was, and the table grows by exactly one row when the message had no
    row and by none when it had one. *)
Theorem storeMessage_frame (m : Message) (op : StoreMessageOperation) (now : Date)
    (t : Table) d body ts :
  decodeRow m = Returned (d, body, ts) ->
  (∀ key, key ≠ messageKey m d ->
          lookupRow key (fst (storeMessage m op now t)) = lookupRow key t)
  ∧ length (fst (storeMessage m op now t)) =
    match lookupRow (messageKey m d) t with
    | Some _ => length t
    | None => S (length t)
    end.
Proof.
  intros Hdec. split.
  - intros key Hne. rewrite storeMessage_unfold, Hdec. cbn [fst].
    rewrite insertOnConflict_lookup.
    rewrite bool_decide_eq_false_2; [reflexivity|].
    intros Hk. apply Hne. symmetry. exact Hk.
  - by apply (storeMessage_length m op now t d body ts).
Qed.

(** X3. A conflict never rewrites what identifies or describes the message:
    the stored row keeps its id, key, timestamp, hash scheme and body; when
    the update fires ([true] is returned) the signature scheme, signer and
    raw bytes are taken from the incoming message, and when it is
    suppressed the row is kept whole. *)
Theorem storeMessage_conflict_columns (m : Message) (op : StoreMessageOperation)
    (now : Date) (t : Table) d body ts (old : MessageRow) :
  decodeRow m = Returned (d, body, ts) ->
  lookupRow (messageKey m d) t = Some old ->
  ∃ new,
    lookupRow (messageKey m d) (fst (storeMessage m op now t)) = Some new
    ∧ row_id new = row_id old
    ∧ keyOf new = keyOf old
    ∧ row_timestamp new = row_timestamp old
    ∧ row_hashScheme new = row_hashScheme old
    ∧ row_body new = row_body old
    ∧ (snd (storeMessage m op now t) = Returned true ->
       row_signatureScheme new = signatureScheme m
       ∧ row_signer new = signer m
       ∧ row_raw new = encodeMessage m)
    ∧ (snd (storeMessage m op now t) = Returned false -> new = old).
Proof.
  intros Hdec Hold.
  rewrite (storeMessage_lookup m op now t d body ts Hdec).
  rewrite (storeMessage_returned m op now t d body ts Hdec).
  rewrite Hold. cbn [upserted touched].
  destruct (lifecycleChanges _ old); eexists; (split; [reflexivity|]);
    repeat split; try reflexivity; try discriminate; done.
Qed.

(** X4. Repeating an operation is a no-op: once a message has been stored
    under an operation, storing it again under the same operation returns
    [false] and changes nothing, so the timestamp of the first application
    is the one that stays. *)
Theorem storeMessage_repeat_suppressed (m : Message) (op : StoreMessageOperation)
    (now now' : Date) (t : Table) d body ts :
  decodeRow m = Returned (d, body, ts) ->
  storeMessage m op now' (fst (storeMessage m op now t))
  = (fst (storeMessage m op now t), Returned false).
Proof.
  intros Hdec.
  destruct (storeMessage_flags m op now t d body ts Hdec) as (row & Hrow & Hfl).
  rewrite (storeMessage_unfold m op now'), Hdec. cbn zeta.
  rewrite (insertOnConflict_suppressed _ row); [reflexivity|exact Hrow|].
  by rewrite lifecycleChanges_flags, insertValues_flags, Hfl, bool_decide_eq_true_2.
Qed.

(** X5. The boolean is exact: [storeMessage] returns [true] if and only if
    the table after the call differs from the table before it. *)
Theorem storeMessage_true_iff_changed (m : Message) (op : StoreMessageOperation)
    (now : Date) (t : Table) d body ts :
  decodeRow m = Returned (d, body, ts) ->
  snd (storeMessage m op now t) = Returned true
  ↔ fst (storeMessage m op now t) ≠ t.
Proof.
  intros Hdec.
  rewrite (storeMessage_returned m op now t d body ts Hdec).
  destruct (lookupRow (messageKey m d) t) as [row|] eqn:Hl; cbn [touched].
  - destruct (lifecycleChanges _ row) eqn:Hch.
    + split; [|done]. intros _ Heq.
      pose proof (storeMessage_lookup m op now t d body ts Hdec) as Hnew.
      rewrite Heq, Hl in Hnew. cbn [upserted] in Hnew. rewrite Hch in Hnew.
      injection Hnew as Hrow.
      rewrite lifecycleChanges_flags in Hch.
      apply negb_true_iff, bool_decide_eq_false in Hch. apply Hch.
      apply (f_equal lifecycleFlags) in Hrow.
      rewrite doUpdateSet_flags in Hrow. by symmetry.
    + split; [discriminate|]. intros Hne. exfalso. apply Hne.
      rewrite storeMessage_unfold, Hdec. cbn zeta.
      by rewrite (insertOnConflict_suppressed _ row).
  - split; [|done]. intros _ Heq.
    pose proof (storeMessage_length m op now t d body ts Hdec) as Hlen.
    rewrite Heq, Hl in Hlen. lia.
Qed.

(** X6. Failure writes nothing: whenever [storeMessage] throws the table is
    untouched.  Validation is checked first (an invalid message is reported
    as such even when its data section is missing), then the data section. *)
Theorem storeMessage_failure (m : Message) (op : StoreMessageOperation)
    (now : Date) (t : Table) :
  (∀ t' e, storeMessage m op now t = (t', Thrown e) -> t' = t)
  ∧ (∀ e, validateMessage m = err e ->
          storeMessage m op now t = (t, Thrown (InvalidMessage e)))
  ∧ (∀ v, validateMessage m = ok v -> data m = None ->
          storeMessage m op now t = (t, Thrown MessageDataMissing)).
Proof.
  split; [|split].
  - intros t' e. rewrite storeMessage_unfold.
    destruct (decodeRow m) as [[[d body] ts]|e']; [discriminate|congruence].
  - intros e He. unfold storeMessage. by rewrite He.
  - intros v Hv Hd. unfold storeMessage. by rewrite Hv, Hd.
Qed.

End StoreFurther.

(** ** The codec, arm by arm *)

(** X7. The hexadecimal text identifies the bytes: [bytesToHex] is
    injective, and its text is [0x] followed by two digits per byte. *)
Theorem bytesToHex_faithful (x y : bytes) :
  (bytesToHex x = bytesToHex y -> x = y)
  ∧ String.length (bytesToHex x) = (2 + 2 * length x)%nat.
Proof.
  split.
  - unfold bytesToHex. cbn. intros [= H]. by apply toHex_inj.
  - change (String.length (bytesToHex x)) with (S (S (String.length (toHex x)))).
    assert (String.length (toHex x) = (2 * length x)%nat) as ->; [|lia].
    induction x as [|b x IH]; [reflexivity|].
    cbn [toHex String.length length]. rewrite IH. lia.
Qed.

Section CodecFurther.
Context {sdk : HubSdk} {pg : Postgres}.

Lemma convertDataBodyToJson_matches (d : MessageData) (body : MessageBodyJson) :
  convertDataBodyToJson d = Returned body -> bodyMatchesType (md_type d) body.
Proof.
  unfold convertDataBodyToJson, required, obind.
  repeat case_match; try discriminate; intros [= <-]; exact I.
Qed.

(** X8. The decoded body has the variant of the message type: whenever
    [convertProtobufMessageBodyToJson] returns, the message has a data
    section and the body is the variant that its type requires; a message
    without data, or of a type the switch does not name, yields no body. *)
Theorem convert_body_matches_type (m : Message) :
  (∀ body, convertProtobufMessageBodyToJson m = Returned body ->
           ∃ d, data m = Some d ∧ bodyMatchesType (md_type d) body)
  ∧ (data m = None -> convertProtobufMessageBodyToJson m = Thrown UnknownMessageType)
  ∧ (∀ d wire, data m = Some d -> md_type d = OTHER_MESSAGE_TYPE wire ->
               convertProtobufMessageBodyToJson m = Thrown UnknownMessageType).
Proof.
  unfold convertProtobufMessageBodyToJson. split; [|split].
  - intros body. destruct (data m) as [d|]; [|discriminate].
    intros H. exists d. split; [reflexivity|]. by apply convertDataBodyToJson_matches.
  - by intros ->.
  - intros d wire -> Ht. unfold convertDataBodyToJson. by rewrite Ht.
Qed.

Lemma decodeRow_body (m : Message) d body ts :
  decodeRow m = Returned (d, body, ts) ->
  convertProtobufMessageBodyToJson m = Returned body ∧ data m = Some d.
Proof.
  unfold decodeRow.
  destruct (validateMessage m); [|discriminate].
  destruct (data m) as [d'|]; [|discriminate].
  destruct (convertProtobufMessageBodyToJson m) as [body'|]; [|discriminate].
  cbn [obind].
  destruct (farcasterTimeToDate (present (md_timestamp d'))); [|discriminate].
  cbn [obind]. by intros [= -> -> _].
Qed.

Lemma storeMessage_preserves_body_type m op now t :
  Forall (fun row => bodyMatchesType (row_type row) (row_body row)) t ->
  Forall (fun row => bodyMatchesType (row_type row) (row_body row))
    (fst (storeMessage m op now t)).
Proof.
  intros Hall. rewrite storeMessage_unfold.
  destruct (decodeRow m) as [[[d body] ts]|e] eqn:Hdec; [|exact Hall].
  destruct (decodeRow_body m d body ts Hdec) as [Hbody Hd].
  cbn [fst]. apply Forall_forall. intros row Hin.
  apply insertOnConflict_rows in Hin as [Hin|[->|(old & Hold & ->)]].
  - by apply (proj1 (Forall_forall _ _) Hall).
  - cbn. unfold convertProtobufMessageBodyToJson in Hbody. rewrite Hd in Hbody.
    by apply convertDataBodyToJson_matches.
  - apply (proj1 (Forall_forall _ _) Hall) in Hold. exact Hold.
Qed.

(** X9. Stored bodies match stored types: in a table written only by
    [storeMessage], the body of every row is the variant of that row's
    type (neither column is ever rewritten by a conflict). *)
Theorem stored_body_matches_type (t : Table) :
  WrittenByStoreMessage t ->
  Forall (fun row => bodyMatchesType (row_type row) (row_body row)) t.
Proof.
  intros Hw. induction Hw as [|t m op now _ IH]; [constructor|].
  by apply storeMessage_preserves_body_type.
Qed.

(** X10. Link bodies and zero: a link whose target fid is absent or 0 is
    rejected; a display timestamp that is absent or 0 is left out of the
    body; any other display timestamp is converted from Farcaster time,
    and a failed conversion is thrown. *)
Theorem convert_link_body (m : Message) d b :
  data m = Some d ->
  md_type d = LINK_ADD ∨ md_type d = LINK_REMOVE ->
  linkBody d = Some b ->
  (lb_targetFid b = None ∨ lb_targetFid b = Some 0 ->
   convertProtobufMessageBodyToJson m = Thrown MissingLinkTarget)
  ∧ (∀ targetFid, lb_targetFid b = Some targetFid -> targetFid ≠ 0 ->
       (lb_displayTimestamp b = None ∨ lb_displayTimestamp b = Some 0 ->
        convertProtobufMessageBodyToJson m
        = Returned (LinkBodyJson (lb_type b) targetFid None))
       ∧ (∀ shown, lb_displayTimestamp b = Some shown -> shown ≠ 0 ->
            convertProtobufMessageBodyToJson m
            = match fromFarcasterTime shown with
              | ok value => Returned (LinkBodyJson (lb_type b) targetFid (Some value))
              | err e => Thrown (HubErrorThrown e)
              end)).
Proof.
  intros Hd Ht Hb.
  assert (Hconv : convertProtobufMessageBodyToJson m =
    match truthyNumber (lb_targetFid b) with
    | None => Thrown MissingLinkTarget
    | Some targetFid =>
        match truthyNumber (lb_displayTimestamp b) with
        | None => Returned (LinkBodyJson (lb_type b) targetFid None)
        | Some displayTimestamp =>
            match fromFarcasterTime displayTimestamp with
            | err e => Thrown (HubErrorThrown e)
            | ok value => Returned (LinkBodyJson (lb_type b) targetFid (Some value))
            end
        end
    end).
  { unfold convertProtobufMessageBodyToJson, convertDataBodyToJson.
    rewrite Hd. destruct Ht as [-> | ->]; by rewrite Hb. }
  rewrite Hconv. split.
  - by intros [-> | ->].
  - intros targetFid -> Hnz.
    assert (truthyNumber (Some targetFid) = Some targetFid) as ->
      by (by destruct targetFid).
    split.
    + by intros [-> | ->].
    + intros shown -> Hs.
      assert (truthyNumber (Some shown) = Some shown) as -> by (by destruct shown).
      by destruct (fromFarcasterTime shown).
Qed.

(** X11. Reaction targets: a cast target takes precedence over a url; a
    url is used only when it is non-empty; with neither the message is
    rejected. *)
Theorem convert_reaction_target (m : Message) d b :
  data m = Some d ->
  md_type d = REACTION_ADD ∨ md_type d = REACTION_REMOVE ->
  reactionBody d = Some b ->
  (∀ c, rb_targetCastId b = Some c ->
        convertProtobufMessageBodyToJson m
        = Returned (ReactionBodyJson (rb_type b)
                      (TargetCast (castId_fid c) (bytesToHex (castId_hash c)))))
  ∧ (∀ url, rb_targetCastId b = None -> rb_targetUrl b = Some url -> url ≠ "" ->
            convertProtobufMessageBodyToJson m
            = Returned (ReactionBodyJson (rb_type b) (TargetUrl url)))
  ∧ (rb_targetCastId b = None ->
     rb_targetUrl b = None ∨ rb_targetUrl b = Some "" ->
     convertProtobufMessageBodyToJson m = Thrown MissingReactionTarget).
Proof.
  intros Hd Ht Hb.
  assert (Hconv : convertProtobufMessageBodyToJson m =
    match rb_targetCastId b, truthyString (rb_targetUrl b) with
    | Some c, _ => Returned (ReactionBodyJson (rb_type b) (castIdToJson c))
    | None, Some targetUrl => Returned (ReactionBodyJson (rb_type b) (TargetUrl targetUrl))
    | None, None => Thrown MissingReactionTarget
    end).
  { unfold convertProtobufMessageBodyToJson, convertDataBodyToJson.
    rewrite Hd. destruct Ht as [-> | ->]; by rewrite Hb. }
  rewrite Hconv. split; [|split].
  - by intros c ->.
  - intros url -> -> Hne. by destruct url.
  - by intros -> [-> | ->].
Qed.

Lemma embedToJson_length (e : Embed) :
  length (embedToJson e) =
  match embed_castId e, embed_url e with
  | None, None => 0%nat
  | _, _ => 1%nat
  end.
Proof. unfold embedToJson. by destruct (embed_castId e), (embed_url e). Qed.

Lemma embeds_length (embeds : list Embed) :
  (length (flat_map embedToJson embeds) ≤ length embeds)%nat.
Proof.
  induction embeds as [|e rest IH]; [done|].
  cbn [flat_map]. rewrite length_app, embedToJson_length. cbn [length].
  destruct (embed_castId e), (embed_url e); lia.
Qed.

Lemma omap_step {A B : Type} (f : A -> option B) (a : A) (rest : list A) :
  omap f (a :: rest) = match f a with
                       | Some b => b :: omap f rest
                       | None => omap f rest
                       end.
Proof. reflexivity. Qed.

Lemma embeds_texts (embeds : list Embed) :
  flat_map embedToJson embeds = omap embedText embeds.
Proof.
  induction embeds as [|e rest IH]; [reflexivity|].
  cbn [flat_map]. rewrite IH, omap_step. unfold embedToJson, embedText.
  by destruct (embed_castId e), (embed_url e).
Qed.

(** X12. Cast-add bodies: with the body present the conversion never
    fails; mentions, positions and text pass through; the embeds are, in
    the order of the cast's embeds, one text for each embed that has a cast
    id or a url (the cast hash in hex when it has a cast id, even if it
    also has a url, and the url otherwise) and nothing for an embed that
    has neither; the parent is the cast id when there is one and the url
    otherwise. *)
Theorem convert_cast_add_body (m : Message) d b :
  data m = Some d ->
  md_type d = CAST_ADD ->
  castAddBody d = Some b ->
  ∃ embeds parent,
    convertProtobufMessageBodyToJson m
    = Returned (CastAddBodyJson embeds (cab_mentions b) (cab_mentionsPositions b)
                  (cab_text b) parent)
    ∧ embeds = omap (fun e => match embed_castId e with
                              | Some c => Some (bytesToHex (castId_hash c))
                              | None => embed_url e
                              end) (cab_embeds b)
    ∧ (∀ before e after,
         cab_embeds b = (before ++ e :: after)%list ->
         embed_castId e = None -> embed_url e = None ->
         embeds = omap embedText (before ++ after)%list)
    ∧ (∀ before e after c,
         cab_embeds b = (before ++ e :: after)%list ->
         embed_castId e = Some c ->
         embeds = (omap embedText before ++ bytesToHex (castId_hash c)
                   :: omap embedText after)%list)
    ∧ (∀ before e after url,
         cab_embeds b = (before ++ e :: after)%list ->
         embed_castId e = None -> embed_url e = Some url ->
         embeds = (omap embedText before ++ url :: omap embedText after)%list)
    ∧ (length embeds ≤ length (cab_embeds b))%nat
    ∧ (Forall (fun e => is_Some (embed_castId e) ∨ is_Some (embed_url e)) (cab_embeds b) ->
       length embeds = length (cab_embeds b))
    ∧ parent = match cab_parentCastId b with
               | Some c => Some (TargetCast (castId_fid c) (bytesToHex (castId_hash c)))
               | None => TargetUrl <$> cab_parentUrl b
               end.
Proof.
  intros Hd Ht Hb.
  unfold convertProtobufMessageBodyToJson, convertDataBodyToJson.
  rewrite Hd, Ht, Hb. cbn [required obind].
  eexists _, _. split; [reflexivity|].
  rewrite embeds_texts.
  split; [reflexivity|].
  split; [|split; [|split; [|split; [|split]]]].
  - intros before e after -> Hc Hu. rewrite !omap_app.
    rewrite omap_step. unfold embedText at 2. by rewrite Hc, Hu.
  - intros before e after c -> Hc. rewrite omap_app.
    rewrite omap_step. unfold embedText at 2. by rewrite Hc.
  - intros before e after url -> Hc Hu. rewrite omap_app.
    rewrite omap_step. unfold embedText at 2. by rewrite Hc, Hu.
  - rewrite <- embeds_texts. apply embeds_length.
  - rewrite <- embeds_texts.
    induction 1 as [|e rest He _ IH]; [reflexivity|].
    cbn [flat_map]. rewrite length_app, IH, embedToJson_length. cbn [length].
    destruct He as [[c Hc]|[u Hu]]; rewrite ?Hc, ?Hu;
      by destruct (embed_castId e).
  - by destruct (cab_parentCastId b).
Qed.

(** X13. Protocol tags: the tag written into a verification body selects
    the same text encoding as the protocol enum it was derived from, and
    whenever an address was encoded from the enum the tag is defined. *)
Theorem protocol_tag_agrees (value : bytes) (protocol : Protocol) :
  (∀ tag, hubProtocolToVerificationProtocol protocol = Some tag ->
          protocolBytesToString value (ProtocolTag tag)
          = protocolBytesToString value (ProtocolEnum protocol))
  ∧ (∀ text, protocolBytesToString value (ProtocolEnum protocol) = Returned text ->
             is_Some (hubProtocolToVerificationProtocol protocol))
  ∧ (hubProtocolToVerificationProtocol protocol = None ->
     protocolBytesToString value (ProtocolEnum protocol) = Thrown UnexpectedProtocol).
Proof.
  split; [|split].
  - intros tag. destruct protocol; cbn; intros [= <-]; reflexivity.
  - intros text. destruct protocol; cbn; [eauto|eauto|discriminate].
  - destruct protocol; cbn; [discriminate|discriminate|reflexivity].
Qed.

(** X14. Verification-remove bodies: the address is the 0x-hex text for
    Ethereum and the base58 text for Solana, with the matching tag, and
    the message is rejected for any other protocol or when the base58
    encoder fails. *)
Theorem verification_remove_encoding (m : Message) d b :
  data m = Some d ->
  md_type d = VERIFICATION_REMOVE ->
  verificationRemoveBody d = Some b ->
  convertProtobufMessageBodyToJson m =
  match vrb_protocol b with
  | ETHEREUM =>
      Returned (VerificationRemoveBodyJson ("0x" ++ toHex (vrb_address b)) (Some "ethereum"))
  | SOLANA =>
      match bytesToBase58 (vrb_address b) with
      | ok address => Returned (VerificationRemoveBodyJson address (Some "solana"))
      | err e => Thrown (Base58Unwrap e)
      end
  | OTHER_PROTOCOL _ => Thrown UnexpectedProtocol
  end.
Proof.
  intros Hd Ht Hb.
  unfold convertProtobufMessageBodyToJson, convertDataBodyToJson.
  rewrite Hd, Ht, Hb. cbn [required obind].
  destruct (vrb_protocol b); cbn; [reflexivity| |reflexivity].
  by destruct (bytesToBase58 (vrb_address b)).
Qed.

End CodecFurther.

(** ** The checkpoint, hub by hub *)

Lemma string_length_app (a b : string) :
  String.length (a ++ b) = (String.length a + String.length b)%nat.
Proof.
  induction a as [|c a IH]; [reflexivity|].
  change (S (String.length (a ++ b)) = S (String.length a + String.length b)).
  by rewrite IH.
Qed.

Lemma string_app_inv_tail (a b s : string) : a ++ s = b ++ s -> a = b.
Proof.
  revert b. induction a as [|c a IH]; intros [|c' b]; cbn.
  - done.
  - intros H. apply (f_equal String.length) in H.
    change (String.length s = S (String.length (b ++ s))) in H.
    rewrite string_length_app in H. lia.
  - intros H. apply (f_equal String.length) in H.
    change (S (String.length (a ++ s)) = String.length s) in H.
    rewrite string_length_app in H. lia.
  - intros H. injection H as -> H. f_equal. by apply IH.
Qed.

Lemma lastHubEventKey_inj (a b : string) :
  lastHubEventKey a = lastHubEventKey b -> a = b.
Proof.
  unfold lastHubEventKey. intros H.
  apply (inj (String.append "hub:")) in H.
  by apply string_app_inv_tail in H.
Qed.

(** X15. A hub that was never saved loads as event id 0, and so does every
    hub after [clearForTest]; loading never writes. *)
Theorem checkpoint_absent_is_zero (hubId : string) (client : Redis) :
  snd (getLastProcessedEvent hubId ∅) = Returned (Some 0%N)
  ∧ snd (getLastProcessedEvent hubId (fst (clearForTest client))) = Returned (Some 0%N)
  ∧ (client !! lastHubEventKey hubId = None ->
     snd (getLastProcessedEvent hubId client) = Returned (Some 0%N))
  ∧ fst (getLastProcessedEvent hubId client) = client.
Proof.
  unfold getLastProcessedEvent, clearForTest. cbn [fst].
  rewrite lookup_empty. cbn. split; [reflexivity|]. split; [reflexivity|].
  split.
  - by intros ->.
  - by destruct (truthyString (client !! lastHubEventKey hubId)).
Qed.

(** X16. Checkpoints are kept per hub: saving an event id for one hub
    leaves what every other hub loads unchanged, and for the same hub the
    last save is the one loaded. *)
Theorem checkpoint_per_hub (hubId other : string) (first second : N) (client : Redis) :
  (other ≠ hubId ->
   snd (getLastProcessedEvent other (fst (setLastProcessedEvent hubId first client)))
   = snd (getLastProcessedEvent other client))
  ∧ snd (getLastProcessedEvent hubId
           (fst (setLastProcessedEvent hubId second
                   (fst (setLastProcessedEvent hubId first client)))))
    = Returned (Some second).
Proof.
  split.
  - intros Hne. unfold getLastProcessedEvent, setLastProcessedEvent. cbn [fst].
    rewrite lookup_insert_ne.
    + by destruct (truthyString (client !! lastHubEventKey other)).
    + intros Hk. apply Hne. symmetry. by apply lastHubEventKey_inj.
  - apply checkpoint_roundtrip.
Qed.

(** ** The dispatcher, on failure, commit and redelivery *)

Lemma lookupRow_Some (key : bytes * Z * MessageType) (t : Table) (row : MessageRow) :
  lookupRow key t = Some row -> row ∈ t ∧ keyOf row = key.
Proof.
  unfold lookupRow. intros H. apply find_some in H as [Hin Hk].
  split; [by apply list_elem_of_In|by apply bool_decide_eq_true in Hk].
Qed.

Lemma insertOnConflict_absent (excluded : MessageRow) (t : Table) :
  lookupRow (keyOf excluded) t = None ->
  insertOnConflict excluded t = ((t ++ [excluded])%list, Some (row_id excluded)).
Proof.
  induction t as [|row rest IH]; [reflexivity|].
  unfold lookupRow in *. cbn [insertOnConflict List.find].
  rewrite sameKey_decide.
  destruct (bool_decide (keyOf row = keyOf excluded)); [discriminate|].
  intros Hnew. by rewrite (IH Hnew).
Qed.

Section DispatcherFurther.
Context {sdk : HubSdk} {pg : Postgres}.

(** X17. A merge event whose message cannot be stored (validation, missing
    data, body or timestamp conversion) is rethrown with the table
    untouched, and the handler is not run: the outcome is the same for
    every handler. *)
Theorem processHubEvent_store_failure (event : HubEvent) (m : Message)
    (handler : MessageHandler) (now : Date) (t : Table) (e : Exn) :
  isMergeMessageHubEvent event = true ->
  mergeMessageBody event ≫= mmb_message = Some m ->
  decodeRow m = Thrown e ->
  processHubEvent event handler now t = (t, Thrown e).
Proof.
  intros Hguard Hm Hdec. unfold processHubEvent. rewrite Hguard, Hm.
  unfold processMergeMessage, transaction, bind.
  by rewrite (storeMessage_thrown m merge now t e Hdec).
Qed.

(** X18. The handler runs after the upsert and commits with it: for a
    merge event whose message decodes, the handler is called with
    operation [merge] and [wasMissed = false] on a table in which the
    message already has a live row, and when it returns, its table is the
    one the dispatch commits. *)
Theorem processHubEvent_commit (event : HubEvent) (m : Message)
    (handler : MessageHandler) (now : Date) (t t2 : Table) d body ts :
  isMergeMessageHubEvent event = true ->
  mergeMessageBody event ≫= mmb_message = Some m ->
  decodeRow m = Returned (d, body, ts) ->
  handler m merge false (fst (storeMessage m merge now t)) = (t2, Returned tt) ->
  processHubEvent event handler now t = (t2, Returned tt)
  ∧ ∃ row, lookupRow (messageKey m d) (fst (storeMessage m merge now t)) = Some row
           ∧ live row.
Proof.
  intros Hguard Hm Hdec Hh. split.
  - unfold processHubEvent. rewrite Hguard, Hm.
    unfold processMergeMessage, transaction, bind.
    rewrite (surjective_pairing (storeMessage m merge now t)).
    rewrite (storeMessage_returned m merge now t d body ts Hdec).
    by rewrite Hh.
  - destruct (storeMessage_flags m merge now t d body ts Hdec) as (row & Hrow & Hfl).
    exists row. split; [exact Hrow|by apply live_flags].
Qed.

Lemma processMergeMessage_observed (m : Message) (handler : MessageHandler)
    (wasMissed : bool) (now : Date) (t : Table) :
  handlerObserves handler ->
  processMergeMessage m handler wasMissed now t =
  match decodeRow m with
  | Returned _ => (fst (storeMessage m merge now t), Returned tt)
  | Thrown e => (t, Thrown e)
  end.
Proof.
  intros Hobs. unfold processMergeMessage, transaction, bind.
  destruct (decodeRow m) as [[[d body] ts]|e] eqn:Hdec.
  - rewrite (surjective_pairing (storeMessage m merge now t)).
    rewrite (storeMessage_returned m merge now t d body ts Hdec).
    by rewrite Hobs.
  - by rewrite (storeMessage_thrown m merge now t e Hdec).
Qed.

(** X19. Redelivery is absorbed: with a handler that does not write to the
    table, dispatching an event a second time leaves the table as the
    first dispatch left it and ends the same way. *)
Theorem processHubEvent_redelivery (event : HubEvent) (handler : MessageHandler)
    (now now' : Date) (t : Table) :
  handlerObserves handler ->
  processHubEvent event handler now' (fst (processHubEvent event handler now t))
  = (fst (processHubEvent event handler now t),
     snd (processHubEvent event handler now t)).
Proof.
  intros Hobs. unfold processHubEvent.
  destruct (isMergeMessageHubEvent event); [|reflexivity].
  destruct (mergeMessageBody event ≫= mmb_message) as [m|]; [|reflexivity].
  rewrite !(processMergeMessage_observed m handler false) by exact Hobs.
  destruct (decodeRow m) as [[[d body] ts]|e] eqn:Hdec; [|reflexivity].
  cbn [fst snd]. by rewrite storeMessage_merge_again.
Qed.

(** X20. Catching up: when the reconciler reports a message missing and
    [handleMissingMessage] then returns for it (with a handler that does
    not write to the table), the next reconciliation of that message
    reports it present, neither pruned nor revoked. *)
Theorem handleMissingMessage_then_reconcile (m : Message) (handler : MessageHandler)
    (now : Date) (t t' : Table) :
  handlerObserves handler ->
  missingInDb (expectedCall t m) = true ->
  handleMissingMessage m handler now t = (t', Returned tt) ->
  expectedCall t' m =
  {| hc_message := m; missingInDb := false; prunedInDb := false; revokedInDb := false |}.
Proof.
  intros Hobs Hmiss Hrun.
  unfold handleMissingMessage in Hrun.
  rewrite (processMergeMessage_observed m handler true now t Hobs) in Hrun.
  destruct (decodeRow m) as [[[d body] ts]|e] eqn:Hdec; [|discriminate].
  injection Hrun as <-.
  assert (Hnone : storedRowFor (hash m) t = None).
  { unfold expectedCall in Hmiss. by destruct (storedRowFor (hash m) t). }
  assert (Hnew : lookupRow (messageKey m d) t = None).
  { destruct (lookupRow (messageKey m d) t) as [row|] eqn:Hl; [|reflexivity].
    apply lookupRow_Some in Hl as [Hin Hk].
    exfalso. apply (proj1 (storedRowFor_None _ _) Hnone row Hin).
    by injection Hk. }
  rewrite storeMessage_unfold, Hdec. cbn zeta. cbn [fst].
  rewrite (insertOnConflict_absent
             (insertValues m d ts body (opDataFor merge now) t) t Hnew).
  cbn [fst].
  unfold expectedCall, storedRowFor.
  rewrite filter_app. unfold storedRowFor in Hnone.
  apply last_None in Hnone. rewrite Hnone. cbn [app].
  rewrite filter_cons_True by reflexivity. reflexivity.
Qed.

End DispatcherFurther.

(** ** Paging and reconciling against the hub *)

Lemma inBatchesFrom_serves (rpc : FidRequest -> HubResult MessagesResponse)
    (what : string) (fid pageSize : Z) (pageToken : option bytes)
    (pages : list (list Message)) :
  ServesPages rpc fid pageSize pageToken pages ->
  ∀ fuel, (length pages ≤ fuel)%nat ->
    inBatchesFrom rpc what fid pageSize fuel
      (rpc {| fr_fid := fid; fr_pageSize := pageSize; fr_pageToken := pageToken |})
    = (pages, PagerDone).
Proof.
  induction 1 as [tok value Hrpc Hlast|tok value next later Hrpc Hnext _ IH];
    intros [|fuel] Hfuel; cbn [length] in Hfuel; try lia;
    cbn [inBatchesFrom]; rewrite Hrpc.
  - by rewrite Hlast.
  - rewrite Hnext, IH by lia. reflexivity.
Qed.

Lemma inBatchesFrom_fails (rpc : FidRequest -> HubResult MessagesResponse)
    (what : string) (fid pageSize : Z) (e : HubError) (pageToken : option bytes)
    (pages : list (list Message)) :
  ServesThenFails rpc fid pageSize e pageToken pages ->
  ∀ fuel, (length pages < fuel)%nat ->
    inBatchesFrom rpc what fid pageSize fuel
      (rpc {| fr_fid := fid; fr_pageSize := pageSize; fr_pageToken := pageToken |})
    = (pages, UnableToGetAll what e).
Proof.
  induction 1 as [tok Hrpc|tok value next later Hrpc Hnext _ IH];
    intros [|fuel] Hfuel; cbn [length] in Hfuel; try lia;
    cbn [inBatchesFrom]; rewrite Hrpc.
  - reflexivity.
  - rewrite Hnext, IH by lia. reflexivity.
Qed.

Lemma reconcile_returns (onHubMessage : OnHubMessage) (batches : list (list Message)) :
  hookReturns onHubMessage ->
  ∀ t, ∃ t' calls,
    reconcileMessagesOfTypeForFid onHubMessage batches t = (t', Returned calls).
Proof.
  intros Hret. induction batches as [|messages later IH]; intros t.
  - by exists t, [].
  - cbn [reconcileMessagesOfTypeForFid]. unfold bind.
    destruct (reconcileBatch_calls onHubMessage messages t Hret) as [t1 ->].
    destruct (IH t1) as (t2 & more & ->). by eexists _, _.
Qed.

Section PagerProperties.
Context {client : HubRpcClient}.

Lemma allHubMessages_inventoryCall (fid : Z) (type : MessageType) (fuel : nat) rpc what :
  inventoryCall type = Some (rpc, what) ->
  allHubMessagesOfTypeForFid fid type fuel = inBatchesOf rpc what fid MAX_PAGE_SIZE fuel.
Proof. destruct type; cbn; intros [= <- <-]; reflexivity. Qed.

Lemma allHubMessages_pages (fid : Z) (type : MessageType) (fuel : nat) rpc what
    (pages : list (list Message)) :
  inventoryCall type = Some (rpc, what) ->
  ServesPages rpc fid 3000 None pages ->
  (length pages ≤ fuel)%nat ->
  allHubMessagesOfTypeForFid fid type fuel = (pages, PagerDone).
Proof.
  intros Hcall Hserves Hfuel.
  rewrite (allHubMessages_inventoryCall fid type fuel rpc what Hcall).
  unfold inBatchesOf, MAX_PAGE_SIZE. by apply inBatchesFrom_serves.
Qed.

(** X21. The pager yields the whole inventory: when the hub serves a chain
    of pages for a reconcilable type (each page naming the next by a
    non-empty token, the last by none or an empty one), the generator
    yields exactly those pages in order and ends, for every step budget of
    at least the number of pages; each request carries the same fid, page
    size 3000 and the token of the page before. *)
Theorem allHubMessages_serves (fid : Z) (type : MessageType) (fuel : nat) rpc what
    (pages : list (list Message)) :
  inventoryCall type = Some (rpc, what) ->
  ServesPages rpc fid 3000 None pages ->
  (length pages ≤ fuel)%nat ->
  allHubMessagesOfTypeForFid fid type fuel = (pages, PagerDone).
Proof.
  intros Hcall Hserves Hfuel.
  destruct type; cbn in Hcall; try discriminate;
    injection Hcall as <- <-; cbn [allHubMessagesOfTypeForFid];
    by apply inBatchesFrom_serves.
Qed.

(** X22. A failed page is fatal for its type, after the pages before it:
    when the hub serves some pages and then fails a request, the pages
    served are reconciled (with a hook that returns) and then the failure
    is thrown, naming the inventory it was reading. *)
Theorem reconcile_page_failure (fid : Z) (type : MessageType) (fuel : nat) rpc what
    (pages : list (list Message)) (e : HubError) (onHubMessage : OnHubMessage)
    (db : Table) :
  inventoryCall type = Some (rpc, what) ->
  ServesThenFails rpc fid 3000 e None pages ->
  (length pages < fuel)%nat ->
  hookReturns onHubMessage ->
  allHubMessagesOfTypeForFid fid type fuel = (pages, UnableToGetAll what e)
  ∧ reconcileTypeFromHub fid type onHubMessage fuel db
    = (fst (reconcileMessagesOfTypeForFid onHubMessage pages db),
       PagerThrew (UnableToGetAll what e)).
Proof.
  intros Hcall Hfails Hfuel Hret.
  assert (Hpages : allHubMessagesOfTypeForFid fid type fuel
                   = (pages, UnableToGetAll what e)).
  { rewrite (allHubMessages_inventoryCall fid type fuel rpc what Hcall).
    unfold inBatchesOf, MAX_PAGE_SIZE. by apply inBatchesFrom_fails. }
  split; [exact Hpages|].
  unfold reconcileTypeFromHub. rewrite Hpages.
  destruct (reconcile_returns onHubMessage pages Hret db) as (t' & calls & ->).
  reflexivity.
Qed.

(** X23. Only the five reconcilable types are read: for any other type the
    reconciliation throws `unknown message type' with the table
    untouched, for every hook and every hub, so neither is called. *)
Theorem reconcile_unknown_type (fid : Z) (type : MessageType)
    (onHubMessage : OnHubMessage) (fuel : nat) (db : Table) :
  type ∉ reconciledTypes ->
  reconcileTypeFromHub fid type onHubMessage fuel db
  = (db, PagerThrew (UnknownTypeThrown type)).
Proof.
  intros Hnot. unfold reconcileTypeFromHub, reconciledTypes in *.
  destruct type; try reflexivity; exfalso; apply Hnot; set_solver.
Qed.

Lemma reconcileTypeFromHub_run (fid : Z) (type : MessageType) (fuel : nat) rpc what
    (pages : list (list Message)) (onHubMessage : OnHubMessage) (db : Table) :
  inventoryCall type = Some (rpc, what) ->
  ServesPages rpc fid 3000 None pages ->
  (length pages ≤ fuel)%nat ->
  hookReturns onHubMessage ->
  reconcileTypeFromHub fid type onHubMessage fuel db
  = (fst (reconciledBatches onHubMessage pages db),
     ReconciledAll (snd (reconciledBatches onHubMessage pages db))).
Proof.
  intros Hcall Hserves Hfuel Hret. unfold reconcileTypeFromHub.
  rewrite (allHubMessages_pages fid type fuel rpc what pages Hcall Hserves Hfuel).
  by rewrite (reconcile_run onHubMessage pages Hret db).
Qed.

(** X24. Reconciling a type against the hub invokes the hook once for every
    message of the inventory, page after page in the hub's order, and
    writes nothing itself: for every hook that returns, the table it leaves
    is the one those invocations leave, made in that order, the flags of a
    page read from the table as the invocations for the pages before it
    left it.  For a hook that does not write what the reconciler reads, the
    flags are those the table gives at the start. *)
Theorem reconcile_type_from_hub (fid : Z) (type : MessageType) (fuel : nat) rpc what
    (pages : list (list Message)) (onHubMessage : OnHubMessage) (db : Table) :
  inventoryCall type = Some (rpc, what) ->
  ServesPages rpc fid 3000 None pages ->
  (length pages ≤ fuel)%nat ->
  hookReturns onHubMessage ->
  ∃ calls,
    reconcileTypeFromHub fid type onHubMessage fuel db
    = (fst (reconciledBatches onHubMessage pages db), ReconciledAll calls)
    ∧ calls = snd (reconciledBatches onHubMessage pages db)
    ∧ map hc_message calls = concat pages
    ∧ (hookKeepsFlags onHubMessage ->
       calls = map (expectedCall db) (concat pages)
       ∧ fst (reconciledBatches onHubMessage pages db) = afterHooks onHubMessage calls db).
Proof.
  intros Hcall Hserves Hfuel Hret. eexists. split; [|split; [reflexivity|split]].
  - by apply (reconcileTypeFromHub_run fid type fuel rpc what pages).
  - apply reconciledBatches_messages.
  - intros Hkeeps.
    by rewrite (reconciledBatches_kept onHubMessage pages db Hkeeps db).
Qed.

(** X25. [reconcileMessagesForFid] takes the five types in the order casts,
    reactions, links, verifications, user data: when the hub serves the
    inventory of each, the hook is invoked, for every hook that returns,
    once for every message of the five inventories in that order, each page
    on the table as the invocations before it left it, and the table it
    leaves is the one those invocations leave. *)
Theorem reconcile_all_types (fid : Z) (fuel : nat)
    (casts reactions links verifications userData : list (list Message))
    (onHubMessage : OnHubMessage) (db : Table) :
  ServesPages getAllCastMessagesByFid fid 3000 None casts ->
  ServesPages getAllReactionMessagesByFid fid 3000 None reactions ->
  ServesPages getAllLinkMessagesByFid fid 3000 None links ->
  ServesPages getAllVerificationMessagesByFid fid 3000 None verifications ->
  ServesPages getAllUserDataMessagesByFid fid 3000 None userData ->
  (length casts ≤ fuel ∧ length reactions ≤ fuel ∧ length links ≤ fuel
   ∧ length verifications ≤ fuel ∧ length userData ≤ fuel)%nat ->
  hookReturns onHubMessage ->
  let pages := (casts ++ reactions ++ links ++ verifications ++ userData)%list in
  reconcileMessagesForFid fid onHubMessage fuel db
  = (fst (reconciledBatches onHubMessage pages db),
     ReconciledAll (snd (reconciledBatches onHubMessage pages db)))
  ∧ map hc_message (snd (reconciledBatches onHubMessage pages db))
    = (concat casts ++ concat reactions ++ concat links
       ++ concat verifications ++ concat userData)%list
  ∧ (hookKeepsFlags onHubMessage ->
     reconcileMessagesForFid fid onHubMessage fuel db
     = (afterHooks onHubMessage (map (expectedCall db) (concat pages)) db,
        ReconciledAll (map (expectedCall db) (concat pages)))).
Proof.
  intros Hc Hr Hl Hv Hu (Fc & Fr & Fl & Fv & Fu) Hret pages.
  assert (Hrun : reconcileMessagesForFid fid onHubMessage fuel db
                 = (fst (reconciledBatches onHubMessage pages db),
                    ReconciledAll (snd (reconciledBatches onHubMessage pages db)))).
  { unfold reconcileMessagesForFid, reconciledTypes. cbn [reconcileTypesFromHub].
    rewrite (reconcileTypeFromHub_run fid CAST_ADD fuel _ _ casts _ db eq_refl Hc Fc Hret).
    rewrite (reconcileTypeFromHub_run fid REACTION_ADD fuel _ _ reactions _ _ eq_refl Hr Fr Hret).
    rewrite (reconcileTypeFromHub_run fid LINK_ADD fuel _ _ links _ _ eq_refl Hl Fl Hret).
    rewrite (reconcileTypeFromHub_run fid VERIFICATION_ADD_ETH_ADDRESS fuel _ _
               verifications _ _ eq_refl Hv Fv Hret).
    rewrite (reconcileTypeFromHub_run fid USER_DATA_ADD fuel _ _ userData _ _ eq_refl Hu Fu Hret).
    unfold pages. rewrite !reconciledBatches_app. cbn [fst snd].
    by rewrite app_nil_r. }
  split; [exact Hrun|]. split.
  - rewrite reconciledBatches_messages. unfold pages. by rewrite !concat_app.
  - intros Hkeeps. rewrite Hrun.
    by rewrite (reconciledBatches_kept onHubMessage pages db Hkeeps db).
Qed.

End PagerProperties.

(** ** A hook that throws *)




(** ** The subscriber's states *)

Lemma subscriber_invariant (eventTypes : option (list HubEventType))
    (this : HubSubscriberImpl) :
  SubscriberReaches (newHubSubscriber eventTypes) this ->
  (sub_stopped this = false -> is_Some (sub_stream this))
  ∧ sub_eventTypes this = sub_eventTypes (newHubSubscriber eventTypes).
Proof.
  induction 1 as [|this fromId ready request _ [IH1 IH2]|this _ [IH1 IH2]
                  |this _ [IH1 IH2]|this _ [IH1 IH2]].
  - split; [discriminate|reflexivity].
  - unfold subscriberStart. destruct ready; [|by split].
    destruct request; cbn; [|by split]. split; [eauto|done].
  - cbn. split; [discriminate|done].
  - unfold subscriberDestroy.
    destruct (sub_stopped this) eqn:E; cbn; split; try done.
    by rewrite E.
  - cbn. split; [discriminate|done].
Qed.

(** X27. A running subscriber always holds its stream, and [destroy]
    settles it: in every state reached from construction by [start],
    [stop], [destroy] and close events, a subscriber that is not stopped
    has a stream and the event-type filter is the one it was built with;
    [destroy] then leaves it stopped, closes the client once, and cancels
    the stream exactly when the subscriber was running. *)
Theorem subscriber_destroy (eventTypes : option (list HubEventType))
    (this : HubSubscriberImpl) :
  SubscriberReaches (newHubSubscriber eventTypes) this ->
  (sub_stopped this = false -> is_Some (sub_stream this))
  ∧ sub_eventTypes this = match eventTypes with
                          | Some given => given
                          | None => DEFAULT_EVENT_TYPES
                          end
  ∧ sub_stopped (fst (subscriberDestroy this)) = true
  ∧ (sub_stopped this = true -> snd (subscriberDestroy this) = [ClientClosed])
  ∧ (sub_stopped this = false ->
     ∃ stream, sub_stream this = Some stream
               ∧ snd (subscriberDestroy this) = [StreamCancelled stream; ClientClosed]).
Proof.
  intros Hreach.
  destruct (subscriber_invariant eventTypes this Hreach) as [Hrun Htypes].
  split; [exact Hrun|]. split; [exact Htypes|].
  unfold subscriberDestroy, subscriberStop.
  destruct (sub_stopped this) eqn:E; cbn.
  - split; [exact E|]. split; [done|discriminate].
  - split; [reflexivity|]. split; [discriminate|]. intros _.
    destruct (Hrun eq_refl) as [stream Hs]. exists stream.
    split; [exact Hs|]. by rewrite Hs.
Qed.

(** ** Hubble: block ranges of the historical sync *)

Section Hubble.
Local Open Scope Z_scope.

Lemma numOfRuns_bounds (fromBlock toBlock batchSize : Z) :
  0 < batchSize ->
  (numOfRuns fromBlock toBlock batchSize - 1) * batchSize < toBlock - fromBlock
  ∧ toBlock - fromBlock ≤ numOfRuns fromBlock toBlock batchSize * batchSize.
Proof.
  intros Hb. unfold numOfRuns.
  pose proof (Z.div_mod (fromBlock - toBlock) batchSize ltac:(lia)) as Hdm.
  pose proof (Z.mod_pos_bound (fromBlock - toBlock) batchSize Hb) as Hm.
  nia.
Qed.

Lemma syncHistoricalIdEvents_elem (type : IdRegistryEventType)
    (fromBlock toBlock batchSize : Z) (name : string) (f : EventFilter) :
  (type = REGISTER ∧ name = "Register") ∨ (type = TRANSFER ∧ name = "Transfer") ->
  f ∈ syncHistoricalIdEvents type fromBlock toBlock batchSize ↔
  ∃ i, 0 ≤ i < numOfRuns fromBlock toBlock batchSize
       ∧ f = {| ef_eventName := name;
                ef_fromBlock := fst (runRange fromBlock batchSize i);
                ef_toBlock := snd (runRange fromBlock batchSize i) |}.
Proof.
  intros Hty. unfold syncHistoricalIdEvents.
  rewrite list_elem_of_In, in_flat_map. split.
  - intros (i & Hi & Hf). apply list_elem_of_In, elem_of_seqZ in Hi.
    exists i. split; [lia|].
    destruct (runRange fromBlock batchSize i) as [lo hi].
    destruct Hty as [[-> ->]|[-> ->]]; by destruct Hf.
  - intros (i & Hi & ->). exists i. split.
    + apply list_elem_of_In, elem_of_seqZ. lia.
    + destruct (runRange fromBlock batchSize i) as [lo hi].
      destruct Hty as [[-> ->]|[-> ->]]; by left.
Qed.

(** X28. The historical sync asks for every block once: for a positive
    batch size and [fromBlock < toBlock], every block from [fromBlock] to
    [toBlock] lies in the range of exactly one of the filters created, and
    the ranges end less than one batch beyond [toBlock]; when [fromBlock]
    is not below [toBlock] no filter is created. *)
Theorem syncHistoricalIdEvents_covers (type : IdRegistryEventType)
    (fromBlock toBlock batchSize : Z) :
  type = REGISTER ∨ type = TRANSFER ->
  0 < batchSize ->
  (fromBlock < toBlock ->
   ∀ block, fromBlock ≤ block ≤ toBlock ->
     ∃ f, f ∈ syncHistoricalIdEvents type fromBlock toBlock batchSize
          ∧ ef_fromBlock f ≤ block ≤ ef_toBlock f
          ∧ ∀ g, g ∈ syncHistoricalIdEvents type fromBlock toBlock batchSize ->
                 ef_fromBlock g ≤ block ≤ ef_toBlock g -> g = f)
  ∧ (∀ f, f ∈ syncHistoricalIdEvents type fromBlock toBlock batchSize ->
          fromBlock ≤ ef_fromBlock f ≤ toBlock
          ∧ ef_toBlock f < toBlock + batchSize)
  ∧ (toBlock ≤ fromBlock ->
     syncHistoricalIdEvents type fromBlock toBlock batchSize = []).
Proof.
  intros Hty Hb.
  assert (Hname : ∃ name, (type = REGISTER ∧ name = "Register")
                          ∨ (type = TRANSFER ∧ name = "Transfer")).
  { destruct Hty as [-> | ->]; eexists; eauto. }
  destruct Hname as [name Hname].
  pose proof (numOfRuns_bounds fromBlock toBlock batchSize Hb) as [Hlo Hhi].
  set (n := numOfRuns fromBlock toBlock batchSize) in *.
  split; [|split].
  - intros Hlt block Hblock.
    set (i := if (block <=? fromBlock + batchSize)%Z then 0
              else (block - fromBlock - 1) / batchSize).
    assert (Hi : 0 ≤ i < n
                 ∧ fst (runRange fromBlock batchSize i) ≤ block
                   ≤ snd (runRange fromBlock batchSize i)).
    { unfold i, runRange. destruct (Z.leb_spec block (fromBlock + batchSize)).
      - cbn. split; nia.
      - pose proof (Z.div_mod (block - fromBlock - 1) batchSize ltac:(lia)) as Hdm.
        pose proof (Z.mod_pos_bound (block - fromBlock - 1) batchSize Hb) as Hm.
        assert (1 ≤ (block - fromBlock - 1) / batchSize) by nia.
        rewrite (proj2 (Z.ltb_lt _ _)) by lia. cbn [fst snd].
        split; nia. }
    destruct Hi as [Hrange Hin].
    eexists. split; [|split].
    + apply (syncHistoricalIdEvents_elem type fromBlock toBlock batchSize name _ Hname).
      exists i. split; [exact Hrange|reflexivity].
    + exact Hin.
    + intros g Hg Hgin.
      apply (syncHistoricalIdEvents_elem type fromBlock toBlock batchSize name _ Hname)
        in Hg as (j & Hj & ->).
      cbn [ef_fromBlock ef_toBlock] in Hgin.
      assert (j = i) as ->; [|reflexivity].
      revert Hin Hgin. unfold runRange. cbn [fst snd].
      destruct (Z.ltb_spec 0 i), (Z.ltb_spec 0 j); nia.
  - intros f Hf.
    apply (syncHistoricalIdEvents_elem type fromBlock toBlock batchSize name _ Hname)
      in Hf as (i & Hi & ->).
    cbn [ef_fromBlock ef_toBlock]. unfold runRange. cbn [fst snd].
    destruct (Z.ltb_spec 0 i); nia.
  - intros Hge. unfold syncHistoricalIdEvents. fold n.
    rewrite seqZ_nil; [reflexivity|]. nia.
Qed.

(** ** Hubble: the sync engine *)

(** X29. The snapshot timestamp is the greatest multiple of the 10-second
    sync threshold that is not after the current time in seconds (it is
    the current second itself when that is a multiple of 10). *)
Theorem snapshotTimestamp_greatest_multiple (now : Z) :
  snapshotTimestamp now mod 10 = 0
  ∧ snapshotTimestamp now ≤ now / 1000 < snapshotTimestamp now + 10
  ∧ (∀ t, t mod 10 = 0 -> t ≤ now / 1000 -> t ≤ snapshotTimestamp now)
  ∧ ((now / 1000) mod 10 = 0 -> snapshotTimestamp now = now / 1000).
Proof.
  unfold snapshotTimestamp, SYNC_THRESHOLD_IN_SECONDS.
  set (s := now / 1000).
  pose proof (Z.div_mod s 10 ltac:(lia)) as Hdm.
  pose proof (Z.mod_pos_bound s 10 ltac:(lia)) as Hm.
  split; [apply Z.mod_mul; lia|]. split; [lia|]. split.
  - intros t Ht Hle.
    pose proof (Z.div_mod t 10 ltac:(lia)) as Hdt. lia.
  - lia.
Qed.

Lemma everyFrom_lookup (theirs : list string) (ours : list string) (index : nat) :
  everyFrom (fun value i => bool_decide (theirs !! i = Some value)) index ours = true
  ↔ ∀ k value, ours !! k = Some value -> theirs !! (index + k)%nat = Some value.
Proof.
  revert index. induction ours as [|v rest IH]; intros index; cbn [everyFrom].
  - split; [intros _ k value Hk; by rewrite lookup_nil in Hk|done].
  - destruct (bool_decide (theirs !! index = Some v)) eqn:E.
    + apply bool_decide_eq_true in E. rewrite IH. split.
      * intros H [|k] value Hk; cbn in Hk.
        -- injection Hk as <-. by rewrite Nat.add_0_r.
        -- rewrite <- Nat.add_succ_comm. by apply H.
      * intros H k value Hk. rewrite Nat.add_succ_comm. by apply (H (S k)).
    + apply bool_decide_eq_false in E. split; [discriminate|].
      intros H. exfalso. apply E. rewrite <- (Nat.add_0_r index). by apply (H 0%nat).
Qed.

Lemma excludedHashesMatch_eq (ours theirs : list string) :
  excludedHashesMatch ours theirs = true ↔ ours = theirs.
Proof.
  unfold excludedHashesMatch. rewrite andb_true_iff, Nat.eqb_eq, everyFrom_lookup.
  split.
  - intros [Hlen Hall]. apply list_eq_same_length with (length ours); [done|done|].
    intros i x y Hi Hx Hy. specialize (Hall i x Hx). cbn in Hall. congruence.
  - intros ->. split; [reflexivity|]. by intros k value Hk.
Qed.

(** X30. When the sync engine syncs: [shouldSync] answers [true] exactly
    when no sync is running, the peer's excluded hashes differ from ours
    (as lists, element by element), and either the peer has more messages
    than we have, or it has as many and the random draw fell below one
    half; it never answers [true] for a peer with fewer messages. *)
Theorem shouldSync_decides (isSyncing : bool) (ourSnapshot : TrieSnapshot)
    (excludedHashes : list string) (numMessages : Z) (randomBelowHalf : bool) :
  shouldSync isSyncing ourSnapshot excludedHashes numMessages randomBelowHalf = true
  ↔ isSyncing = false
    ∧ ts_excludedHashes ourSnapshot ≠ excludedHashes
    ∧ (ts_numMessages ourSnapshot < numMessages
       ∨ (ts_numMessages ourSnapshot = numMessages ∧ randomBelowHalf = true)).
Proof.
  unfold shouldSync. destruct isSyncing; [split; [discriminate|by intros [? _]]|].
  destruct (excludedHashesMatch (ts_excludedHashes ourSnapshot) excludedHashes) eqn:E.
  - apply excludedHashesMatch_eq in E. split; [discriminate|]. by intros (_ & Hne & _).
  - assert (ts_excludedHashes ourSnapshot ≠ excludedHashes) as Hne.
    { intros Heq. apply excludedHashesMatch_eq in Heq. congruence. }
    destruct (Z.ltb_spec numMessages (ts_numMessages ourSnapshot)).
    { split; [discriminate|]. intros (_ & _ & [?|[? _]]); lia. }
    destruct (Z.eqb_spec (ts_numMessages ourSnapshot) numMessages).
    { split; [by eauto|]. intros (_ & _ & [?|[_ ?]]); [lia|done]. }
    destruct (Z.ltb_spec (ts_numMessages ourSnapshot) numMessages).
    { split; [by eauto|done]. }
    lia.
Qed.

End Hubble.

(** * Closed instances

    Each statement above with a hypothesis is applied here to the sample
    data, and the two statements of the specification that the code does
    not satisfy are refuted on it. *)

Lemma storeMessage_merge_idempotent_witness :
  mergeTimes (sdk := sampleSdk) (pg := samplePg) helloMessage (fun _ => 0) 3 []
  = mergeTimes (sdk := sampleSdk) (pg := samplePg) helloMessage (fun _ => 0) 1 [].
Proof.
  apply (storeMessage_merge_idempotent (sdk := sampleSdk) (pg := samplePg)
           helloMessage (fun _ => 0) [] 3).
  lia.
Defined.

(** C2 as the specification words it fails: no reading of the boolean that
    [storeMessage] returns tells `inserted' from `updated', because a
    fresh insert and a [merge] over a deleted row both return [true]. *)
Lemma storeMessage_result_not_three_valued :
  ¬ ∃ outcome : bool -> ApplyResult,
      ∀ (sdk : HubSdk) (pg : Postgres) (m : Message) (op : StoreMessageOperation)
        (now : Date) (t : Table) d body ts (r : bool),
        decodeRow m = Returned (d, body, ts) ->
        snd (storeMessage m op now t) = Returned r ->
        outcome r = applyResultSpec (lookupRow (messageKey m d) t) op.
Proof.
  intros [outcome H].
  pose proof (H sampleSdk samplePg helloMessage merge 0 [] _ _ _ true
                eq_refl eq_refl) as Hins.
  pose proof (H sampleSdk samplePg helloMessage merge 0 deletedHello _ _ _ true
                eq_refl eq_refl) as Hupd.
  vm_compute in Hins, Hupd. congruence.
Qed.

Lemma storeMessage_reports_change_witness :
  snd (storeMessage (sdk := sampleSdk) (pg := samplePg) helloMessage merge 0 [])
    = Returned true
  ∧ snd (storeMessage (sdk := sampleSdk) (pg := samplePg) helloMessage merge 1
           (fst (storeMessage (sdk := sampleSdk) (pg := samplePg) helloMessage merge 0 [])))
    = Returned false.
Proof.
  eapply (proj2 (storeMessage_reports_change (sdk := sampleSdk) (pg := samplePg)
                   helloMessage merge 0 [] _ _ _ eq_refl)).
  reflexivity.
Defined.

Lemma storeMessage_merge_terminal_merge_witness :
  ∃ r1 r2 r3,
    lookupRow (messageKey helloMessage helloData)
      (fst (storeMessage (sdk := sampleSdk) (pg := samplePg) helloMessage merge 1 []))
    = Some r1 ∧ live r1
    ∧ lookupRow (messageKey helloMessage helloData)
        (fst (storeMessage (sdk := sampleSdk) (pg := samplePg) helloMessage delete 2
           (fst (storeMessage (sdk := sampleSdk) (pg := samplePg) helloMessage merge 1 []))))
      = Some r2
    ∧ (deletedAt r2 = Some 2 ∧ prunedAt r2 = None ∧ revokedAt r2 = None)
    ∧ lookupRow (messageKey helloMessage helloData)
        (fst (storeMessage (sdk := sampleSdk) (pg := samplePg) helloMessage merge 3
           (fst (storeMessage (sdk := sampleSdk) (pg := samplePg) helloMessage delete 2
              (fst (storeMessage (sdk := sampleSdk) (pg := samplePg) helloMessage merge 1 []))))))
      = Some r3
    ∧ live r3.
Proof.
  apply (storeMessage_merge_terminal_merge (sdk := sampleSdk) (pg := samplePg)
           helloMessage delete 1 2 3 [] helloData _ _ eq_refl).
  discriminate.
Defined.

Lemma processHubEvent_handler_raises_witness :
  onDb (processHubEvent (sdk := sampleSdk) (pg := samplePg)
          (mergeEvent 101 helloMessage) raisingHandler 0) emptyShuttle
  = (emptyShuttle, Thrown (HandlerRaised "boom")).
Proof.
  eapply proj1.
  eapply (processHubEvent_handler_raises (sdk := sampleSdk) (pg := samplePg)
            (mergeEvent 101 helloMessage) helloMessage raisingHandler 0 emptyShuttle);
    [reflexivity | reflexivity | vm_compute; reflexivity | reflexivity].
Defined.

(** C5 as the specification words it fails: after an uninterrupted dispatch
    of merge event 101 from an empty shuttle the row is stored and the
    dispatch returned, yet the checkpoint of the hub still loads as 0. *)
Lemma processHubEvent_does_not_save :
  let run := onDb (processHubEvent (sdk := sampleSdk) (pg := samplePg)
                     (mergeEvent 101 helloMessage) quietHandler 0) emptyShuttle in
  snd run = Returned tt
  ∧ length (db (fst run)) = 1%nat
  ∧ snd (getLastProcessedEvent "hub" (redis (fst run))) = Returned (Some 0%N)
  ∧ snd (getLastProcessedEvent "hub" (redis (fst run)))
    ≠ Returned (Some (he_id (mergeEvent 101 helloMessage))).
Proof. vm_compute. repeat split; discriminate. Qed.

Lemma processHubEvent_leaves_checkpoint_witness :
  let w' := fst (onDb (processHubEvent (sdk := sampleSdk) (pg := samplePg)
                         (mergeEvent 101 helloMessage) quietHandler 0) emptyShuttle) in
  snd (onRedis (getLastProcessedEvent "hub")
         (fst (onRedis (setLastProcessedEvent "hub" 101) w')))
  = Returned (Some 101%N).
Proof.
  intros w'.
  eapply (proj2 (proj2 (processHubEvent_leaves_checkpoint (sdk := sampleSdk) (pg := samplePg)
                   (mergeEvent 101 helloMessage) quietHandler 0 emptyShuttle "hub") w' _)).
  Unshelve. reflexivity.
Defined.

Lemma journalHook_returns : hookReturns journalHook.
Proof. intros m missing pruned revoked t. eexists. reflexivity. Defined.

Lemma catchUpHook_returns : hookReturns (catchUpHook (sdk := sampleSdk) (pg := samplePg)).
Proof.
  intros m missing pruned revoked t. unfold catchUpHook.
  destruct missing; eexists; reflexivity.
Defined.

Lemma deletingHook_returns : hookReturns deletingHook.
Proof. intros m missing pruned revoked t. eexists. reflexivity. Defined.

Lemma deletingHook_keeps : hookKeepsFlags deletingHook.
Proof.
  intros m missing pruned revoked t h. unfold deletingHook. cbn [fst].
  apply storedFlags_map. intros row. by repeat split.
Defined.

Lemma mergedBoth_holds (m : Message) :
  m ∈ concat [[helloMessage]; [verificationMessage SOLANA]] ->
  (∃ row, row ∈ mergedBoth ∧ row_hash row = hash m)
  ∧ ∀ row, row ∈ mergedBoth -> row_hash row = hash m ->
           prunedAt row = None ∧ revokedAt row = None.
Proof.
  intros Hin. split.
  - cbn [concat app] in Hin.
    apply elem_of_cons in Hin as [->|Hin]; [|apply elem_of_cons in Hin as [->|Hin]].
    + eexists. split; [apply list_elem_of_here|reflexivity].
    + eexists. split; [apply list_elem_of_further, list_elem_of_here|reflexivity].
    + by apply elem_of_nil in Hin.
  - intros row Hrow _.
    apply elem_of_cons in Hrow as [->|Hrow]; [by split|].
    apply elem_of_cons in Hrow as [->|Hrow]; [by split|].
    by apply elem_of_nil in Hrow.
Defined.

Lemma reconcile_hook_flags_witness :
  reconcileBatch journalHook
    [helloMessage; linkMessage (Some 7) None; verificationMessage SOLANA]
    prunedAndRevoked
  = ((prunedAndRevoked
      ++ [journalRow helloMessage false true false;
          journalRow (linkMessage (Some 7) None) false false true;
          journalRow (verificationMessage SOLANA) true false false])%list,
     Returned
       [{| hc_message := helloMessage; missingInDb := false;
           prunedInDb := true; revokedInDb := false |};
        {| hc_message := linkMessage (Some 7) None; missingInDb := false;
           prunedInDb := false; revokedInDb := true |};
        {| hc_message := verificationMessage SOLANA; missingInDb := true;
           prunedInDb := false; revokedInDb := false |}])
  ∧ reconcileMessagesOfTypeForFid (catchUpHook (sdk := sampleSdk) (pg := samplePg))
      [[verificationMessage SOLANA]; [verificationMessage SOLANA; helloMessage]] []
    = (fst (storeMessage (sdk := sampleSdk) (pg := samplePg) helloMessage merge 0
              (fst (storeMessage (sdk := sampleSdk) (pg := samplePg)
                      (verificationMessage SOLANA) merge 0 []))),
       Returned
         [{| hc_message := verificationMessage SOLANA; missingInDb := true;
             prunedInDb := false; revokedInDb := false |};
          {| hc_message := verificationMessage SOLANA; missingInDb := false;
             prunedInDb := false; revokedInDb := false |};
          {| hc_message := helloMessage; missingInDb := true;
             prunedInDb := false; revokedInDb := false |}])
  ∧ reconcileMessagesOfTypeForFid deletingHook
      [[helloMessage]; [verificationMessage SOLANA]] mergedBoth
    = (fst (deletingHook helloMessage false false false mergedBoth),
       Returned
         [{| hc_message := helloMessage; missingInDb := false;
             prunedInDb := false; revokedInDb := false |};
          {| hc_message := verificationMessage SOLANA; missingInDb := false;
             prunedInDb := false; revokedInDb := false |}]).
Proof.
  split; [|split].
  - exact (proj1 (reconcile_hook_flags journalHook []
                    [helloMessage; linkMessage (Some 7) None; verificationMessage SOLANA]
                    prunedAndRevoked journalHook_returns)).
  - exact (proj1 (proj1 (proj2 (proj2
             (reconcile_hook_flags (catchUpHook (sdk := sampleSdk) (pg := samplePg))
                [[verificationMessage SOLANA]; [verificationMessage SOLANA; helloMessage]]
                [] [] catchUpHook_returns))))).
  - exact (proj2 (proj2 (proj2 (proj2
             (reconcile_hook_flags deletingHook
                [[helloMessage]; [verificationMessage SOLANA]] [] mergedBoth
                deletingHook_returns))) deletingHook_keeps) mergedBoth_holds).
Defined.

Lemma processHubEvent_ignores_other_events_witness :
  processHubEvent (sdk := sampleSdk) (pg := samplePg)
    (pruneEvent 7 helloMessage) raisingHandler 0 deletedHello
  = (deletedHello, Returned tt).
Proof.
  apply (processHubEvent_ignores_other_events (sdk := sampleSdk) (pg := samplePg)).
  discriminate.
Defined.

Lemma storeMessage_timestamp_witness :
  ∃ date body,
    fromFarcasterTime (HubSdk := sampleSdk) (md_timestamp helloData) = ok date
    ∧ decodeRow (sdk := sampleSdk) helloMessage = Returned (helloData, body, present date)
    ∧ row_timestamp (insertValues (sdk := sampleSdk) (pg := samplePg) helloMessage helloData
                       (present date) body (opDataFor merge 0) [])
      = present date
    ∧ (lookupRow (messageKey helloMessage helloData) [] = None ->
       ∃ row,
         lookupRow (messageKey helloMessage helloData)
           (fst (storeMessage (sdk := sampleSdk) (pg := samplePg) helloMessage merge 0 []))
         = Some row
         ∧ row_timestamp row = present date).
Proof.
  eapply (proj1 (proj2 (storeMessage_timestamp (sdk := sampleSdk) (pg := samplePg)
                          helloMessage merge 0 [] helloMessage helloData
                          eq_refl eq_refl))
            (fst (storeMessage (sdk := sampleSdk) (pg := samplePg) helloMessage merge 0 []))
            true).
  reflexivity.
Defined.

Lemma verification_address_encoding_witness :
  convertProtobufMessageBodyToJson (sdk := sampleSdk) (verificationMessage ETHEREUM)
  = Returned (VerificationAddEthAddressBodyJson "0x010214" "0xab" "0xcd" (Some "ethereum")).
Proof.
  eapply (proj1 (verification_address_encoding (sdk := sampleSdk)
                   (verificationMessage ETHEREUM) _ _ eq_refl eq_refl eq_refl)).
  reflexivity.
Defined.

Lemma storeMessage_lifecycle_columns_witness :
  ∃ row,
    lookupRow (messageKey helloMessage helloData)
      (fst (storeMessage (sdk := sampleSdk) (pg := samplePg) helloMessage prune 9 deletedHello))
    = Some row
    ∧ lifecycleFlags row = opFlags prune.
Proof.
  eapply (proj1 (proj2 (proj2 (storeMessage_lifecycle_columns
                                 (sdk := sampleSdk) (pg := samplePg)
                                 helloMessage prune 9 deletedHello _ _ _ eq_refl)))).
Defined.

(** * Closed instances of the further properties *)

Lemma deletedHello_written :
  WrittenByStoreMessage (sdk := sampleSdk) (pg := samplePg) deletedHello.
Proof.
  exact (written_store (sdk := sampleSdk) (pg := samplePg) [] helloMessage delete 7
           (written_empty (sdk := sampleSdk) (pg := samplePg))).
Qed.

Lemma sampleClient_serves_casts :
  ServesPages (getAllCastMessagesByFid (HubRpcClient := sampleClient)) 42 3000 None
    [[helloMessage]; [verificationMessage SOLANA]].
Proof.
  apply (serves_more _ 42 3000 None castsPage1 [x01] [[verificationMessage SOLANA]]);
    [reflexivity|reflexivity|].
  apply (serves_last _ 42 3000 (Some [x01]) castsPage2); reflexivity.
Qed.

Lemma failingClient_serves_then_fails :
  ServesThenFails (getAllCastMessagesByFid (HubRpcClient := failingClient)) 42 3000 hubDown
    None [[helloMessage]].
Proof.
  apply (fails_later _ 42 3000 hubDown None castsPage1 [x01] []);
    [reflexivity|reflexivity|].
  apply fails_now. reflexivity.
Qed.

Lemma quietHandler_observes : handlerObserves quietHandler.
Proof. intros m op missed t. reflexivity. Qed.

Lemma observingHook_observes : hookObserves observingHook.
Proof. intros m a b c t. reflexivity. Qed.

Lemma storeMessage_unique_keys_witness : NoDup (map keyOf deletedHello).
Proof.
  apply (storeMessage_unique_keys (sdk := sampleSdk) (pg := samplePg)).
  exact deletedHello_written.
Defined.

Lemma storeMessage_frame_witness :
  length (fst (storeMessage (sdk := sampleSdk) (pg := samplePg) helloMessage prune 9
                 deletedHello))
  = length deletedHello.
Proof.
  exact (proj2 (storeMessage_frame (sdk := sampleSdk) (pg := samplePg)
                  helloMessage prune 9 deletedHello _ _ _ eq_refl)).
Defined.

Lemma storeMessage_conflict_columns_witness :
  ∃ new,
    lookupRow (messageKey helloMessage helloData)
      (fst (storeMessage (sdk := sampleSdk) (pg := samplePg) helloMessage merge 9
              deletedHello)) = Some new
    ∧ row_raw new = encodeMessage (HubSdk := sampleSdk) helloMessage.
Proof.
  edestruct (storeMessage_conflict_columns (sdk := sampleSdk) (pg := samplePg)
               helloMessage merge 9 deletedHello _ _ _ _ eq_refl eq_refl)
    as (new & Hnew & _ & _ & _ & _ & _ & Hupd & _).
  exists new. split; [exact Hnew|]. apply Hupd. reflexivity.
Defined.

Lemma storeMessage_repeat_suppressed_witness :
  storeMessage (sdk := sampleSdk) (pg := samplePg) helloMessage delete 8 deletedHello
  = (deletedHello, Returned false).
Proof.
  exact (storeMessage_repeat_suppressed (sdk := sampleSdk) (pg := samplePg)
           helloMessage delete 7 8 [] _ _ _ eq_refl).
Defined.

Lemma storeMessage_true_iff_changed_witness :
  snd (storeMessage (sdk := sampleSdk) (pg := samplePg) helloMessage merge 0 [])
  = Returned true
  ↔ fst (storeMessage (sdk := sampleSdk) (pg := samplePg) helloMessage merge 0 []) ≠ [].
Proof.
  exact (storeMessage_true_iff_changed (sdk := sampleSdk) (pg := samplePg)
           helloMessage merge 0 [] _ _ _ eq_refl).
Defined.

Lemma storeMessage_failure_witness :
  storeMessage (sdk := sampleSdk) (pg := samplePg) invalidMessage merge 0 deletedHello
  = (deletedHello,
     Thrown (InvalidMessage {| errCode := "bad_request.validation_failure";
                               errMessage := "hash is missing" |})).
Proof.
  apply (proj1 (proj2 (storeMessage_failure (sdk := sampleSdk) (pg := samplePg)
                         invalidMessage merge 0 deletedHello))).
  reflexivity.
Defined.

Lemma bytesToHex_faithful_witness :
  String.length (bytesToHex [x01; x02; x14]) = 8%nat.
Proof. exact (proj2 (bytesToHex_faithful [x01; x02; x14] [])). Defined.

Lemma convert_body_matches_type_witness :
  ∃ d, data helloMessage = Some d
       ∧ bodyMatchesType (md_type d)
           (CastAddBodyJson ["https://x"] [1; 2] [0; 6] "hello" None).
Proof.
  apply (proj1 (convert_body_matches_type (sdk := sampleSdk) helloMessage)).
  reflexivity.
Defined.

Lemma stored_body_matches_type_witness :
  Forall (fun row => bodyMatchesType (row_type row) (row_body row)) deletedHello.
Proof.
  apply (stored_body_matches_type (sdk := sampleSdk) (pg := samplePg)).
  exact deletedHello_written.
Defined.

Lemma convert_link_body_witness :
  convertProtobufMessageBodyToJson (sdk := sampleSdk) (linkMessage (Some 0) None)
  = Thrown MissingLinkTarget.
Proof.
  apply (proj1 (convert_link_body (sdk := sampleSdk) (linkMessage (Some 0) None)
                  _ _ eq_refl (or_introl eq_refl) eq_refl)).
  right. reflexivity.
Defined.

Lemma convert_reaction_target_witness :
  convertProtobufMessageBodyToJson (sdk := sampleSdk) (reactionMessage None (Some ""))
  = Thrown MissingReactionTarget.
Proof.
  apply (proj2 (proj2 (convert_reaction_target (sdk := sampleSdk)
                         (reactionMessage None (Some ""))
                         _ _ eq_refl (or_introl eq_refl) eq_refl))).
  - reflexivity.
  - right. reflexivity.
Defined.

Lemma convert_cast_add_body_witness :
  convertProtobufMessageBodyToJson (sdk := sampleSdk) embedsMessage
  = Returned (CastAddBodyJson ["0xbeef"; "https://x"] [1] [0] "embeds"
                (Some (TargetCast 9 "0x0cab"))).
Proof.
  destruct (convert_cast_add_body (sdk := sampleSdk) embedsMessage _ _
              eq_refl eq_refl eq_refl)
    as (embeds & parent & Hbody & Hembeds & _ & _ & _ & _ & _ & Hparent).
  rewrite Hbody, Hembeds, Hparent. reflexivity.
Defined.

Lemma protocol_tag_agrees_witness :
  protocolBytesToString (sdk := sampleSdk) [x01] (ProtocolTag "solana")
  = protocolBytesToString (sdk := sampleSdk) [x01] (ProtocolEnum SOLANA).
Proof.
  apply (proj1 (protocol_tag_agrees (sdk := sampleSdk) [x01] SOLANA)).
  reflexivity.
Defined.

Lemma verification_remove_encoding_witness :
  convertProtobufMessageBodyToJson (sdk := sampleSdk) (removalMessage ETHEREUM)
  = Returned (VerificationRemoveBodyJson "0x010214" (Some "ethereum")).
Proof.
  exact (verification_remove_encoding (sdk := sampleSdk) (removalMessage ETHEREUM)
           _ _ eq_refl eq_refl eq_refl).
Defined.

Lemma checkpoint_absent_is_zero_witness :
  snd (getLastProcessedEvent "hub"
         (fst (clearForTest (fst (setLastProcessedEvent "hub" 7 ∅)))))
  = Returned (Some 0%N).
Proof.
  exact (proj1 (proj2 (checkpoint_absent_is_zero "hub"
                         (fst (setLastProcessedEvent "hub" 7 ∅))))).
Defined.

Lemma checkpoint_per_hub_witness :
  snd (getLastProcessedEvent "b" (fst (setLastProcessedEvent "a" 5 ∅)))
  = snd (getLastProcessedEvent "b" ∅).
Proof.
  apply (proj1 (checkpoint_per_hub "a" "b" 5 0 ∅)). discriminate.
Defined.

Lemma processHubEvent_store_failure_witness :
  processHubEvent (sdk := sampleSdk) (pg := samplePg)
    (mergeEvent 5 invalidMessage) quietHandler 0 deletedHello
  = (deletedHello,
     Thrown (InvalidMessage {| errCode := "bad_request.validation_failure";
                               errMessage := "hash is missing" |})).
Proof.
  apply (processHubEvent_store_failure (sdk := sampleSdk) (pg := samplePg)
           (mergeEvent 5 invalidMessage) invalidMessage); reflexivity.
Defined.

Lemma processHubEvent_commit_witness :
  processHubEvent (sdk := sampleSdk) (pg := samplePg)
    (mergeEvent 5 helloMessage) quietHandler 0 []
  = (fst (storeMessage (sdk := sampleSdk) (pg := samplePg) helloMessage merge 0 []),
     Returned tt).
Proof.
  eapply proj1.
  eapply (processHubEvent_commit (sdk := sampleSdk) (pg := samplePg)
            (mergeEvent 5 helloMessage) helloMessage quietHandler 0 []);
    reflexivity.
Defined.

Lemma processHubEvent_redelivery_witness :
  processHubEvent (sdk := sampleSdk) (pg := samplePg) (mergeEvent 5 helloMessage)
    quietHandler 1
    (fst (processHubEvent (sdk := sampleSdk) (pg := samplePg) (mergeEvent 5 helloMessage)
            quietHandler 0 []))
  = (fst (processHubEvent (sdk := sampleSdk) (pg := samplePg) (mergeEvent 5 helloMessage)
            quietHandler 0 []),
     snd (processHubEvent (sdk := sampleSdk) (pg := samplePg) (mergeEvent 5 helloMessage)
            quietHandler 0 [])).
Proof.
  apply (processHubEvent_redelivery (sdk := sampleSdk) (pg := samplePg)).
  exact quietHandler_observes.
Defined.

Lemma handleMissingMessage_then_reconcile_witness :
  expectedCall
    (fst (storeMessage (sdk := sampleSdk) (pg := samplePg) helloMessage merge 0 []))
    helloMessage
  = {| hc_message := helloMessage; missingInDb := false;
       prunedInDb := false; revokedInDb := false |}.
Proof.
  apply (handleMissingMessage_then_reconcile (sdk := sampleSdk) (pg := samplePg)
           helloMessage quietHandler 0 []).
  - exact quietHandler_observes.
  - reflexivity.
  - reflexivity.
Defined.

Lemma allHubMessages_serves_witness :
  allHubMessagesOfTypeForFid (client := sampleClient) 42 CAST_ADD 5
  = ([[helloMessage]; [verificationMessage SOLANA]], PagerDone).
Proof.
  apply (allHubMessages_serves (client := sampleClient) 42 CAST_ADD 5 _ _ _ eq_refl).
  - exact sampleClient_serves_casts.
  - cbn. lia.
Defined.

Lemma reconcile_page_failure_witness :
  reconcileTypeFromHub (client := failingClient) 42 CAST_ADD observingHook 5 []
  = ([], PagerThrew (UnableToGetAll "casts" hubDown)).
Proof.
  apply (proj2 (reconcile_page_failure (client := failingClient) 42 CAST_ADD 5 _ _
                  [[helloMessage]] hubDown observingHook [] eq_refl
                  failingClient_serves_then_fails ltac:(cbn; lia)
                  ltac:(intros m a b c t; exists t; reflexivity))).
Defined.

Lemma reconcile_unknown_type_witness :
  reconcileTypeFromHub (client := sampleClient) 42 CAST_REMOVE throwingHook 5 deletedHello
  = (deletedHello, PagerThrew (UnknownTypeThrown CAST_REMOVE)).
Proof.
  apply (reconcile_unknown_type (client := sampleClient)).
  unfold reconciledTypes. intros H.
  repeat (apply elem_of_cons in H as [H|H]; [discriminate|]).
  by apply elem_of_nil in H.
Defined.

Lemma fullClient_serves_casts :
  ServesPages (getAllCastMessagesByFid (HubRpcClient := fullClient)) 42 3000 None
    [[helloMessage]; [embedsMessage]].
Proof.
  apply (serves_more _ 42 3000 None castsPage1 [x01]); [reflexivity|reflexivity|].
  apply (serves_last _ 42 3000 (Some [x01]) (onePage [embedsMessage])); reflexivity.
Defined.

Lemma reconcile_type_from_hub_witness :
  ∃ calls,
    reconcileTypeFromHub (client := fullClient) 42 CAST_ADD journalHook 5 prunedAndRevoked
    = ((prunedAndRevoked
        ++ [journalRow helloMessage false true false;
            journalRow embedsMessage true false false])%list,
       ReconciledAll calls)
    ∧ calls = [{| hc_message := helloMessage; missingInDb := false;
                  prunedInDb := true; revokedInDb := false |};
               {| hc_message := embedsMessage; missingInDb := true;
                  prunedInDb := false; revokedInDb := false |}].
Proof.
  destruct (reconcile_type_from_hub (client := fullClient) 42 CAST_ADD 5 _ _ _
              journalHook prunedAndRevoked eq_refl fullClient_serves_casts
              ltac:(cbn; lia) journalHook_returns) as (calls & Hrun & Hcalls & _).
  exists calls. split; [exact Hrun|exact Hcalls].
Defined.

Lemma reconcile_all_types_witness :
  reconcileMessagesForFid (client := fullClient) 42 journalHook 5 prunedAndRevoked
  = ((prunedAndRevoked
      ++ [journalRow helloMessage false true false;
          journalRow embedsMessage true false false;
          journalRow (reactionMessage None (Some "https://y")) true false false;
          journalRow (linkMessage (Some 7) None) false false true;
          journalRow (verificationMessage ETHEREUM) true false false;
          journalRow userDataMessage true false false])%list,
     ReconciledAll
       [{| hc_message := helloMessage; missingInDb := false;
           prunedInDb := true; revokedInDb := false |};
        {| hc_message := embedsMessage; missingInDb := true;
           prunedInDb := false; revokedInDb := false |};
        {| hc_message := reactionMessage None (Some "https://y"); missingInDb := true;
           prunedInDb := false; revokedInDb := false |};
        {| hc_message := linkMessage (Some 7) None; missingInDb := false;
           prunedInDb := false; revokedInDb := true |};
        {| hc_message := verificationMessage ETHEREUM; missingInDb := true;
           prunedInDb := false; revokedInDb := false |};
        {| hc_message := userDataMessage; missingInDb := true;
           prunedInDb := false; revokedInDb := false |}]).
Proof.
  refine (proj1 (reconcile_all_types (client := fullClient) 42 5
                   [[helloMessage]; [embedsMessage]]
                   [[reactionMessage None (Some "https://y")]]
                   [[linkMessage (Some 7) None]]
                   [[verificationMessage ETHEREUM]]
                   [[userDataMessage]]
                   journalHook prunedAndRevoked fullClient_serves_casts _ _ _ _ _ _)).
  - apply (serves_last _ 42 3000 None
             (onePage [reactionMessage None (Some "https://y")])); reflexivity.
  - apply (serves_last _ 42 3000 None (onePage [linkMessage (Some 7) None])); reflexivity.
  - apply (serves_last _ 42 3000 None (onePage [verificationMessage ETHEREUM])); reflexivity.
  - apply (serves_last _ 42 3000 None (onePage [userDataMessage])); reflexivity.
  - cbn. lia.
  - exact journalHook_returns.
Defined.


Lemma subscriber_destroy_witness :
  sub_eventTypes runningSubscriber = DEFAULT_EVENT_TYPES
  ∧ sub_stopped (fst (subscriberDestroy runningSubscriber)) = true.
Proof.
  destruct (subscriber_destroy None runningSubscriber
              (reaches_start _ (newHubSubscriber None) (Some 100%N) (ok tt) (ok 1%nat)
                 (reaches_initial _))) as (_ & Htypes & Hstopped & _).
  split; [exact Htypes|exact Hstopped].
Defined.

Lemma syncHistoricalIdEvents_covers_witness :
  ∃ f, f ∈ syncHistoricalIdEvents REGISTER 100 2550 1000
       ∧ (ef_fromBlock f ≤ 1101 ≤ ef_toBlock f)%Z.
Proof.
  destruct (proj1 (syncHistoricalIdEvents_covers REGISTER 100 2550 1000
                     (or_introl eq_refl) ltac:(lia)) ltac:(lia) 1101 ltac:(lia))
    as (f & Hin & Hrange & _).
  exists f. split; [exact Hin|exact Hrange].
Defined.

Lemma snapshotTimestamp_greatest_multiple_witness :
  (snapshotTimestamp 1700000012345 mod 10 = 0)%Z.
Proof. exact (proj1 (snapshotTimestamp_greatest_multiple 1700000012345)). Defined.

Lemma shouldSync_decides_witness :
  shouldSync false
    {| ts_prefix := ""; ts_excludedHashes := ["a"]; ts_numMessages := 3 |}
    ["b"] 5 false
  = true.
Proof.
  apply (proj2 (shouldSync_decides false
                  {| ts_prefix := ""; ts_excludedHashes := ["a"]; ts_numMessages := 3 |}
                  ["b"] 5 false)).
  split; [reflexivity|]. split; [discriminate|]. left. cbn. lia.
Defined.
